(** * AIHE Meta-Framework: the calculation engines, embedded and verified

    The repository holds two calculation engines with the same class names:

    - [backend/app/core/calculations.py], the engine the CRUD layer calls
      (module [Backend] below): metrics with a shape guard and rounding to
      three decimals, an eight-factor context score, weights taken from an
      archetype table;
    - [calculations.py] at the top level, "Version 2.0 (Vollstaendige
      Spezifikation)" (module [Full] below): metrics clamped into [0, 1], a
      ten-factor context score, the eight weighting rules with
      normalisation, and the recommendation list.

    [crud_assessment.py] (module [Crud]) aggregates subdimension scores,
    calls the backend engine and stores the result.

    Number model.  Python [float] and [Decimal] values are read as the
    rational numbers they denote, and arithmetic on them is exact ([Q]).
    [round(x, n)] is rounding to [n] decimal places with ties to even;
    [Decimal.quantize(Decimal('0.001'), rounding=ROUND_HALF_UP)] is
    rounding to three places with ties away from zero.  The binary
    representation error of floats (of the order of 1e-16 here) and the
    rounding of a Decimal quotient at its 28th significant digit are left
    out.  The statements below are therefore statements about the decimal
    numbers the program is written in terms of; "exactly 1" for a sum of
    floats means exactly 1 for the decimals they stand for.

    That error decides an outcome only where a decimal sits exactly on a
    threshold or exactly half-way between two rounded values.  The
    averages [crud_assessment.py] rounds to one decimal are such halves
    for many inputs, and they are rounded with [round_float], which
    leaves the side open.  Elsewhere the statements keep a margin from
    thresholds and halves wherever they would otherwise depend on the
    side the float takes.

    Exceptions are values of [result]; a dictionary is an association list
    in insertion order. *)

From Stdlib Require Import ZArith QArith Qround Qabs Qminmax Lqa Lia.
From Stdlib Require Import List String Bool Permutation Sorted.
Import ListNotations.

Local Open Scope Q_scope.

(* ================================================================== *)
(** * Numbers *)

Definition Qltb (x y : Q) : bool := negb (Qle_bool y x).
Definition Qgtb (x y : Q) : bool := Qltb y x.
Definition Qgeb (x y : Q) : bool := Qle_bool y x.

(** [10 ^ n] as a positive, the scale of [n] decimal places. *)
Definition pow10 (n : nat) : positive := Pos.pow 10 (Pos.of_nat n).

Definition scale (n : nat) : positive :=
  match n with O => 1%positive | _ => pow10 n end.

(** Python [round(x, n)]: nearest multiple of [10^-n], ties to even. *)
Definition round_half_even_Z (y : Q) : Z :=
  let f := Qfloor y in
  let r := y - inject_Z f in
  if Qltb r (1 # 2) then f
  else if Qltb (1 # 2) r then (f + 1)%Z
  else if Z.even f then f else (f + 1)%Z.

Definition round (x : Q) (n : nat) : Q :=
  Qmake (round_half_even_Z (x * inject_Z (Zpos (scale n)))) (scale n).

(** [round(x, n)] of a float that came out of float arithmetic and stands
    for the decimal [x].  Away from a half the float and the decimal
    round alike.  When [x] is exactly half-way between two neighbours the
    float need not be, and the neighbour [round] returns is the upper
    one when [up] holds and the lower one otherwise. *)
Definition round_float (up : bool) (x : Q) (n : nat) : Q :=
  let y := x * inject_Z (Zpos (scale n)) in
  let f := Qfloor y in
  if Qeq_bool (y - inject_Z f) (1 # 2) then
    Qmake (if up then f + 1 else f) (scale n)
  else round x n.

(** [Decimal.quantize(Decimal('0.001'), rounding=ROUND_HALF_UP)]: nearest
    multiple of [0.001], ties away from zero. *)
Definition round_half_up_Z (y : Q) : Z :=
  if Qle_bool 0 y then Qfloor (y + (1 # 2))
  else (- Qfloor (- y + (1 # 2)))%Z.

Definition quantize3 (x : Q) : Q :=
  Qmake (round_half_up_Z (x * 1000)) 1000.

Definition Qsum (l : list Q) : Q := fold_right Qplus 0 l.

(* ================================================================== *)
(** * Python dictionaries with string keys

    Insertion-ordered; assigning to a present key keeps its position,
    assigning to a new key appends. *)

Section Dict.
Context {V : Type}.

Definition dict := list (string * V).

Fixpoint dict_get (k : string) (d : dict) : option V :=
  match d with
  | [] => None
  | (k', v) :: d' => if String.eqb k k' then Some v else dict_get k d'
  end.

Fixpoint dict_set (k : string) (v : V) (d : dict) : dict :=
  match d with
  | [] => [(k, v)]
  | (k', v') :: d' =>
      if String.eqb k k' then (k', v) :: d' else (k', v') :: dict_set k v d'
  end.

Definition dict_mem (k : string) (d : dict) : bool :=
  match dict_get k d with Some _ => true | None => false end.

Definition dict_keys (d : dict) : list string := map fst d.
Definition dict_values (d : dict) : list V := map snd d.
End Dict.

Arguments dict V : clear implicits.

(** Exceptions the modelled code can raise. *)
Inductive exn : Type :=
| KeyError (k : string)
| ZeroDivisionError
| InvalidOperation
| ValueError (msg : string).

Inductive result (A : Type) : Type :=
| Ok (a : A)
| Raise (e : exn).
Arguments Ok {A} a.
Arguments Raise {A} e.

Definition bind {A B : Type} (m : result A) (f : A -> result B) : result B :=
  match m with Ok a => f a | Raise e => Raise e end.

Notation "x <- m ;; k" := (bind m (fun x => k))
  (at level 61, m at next level, right associativity).

(** [for x in l: w = step(w, x)] with exceptions. *)
Fixpoint for_each {A S : Type} (step : S -> A -> result S) (l : list A) (s : S)
  : result S :=
  match l with
  | [] => Ok s
  | x :: l' => s' <- step s x ;; for_each step l' s'
  end.

(* ================================================================== *)
(** * Shared records *)

Record DimensionScore : Type := mkDimensionScore {
  dimension_id : string;
  ist_value : Q;
  soll_value : Q;
  dynamic_weight : Q
}.

Record ContextFactor : Type := mkContextFactor {
  factor_name : string;
  factor_value : Z
}.

Inductive PriorityLevel : Type := CRITICAL | HIGH | MEDIUM | LOW.

(** [{score.dimension_id: score for score in dimension_scores}] *)
Definition scores_dict (dimension_scores : list DimensionScore)
  : dict DimensionScore :=
  fold_left (fun d s => dict_set (dimension_id s) s d) dimension_scores [].

(* ================================================================== *)
(** * backend/app/core/calculations.py *)

Module Backend.

Definition TENSION_PAIRS : list (string * string) :=
  [ ("D6", "D3"); ("D1", "D6"); ("D2", "D4"); ("D5", "D7");
    ("D1", "D8"); ("D3", "D4"); ("D2", "D1"); ("D6", "D5");
    ("D7", "D8"); ("D3", "D1"); ("D4", "D6"); ("D2", "D7") ]%string.

(** [if not dimension_scores or len(dimension_scores) != 8] *)
Definition bad_shape (dimension_scores : list DimensionScore) : bool :=
  match dimension_scores with
  | [] => true
  | _ => negb (Nat.eqb (List.length dimension_scores) 8)
  end.

(** The three metrics end in [round(x, 3)] of a float.  It is read on
    the decimal the float stands for; where that decimal has a 5 at the
    fourth place and nothing after it, the float may round to the other
    neighbour. *)
Definition calculate_eqi (dimension_scores : list DimensionScore) : Q :=
  if bad_shape dimension_scores then 0
  else
    let total_gap :=
      Qsum (map (fun s => Qabs (ist_value s - soll_value s)) dimension_scores) in
    let max_possible_gap := 8 * 3 in
    let eqi := 1 - Qmin 1 (total_gap / max_possible_gap) in
    round eqi 3.

Definition calculate_rgi (dimension_scores : list DimensionScore) : Q :=
  if bad_shape dimension_scores then 0
  else
    let weighted_sum :=
      Qsum (map (fun s => ist_value s * dynamic_weight s) dimension_scores) in
    let rgi := weighted_sum / 4 in
    round rgi 3.

Definition pair_tension (d : dict DimensionScore) (pair_weight : Q)
           (p : string * string) : Q :=
  let '(dim_a, dim_b) := p in
  match dict_get dim_a d, dict_get dim_b d with
  | Some score_a, Some score_b =>
      let gap_a := ist_value score_a - soll_value score_a in
      let gap_b := ist_value score_b - soll_value score_b in
      let tension := Qabs (gap_a - gap_b) in
      tension * pair_weight
  | _, _ => 0
  end.

Definition calculate_si (dimension_scores : list DimensionScore) : Q :=
  if bad_shape dimension_scores then 0
  else
    let d := scores_dict dimension_scores in
    let pair_weight := 1 / inject_Z (Z.of_nat (List.length TENSION_PAIRS)) in
    let total_tension :=
      fold_left (fun acc p => acc + pair_tension d pair_weight p)
                TENSION_PAIRS 0 in
    let si := total_tension / 6 in
    round (Qmin si 1) 3.

Definition calculate_sbs (eqi si rgi : Q) : Q :=
  let sbs := (eqi + (1 - si) + rgi) / 3 in
  round sbs 3.

Definition expected_factors : list string :=
  [ "Organisationsgröße"; "Branchendynamik"; "Regulatorischer Druck";
    "Technologische Komplexität"; "Change-Historie"; "Marktdynamik";
    "Wettbewerbsdruck"; "Ressourcenverfügbarkeit" ]%string.

(** [factor_values[factor.factor_name] = factor.factor_value] in a loop *)
Definition factor_values (context_factors : list ContextFactor) : dict Z :=
  fold_left (fun d f => dict_set (factor_name f) (factor_value f) d)
            context_factors [].

Definition effective_value (fv : dict Z) (name : string) : Z :=
  let value := match dict_get name fv with Some v => v | None => 1%Z end in
  if String.eqb name "Ressourcenverfügbarkeit" then (3 - value)%Z else value.

Definition calculate_context_score (context_factors : list ContextFactor) : Q :=
  match context_factors with
  | [] => 0.5
  | _ =>
      let fv := factor_values context_factors in
      let total_score :=
        fold_left (fun acc name => (acc + effective_value fv name)%Z)
                  expected_factors 0%Z in
      let context_score := inject_Z total_score / 24 in
      round context_score 3
  end.

Record Metrics : Type := mkMetrics {
  eqi : Q; rgi : Q; si : Q; sbs : Q; context_score : Q
}.

Definition calculate_all_metrics (dimension_scores : list DimensionScore)
           (context_factors : list ContextFactor) : Metrics :=
  let eqi := calculate_eqi dimension_scores in
  let rgi := calculate_rgi dimension_scores in
  let si := calculate_si dimension_scores in
  let sbs := calculate_sbs eqi si rgi in
  let context_score := calculate_context_score context_factors in
  mkMetrics eqi rgi si sbs context_score.

(** ** DynamicWeightingEngine *)

Definition balanced_weights : dict Q :=
  [ ("D1", 0.125); ("D2", 0.125); ("D3", 0.125); ("D4", 0.125);
    ("D5", 0.125); ("D6", 0.125); ("D7", 0.125); ("D8", 0.125) ]%string.

Definition ARCHETYPE_WEIGHTS : dict (dict Q) :=
  [ ("CHAOTIC_DOER",
      [ ("D1", 0.20); ("D2", 0.18); ("D3", 0.10); ("D4", 0.12);
        ("D5", 0.12); ("D6", 0.08); ("D7", 0.10); ("D8", 0.10) ]);
    ("CAUTIOUS_CORPORATE",
      [ ("D1", 0.15); ("D2", 0.15); ("D3", 0.15); ("D4", 0.15);
        ("D5", 0.10); ("D6", 0.12); ("D7", 0.08); ("D8", 0.10) ]);
    ("STAGNANT_ESTABLISHED",
      [ ("D1", 0.12); ("D2", 0.18); ("D3", 0.18); ("D4", 0.15);
        ("D5", 0.10); ("D6", 0.15); ("D7", 0.07); ("D8", 0.05) ]);
    ("BALANCED_TRANSFORMER", balanced_weights) ]%string.

(** Python raises [ZeroDivisionError] on a float division by [0.0]. *)
Definition fdiv (x y : Q) : result Q :=
  if Qeq_bool y 0 then Raise ZeroDivisionError else Ok (x / y).

Fixpoint map_values (f : Q -> result Q) (d : dict Q) : result (dict Q) :=
  match d with
  | [] => Ok []
  | (k, v) :: d' =>
      v' <- f v ;; r <- map_values f d' ;; Ok ((k, v') :: r)
  end.

(** [cls.ARCHETYPE_WEIGHTS.get(archetype,
    cls.ARCHETYPE_WEIGHTS["BALANCED_TRANSFORMER"])] *)
Definition base_weights_of (archetype : string) : dict Q :=
  match dict_get archetype ARCHETYPE_WEIGHTS with
  | Some w => w
  | None => balanced_weights
  end.

Definition calculate_dynamic_weights (archetype : string) (context_score : Q)
           (dimension_scores : option (list DimensionScore))
  : result (dict Q) :=
  let base_weights := base_weights_of archetype in
  let context_factor := 1 + (context_score - 0.5) * 0.2 in
  let adjusted_weights :=
    map (fun kv => (fst kv, snd kv * context_factor)) base_weights in
  let total_weight := Qsum (dict_values adjusted_weights) in
  normalized_weights <-
    map_values (fun weight => fdiv weight total_weight) adjusted_weights ;;
  Ok (map (fun kv => (fst kv, round (snd kv) 3)) normalized_weights).

(** ** GapAnalysisEngine *)

Definition calculate_subdimension_gap (ist_value soll_value : Q) : Q * Q :=
  let gap := Qabs (soll_value - ist_value) in
  let gap_percentage := (gap / 4) * 100 in
  (round gap 1, round gap_percentage 2).

Definition calculate_priority_level (ist_value gap : Q) : PriorityLevel :=
  if Qltb ist_value 2 && Qgtb gap 1.5 then CRITICAL
  else if Qltb ist_value 2.5 && Qgtb gap 1 then HIGH
  else if Qgtb gap 1.5 then HIGH
  else if Qgtb gap 0.8 then MEDIUM
  else LOW.

End Backend.

(* ================================================================== *)
(** * calculations.py (top level, version 2.0) *)

Module Full.

Inductive Archetyp : Type :=
| CHAOTIC_DOER
| CAUTIOUS_CORPORATE
| STAGNANT_ESTABLISHED
| BALANCED_TRANSFORMER.

(** [self.gap = abs(ist_value - soll_value)], set by the constructor. *)
Definition gap (s : DimensionScore) : Q := Qabs (ist_value s - soll_value s).

Definition SCHWELLENWERT_GAP : Q := 1.5.
Definition SCHWELLENWERT_SPANNUNG : Q := 3.0.
Definition SCHWELLENWERT_NIEDRIG : Q := 0.2.
Definition SCHWELLENWERT_HOCH : Q := 0.8.
Definition SCHWELLENWERT_IST : Q := 3.5.
Definition ANPASSUNGSFAKTOR : Q := 1.2.
Definition ANPASSUNGSFAKTOR_HOCH : Q := 1.3.
Definition ANPASSUNGSFAKTOR_MITTEL : Q := 1.1.
Definition ANPASSUNGSFAKTOR_DAEMPFUNG : Q := 0.8.
Definition MINIMUM_GEWICHT : Q := 0.01.

Definition SPANNUNGSPAARE : list (string * string) :=
  [ ("D1", "D2"); ("D1", "D3"); ("D1", "D4"); ("D1", "D5");
    ("D2", "D3"); ("D2", "D6"); ("D3", "D4"); ("D3", "D6");
    ("D4", "D5"); ("D5", "D6"); ("D6", "D7"); ("D7", "D8") ]%string.

(** [max(0.0, min(1.0, x))] *)
Definition clamp01 (x : Q) : Q := Qmax 0 (Qmin 1 x).

Definition calculate_eqi (dimension_scores : list DimensionScore) : Q :=
  let total_gap := Qsum (map gap dimension_scores) in
  let eqi := 1 - total_gap / 24 in
  clamp01 eqi.

Definition calculate_rgi (dimension_scores : list DimensionScore) : Q :=
  let weighted_sum :=
    Qsum (map (fun s => ist_value s * dynamic_weight s) dimension_scores) in
  let rgi := weighted_sum / 4 in
  clamp01 rgi.

Definition pair_tension (d : dict DimensionScore) (p : string * string) : Q :=
  let '(dim1, dim2) := p in
  match dict_get dim1 d, dict_get dim2 d with
  | Some score1, Some score2 =>
      let tension := Qabs (ist_value score1 - ist_value score2) in
      let avg_weight := (dynamic_weight score1 + dynamic_weight score2) / 2 in
      tension * avg_weight
  | _, _ => 0
  end.

Definition calculate_si (dimension_scores : list DimensionScore) : Q :=
  let d := scores_dict dimension_scores in
  let total_weighted_tension :=
    fold_left (fun acc p => acc + pair_tension d p) SPANNUNGSPAARE 0 in
  let si := total_weighted_tension / 6 in
  clamp01 si.

Definition calculate_sbs (eqi si rgi : Q) : Q :=
  let sbs := (eqi + (1 - si) + rgi) / 3 in
  clamp01 sbs.

Definition context_weights : list Q :=
  [0.12; 0.11; 0.10; 0.09; 0.11; 0.10; 0.12; 0.08; 0.09; 0.08].

(** [if not context_factors or len(context_factors) != 10]: an empty list
    has length 0, so the length test decides. *)
Definition calculate_context_score (context_factors : list ContextFactor) : Q :=
  if negb (Nat.eqb (List.length context_factors) 10) then 0.5
  else
    let weighted_sum :=
      Qsum (map (fun fw => inject_Z (factor_value (fst fw)) * snd fw)
                (combine context_factors context_weights)) in
    let context_score := weighted_sum / 3 in
    clamp01 context_score.

(** ** DynamicWeightingEngine *)

Definition dims : list string :=
  ["D1"; "D2"; "D3"; "D4"; "D5"; "D6"; "D7"; "D8"]%string.

Definition _load_base_weights (is_kmu : bool) : dict Q :=
  if is_kmu then
    [ ("D1", 0.10); ("D2", 0.15); ("D3", 0.15); ("D4", 0.15);
      ("D5", 0.10); ("D6", 0.10); ("D7", 0.15); ("D8", 0.10) ]%string
  else map (fun d => (d, 0.125)) dims.

(** [weights[k] *= c]; a missing key raises [KeyError]. *)
Definition dict_mul (k : string) (c : Q) (weights : dict Q) : result (dict Q) :=
  match dict_get k weights with
  | Some v => Ok (dict_set k (v * c) weights)
  | None => Raise (KeyError k)
  end.

Definition _apply_rule_1_tight_gaps (weights : dict Q)
           (dimension_scores : list DimensionScore) : result (dict Q) :=
  for_each (fun w score =>
              if Qle_bool (gap score) SCHWELLENWERT_GAP
              then dict_mul (dimension_id score) ANPASSUNGSFAKTOR w
              else Ok w)
           dimension_scores weights.

Definition _apply_rule_2_large_gaps (weights : dict Q)
           (dimension_scores : list DimensionScore) : result (dict Q) :=
  for_each (fun w score =>
              if Qgtb (gap score) SCHWELLENWERT_GAP
              then dict_mul (dimension_id score) ANPASSUNGSFAKTOR w
              else Ok w)
           dimension_scores weights.

Definition _apply_rule_3_high_tension (weights : dict Q)
           (dimension_scores : list DimensionScore) : result (dict Q) :=
  let d := scores_dict dimension_scores in
  match dict_get "D6" d, dict_get "D3" d with
  | Some s6, Some s3 =>
      let gap_d6 := ist_value s6 - soll_value s6 in
      let gap_d3 := ist_value s3 - soll_value s3 in
      let spannung_tech_kultur := gap_d6 - gap_d3 in
      let intensitaet := Qabs spannung_tech_kultur in
      if Qgtb intensitaet SCHWELLENWERT_SPANNUNG then
        if Qltb gap_d3 gap_d6 then
          w <- dict_mul "D3" ANPASSUNGSFAKTOR_HOCH weights ;;
          dict_mul "D6" ANPASSUNGSFAKTOR_MITTEL w
        else
          w <- dict_mul "D6" ANPASSUNGSFAKTOR_HOCH weights ;;
          dict_mul "D3" ANPASSUNGSFAKTOR_MITTEL w
      else Ok weights
  | _, _ => Ok weights
  end.

Definition _apply_rule_4_context (weights : dict Q) (context_score : Q)
  : result (dict Q) :=
  if Qltb context_score SCHWELLENWERT_NIEDRIG then
    dict_mul "D7" ANPASSUNGSFAKTOR weights
  else if Qgtb context_score SCHWELLENWERT_HOCH then
    w <- dict_mul "D1" ANPASSUNGSFAKTOR weights ;;
    dict_mul "D2" ANPASSUNGSFAKTOR w
  else Ok weights.

(** The body is the single statement [return False]. *)
Definition _is_in_critical_tension (dimension_id : string)
           (dimension_scores : list DimensionScore) : bool :=
  false.

Definition _apply_rule_5_above_average (weights : dict Q)
           (dimension_scores : list DimensionScore) : result (dict Q) :=
  for_each (fun w score =>
              let ist := ist_value score in
              let soll := soll_value score in
              if Qgtb ist SCHWELLENWERT_IST
                 && Qgeb ist soll
                 && negb (_is_in_critical_tension (dimension_id score)
                                                  dimension_scores)
              then dict_mul (dimension_id score) ANPASSUNGSFAKTOR_DAEMPFUNG w
              else Ok w)
           dimension_scores weights.

Definition _get_archetyp_factors (archetyp : Archetyp) : dict Q :=
  match archetyp with
  | CHAOTIC_DOER =>
      [ ("D1", 1.5); ("D2", 1.4); ("D3", 0.9); ("D4", 1.1);
        ("D5", 1.1); ("D6", 0.7); ("D7", 1.3); ("D8", 1.2) ]%string
  | CAUTIOUS_CORPORATE =>
      [ ("D1", 0.8); ("D2", 1.0); ("D3", 1.5); ("D4", 1.4);
        ("D5", 1.0); ("D6", 1.3); ("D7", 1.0); ("D8", 1.1) ]%string
  | STAGNANT_ESTABLISHED =>
      [ ("D1", 1.2); ("D2", 1.4); ("D3", 1.3); ("D4", 1.2);
        ("D5", 1.0); ("D6", 1.2); ("D7", 1.0); ("D8", 1.3) ]%string
  | BALANCED_TRANSFORMER => map (fun d => (d, 1.0)) dims
  end.
(* The closing [else] of the source returns the same neutral table for
   anything that is not one of the four members of the enumeration. *)

Definition _apply_rule_6_archetyp (weights : dict Q) (archetyp : Archetyp)
  : dict Q :=
  let faktoren := _get_archetyp_factors archetyp in
  map (fun kv =>
         match dict_get (fst kv) faktoren with
         | Some f => (fst kv, snd kv * f)
         | None => kv
         end) weights.

Definition _apply_minimum_security (weights : dict Q) : dict Q :=
  map (fun kv =>
         if Qltb (snd kv) MINIMUM_GEWICHT then (fst kv, MINIMUM_GEWICHT)
         else kv) weights.

(** Decimal division: [x / 0] raises [DivisionByZero] (a
    [ZeroDivisionError]), [0 / 0] raises [InvalidOperation]. *)
Definition ddiv (x y : Q) : result Q :=
  if Qeq_bool y 0 then
    if Qeq_bool x 0 then Raise InvalidOperation else Raise ZeroDivisionError
  else Ok (x / y).

Fixpoint divide_all (summe : Q) (weights : dict Q) : result (dict Q) :=
  match weights with
  | [] => Ok []
  | (k, v) :: d' =>
      v' <- ddiv v summe ;; r <- divide_all summe d' ;; Ok ((k, v') :: r)
  end.

(** [max(d, key=d.get)]: the first key, in dictionary order, whose value
    no other value exceeds; [ValueError] on an empty dictionary. *)
Fixpoint argmax_from (best : string) (best_v : Q) (d : dict Q) : string :=
  match d with
  | [] => best
  | (k, v) :: d' =>
      if Qltb best_v v then argmax_from k v d' else argmax_from best best_v d'
  end.

Definition argmax (d : dict Q) : result string :=
  match d with
  | [] => Raise (ValueError "max() arg is an empty sequence")
  | (k, v) :: d' => Ok (argmax_from k v d')
  end.

(** The warning printed when [abs(differenz) > 0.001] changes no value and
    is left out. *)
Definition _round_and_correct (weights : dict Q) : result (dict Q) :=
  let rounded_weights := map (fun kv => (fst kv, quantize3 (snd kv))) weights in
  let summe := Qsum (dict_values rounded_weights) in
  let differenz := 1 - summe in
  if Qgtb (Qabs differenz) 0.0001 then
    groesste_dimension <- argmax rounded_weights ;;
    match dict_get groesste_dimension rounded_weights with
    | Some v => Ok (dict_set groesste_dimension (v + differenz) rounded_weights)
    | None => Raise (KeyError groesste_dimension)
    end
  else Ok rounded_weights.

Definition _normalize_weights (weights : dict Q) : result (dict Q) :=
  let summe := Qsum (dict_values weights) in
  w <- divide_all summe weights ;;
  _round_and_correct w.

Definition calculate_dynamic_weights (dimension_scores : list DimensionScore)
           (context_score : Q) (archetyp : Archetyp) (is_kmu : bool)
  : result (dict Q) :=
  let weights := _load_base_weights is_kmu in
  weights <- _apply_rule_1_tight_gaps weights dimension_scores ;;
  weights <- _apply_rule_2_large_gaps weights dimension_scores ;;
  weights <- _apply_rule_3_high_tension weights dimension_scores ;;
  weights <- _apply_rule_4_context weights context_score ;;
  weights <- _apply_rule_5_above_average weights dimension_scores ;;
  let weights := _apply_rule_6_archetyp weights archetyp in
  let weights := _apply_minimum_security weights in
  _normalize_weights weights.

(** ** GapAnalysisEngine *)

(** [abs(ist_value - soll_value)] on floats, read as the exact distance
    of the two decimals; the float can differ from it in its last bit
    ([abs(2.3 - 3.1)] is a little more than 0.8). *)
Definition calculate_subdimension_gap (ist_value soll_value : Q) : Q * Q :=
  let gap := Qabs (ist_value - soll_value) in
  let gap_percent := (gap / 4) * 100 in
  (gap, gap_percent).

Definition calculate_priority_level (ist_value gap : Q) : PriorityLevel :=
  if Qltb ist_value 2 && Qgtb gap 1.5 then CRITICAL
  else if Qltb ist_value 2.5 && Qgtb gap 1 then HIGH
  else if Qgtb gap 0.8 then HIGH
  else if Qgtb gap 0.5 then MEDIUM
  else LOW.

Record Recommendation : Type := mkRecommendation {
  rec_dimension_id : string;
  rec_priority : PriorityLevel;
  rec_gap : Q;
  rec_gap_percent : Q;
  rec_description : string;
  rec_ist_value : Q;
  rec_soll_value : Q
}.

Definition priority_order (p : PriorityLevel) : Z :=
  match p with CRITICAL => 0 | HIGH => 1 | MEDIUM => 2 | LOW => 3 end%Z.

(** The sort key [(priority_order[x["priority"]], -x["gap"])] and the
    order of Python tuples on it. *)
Definition sort_key (r : Recommendation) : Z * Q :=
  (priority_order (rec_priority r), - rec_gap r).

Definition key_lt (a b : Z * Q) : bool :=
  Z.ltb (fst a) (fst b) || (Z.eqb (fst a) (fst b) && Qltb (snd a) (snd b)).

(** [list.sort(key=...)] is stable: an element goes after every element
    whose key is not greater than its own.  [sort_by_key] inserts from
    the right, so that earlier elements end up in front of later ones
    with the same key. *)
Fixpoint insert_by_key (x : Recommendation) (l : list Recommendation)
  : list Recommendation :=
  match l with
  | [] => [x]
  | y :: l' =>
      if key_lt (sort_key y) (sort_key x) then y :: insert_by_key x l'
      else x :: y :: l'
  end.

Definition sort_by_key (l : list Recommendation) : list Recommendation :=
  fold_right insert_by_key [] l.

Definition is_urgent (p : PriorityLevel) : bool :=
  match p with CRITICAL | HIGH => true | _ => false end.

Definition recommend (score : DimensionScore) : option Recommendation :=
  let '(gap, gap_percent) :=
    calculate_subdimension_gap (ist_value score) (soll_value score) in
  let priority := calculate_priority_level (ist_value score) gap in
  if is_urgent priority then
    Some (mkRecommendation
            (dimension_id score) priority gap gap_percent
            ("Dimension " ++ dimension_id score ++ " benötigt Aufmerksamkeit")
            (ist_value score) (soll_value score))
  else None.

Definition collect (dimension_scores : list DimensionScore)
  : list Recommendation :=
  flat_map (fun score =>
              match recommend score with Some r => [r] | None => [] end)
           dimension_scores.

Definition generate_recommendations (dimension_scores : list DimensionScore)
  : list Recommendation :=
  sort_by_key (collect dimension_scores).

End Full.

(* ================================================================== *)
(** * crud_assessment.py and the completion schema *)

Module Crud.

Inductive AssessmentStatus : Type := DRAFT | IN_PROGRESS | COMPLETED | ARCHIVED.

Record Assessment : Type := mkAssessment {
  assessment_id : nat;
  overall_rgi : option Q;
  overall_eqi : option Q;
  overall_si : option Q;
  overall_sbs : option Q;
  context_score : option Q;
  status : AssessmentStatus;
  completion_percentage : Z
}.

(** [SubdimensionScoreCreate]: the fields the computation reads. *)
Record SubdimensionScoreCreate : Type := mkSubdimensionScoreCreate {
  subdimension_id : string;
  sub_ist_value : Q;
  sub_soll_value : Q
}.

Record SubdimensionScore : Type := mkSubdimensionScore {
  score_data : SubdimensionScoreCreate;
  sub_gap : Q;
  sub_gap_percentage : Q;
  sub_priority_level : PriorityLevel
}.

(** A [DimensionScore] row: the shared fields and the stored [gap]. *)
Record DimensionScoreRow : Type := mkDimensionScoreRow {
  row_score : DimensionScore;
  row_gap : Q
}.

(** ** [AssessmentCompletion] (backend/app/schemas/assessment.py)

    The validator of the field [subdimension_scores]; pydantic runs it
    whenever an [AssessmentCompletion] is built, so also when the API
    layer parses the request body into the parameter of the route. *)

Definition expected_subdimensions : list string :=
  [ "D1.1"; "D1.2"; "D2.1"; "D2.2"; "D3.1"; "D3.2"; "D4.1"; "D4.2";
    "D5.1"; "D5.2"; "D6.1"; "D6.2"; "D7.1"; "D7.2"; "D8.1"; "D8.2" ]%string.

Definition validate_all_subdimensions (v : list SubdimensionScoreCreate)
  : result (list SubdimensionScoreCreate) :=
  if negb (Nat.eqb (List.length v) 16) then
    Raise (ValueError "Must provide exactly 16 subdimension scores")
  else
    let provided_subdimensions := map subdimension_id v in
    let missing :=
      filter (fun e => negb (existsb (String.eqb e) provided_subdimensions))
             expected_subdimensions in
    match missing with
    | [] => Ok v
    | _ => Raise (ValueError "Missing subdimension scores")
    end.

(** An [AssessmentCompletion] object: its two fields, and the fact that
    [subdimension_scores] is a list the validator returned.  There is no
    such object for a list the validator refuses. *)
Record AssessmentCompletion : Type := mkAssessmentCompletion {
  subdimension_scores : list SubdimensionScoreCreate;
  context_factors : list ContextFactor;
  subdimension_scores_validated :
    exists v, validate_all_subdimensions v = Ok subdimension_scores
}.

(** The object for the outcome [r] of the validator on the list given:
    the list it returned becomes the field, what it raised is raised. *)
Definition validated_completion
           (given : list SubdimensionScoreCreate)
           (context_factors : list ContextFactor)
           (r : result (list SubdimensionScoreCreate))
  : validate_all_subdimensions given = r -> result AssessmentCompletion :=
  match r with
  | Ok v =>
      fun validated =>
        Ok (mkAssessmentCompletion v context_factors
                                   (ex_intro _ given validated))
  | Raise e => fun _ => Raise e
  end.

(** [AssessmentCompletion(subdimension_scores=..., context_factors=...)]:
    the constructor runs the validator. *)
Definition AssessmentCompletion_init
           (subdimension_scores : list SubdimensionScoreCreate)
           (context_factors : list ContextFactor)
  : result AssessmentCompletion :=
  validated_completion subdimension_scores context_factors
                       (validate_all_subdimensions subdimension_scores)
                       eq_refl.

(** The session: the assessments table and the rows added to it. *)
Record Session : Type := mkSession {
  assessments : list Assessment;
  subdimension_rows : list SubdimensionScore;
  dimension_rows : list DimensionScoreRow;
  context_rows : list ContextFactor
}.

(** [self.get(db, id=assessment_id)] *)
Definition get (db : Session) (id : nat) : option Assessment :=
  find (fun a => Nat.eqb (assessment_id a) id) (assessments db).

(** [db.add(assessment)] of an object already in the session. *)
Definition put (a : Assessment) (l : list Assessment) : list Assessment :=
  map (fun a' => if Nat.eqb (assessment_id a') (assessment_id a) then a else a') l.

Definition dimensions : list string :=
  ["D1"; "D2"; "D3"; "D4"; "D5"; "D6"; "D7"; "D8"]%string.

Definition score_subdimension (score_data : SubdimensionScoreCreate)
  : SubdimensionScore :=
  let '(gap, gap_percentage) :=
    Backend.calculate_subdimension_gap (sub_ist_value score_data)
                                       (sub_soll_value score_data) in
  let priority_level :=
    Backend.calculate_priority_level (sub_ist_value score_data) gap in
  mkSubdimensionScore score_data gap gap_percentage priority_level.

Section FloatAverages.

(** The averages below are floats, and an average of two tenths can be
    exactly half-way between two tenths (1.0 and 1.1 give 1.05).  The
    float then lies just above or just below the half, as the binary
    representations of the operands have it, and [round(avg, 1)] goes to
    that side.  [halfway_up] tells the side, for the values the float was
    computed from. *)
Variable halfway_up : list Q -> bool.

(** One round of [for dim_id in dimensions]: a row when exactly two
    subdimension scores start with [dim_id + '.'], nothing otherwise. *)
Definition aggregate_dimension (dynamic_weights : dict Q)
           (subdimension_scores : list SubdimensionScore) (dim_id : string)
  : list DimensionScoreRow :=
  let dim_subdimensions :=
    filter (fun score =>
              String.prefix (dim_id ++ ".")
                            (subdimension_id (score_data score)))
           subdimension_scores in
  if Nat.eqb (List.length dim_subdimensions) 2 then
    let ist_values := map (fun s => sub_ist_value (score_data s)) dim_subdimensions in
    let soll_values := map (fun s => sub_soll_value (score_data s)) dim_subdimensions in
    let avg_ist := Qsum ist_values / 2 in
    let avg_soll := Qsum soll_values / 2 in
    let gap := Qabs (avg_soll - avg_ist) in
    [ mkDimensionScoreRow
        (mkDimensionScore dim_id
           (round_float (halfway_up ist_values) avg_ist 1)
           (round_float (halfway_up soll_values) avg_soll 1)
           (match dict_get dim_id dynamic_weights with
            | Some w => w
            | None => 0.125
            end))
        (round_float (halfway_up (soll_values ++ ist_values)) gap 1) ]
  else [].

Definition complete_assessment (db : Session) (assessment_id : nat)
           (completion_data : AssessmentCompletion)
           (organisation_archetype : string)
  : result (Assessment * Session) :=
  match get db assessment_id with
  | None => Raise (ValueError "Assessment not found")
  | Some assessment =>
      let context_factors := context_factors completion_data in
      let context_score := Backend.calculate_context_score context_factors in
      dynamic_weights <-
        Backend.calculate_dynamic_weights organisation_archetype
                                          context_score None ;;
      let subdimension_scores :=
        map score_subdimension (subdimension_scores completion_data) in
      let dimension_scores :=
        flat_map (aggregate_dimension dynamic_weights subdimension_scores)
                 dimensions in
      let metrics :=
        Backend.calculate_all_metrics (map row_score dimension_scores)
                                      context_factors in
      let assessment :=
        mkAssessment (Crud.assessment_id assessment)
                     (Some (Backend.rgi metrics))
                     (Some (Backend.eqi metrics))
                     (Some (Backend.si metrics))
                     (Some (Backend.sbs metrics))
                     (Some (Backend.context_score metrics))
                     COMPLETED 100 in
      Ok (assessment,
          mkSession (put assessment (assessments db))
                    (subdimension_rows db ++ subdimension_scores)
                    (dimension_rows db ++ dimension_scores)
                    (context_rows db ++ context_factors))
  end.

End FloatAverages.

End Crud.

(* ================================================================== *)
(** * backend/app/schemas/assessment.py: the field validator *)

Module Schemas.

(** [validate_maturity_values]: [round(v * 10) / 10], with Python's
    [round] to the nearest integer, ties to even. *)
Definition validate_maturity_values (v : Q) : Q :=
  inject_Z (round_half_even_Z (v * 10)) / 10.

End Schemas.

(* ================================================================== *)
(** * assessments.py: the calculation behind the API routes *)

Module Assessments.

(** [subdimension_id[:2]] (identifiers are ASCII). *)
Definition dim_prefix (subdimension_id : string) : string :=
  substring 0 2 subdimension_id.

(** The loop that fills [dimension_groups]: a new key gets an empty list,
    then the score is appended to the list of its key. *)
Definition group_step (dimension_groups : dict (list Crud.SubdimensionScoreCreate))
           (score : Crud.SubdimensionScoreCreate)
  : dict (list Crud.SubdimensionScoreCreate) :=
  let dim_id := dim_prefix (Crud.subdimension_id score) in
  match dict_get dim_id dimension_groups with
  | None => dict_set dim_id ([] ++ [score]) dimension_groups
  | Some scores => dict_set dim_id (scores ++ [score]) dimension_groups
  end.

Definition dimension_groups (scores : list Crud.SubdimensionScoreCreate)
  : dict (list Crud.SubdimensionScoreCreate) :=
  fold_left group_step scores [].

(** One [DimensionScore] for a group: the two averages; the weight is the
    constructor's default [Decimal("0.125")].  A group is never empty. *)
Definition average_group (group : string * list Crud.SubdimensionScoreCreate)
  : DimensionScore :=
  let '(dim_id, scores) := group in
  let n := inject_Z (Z.of_nat (List.length scores)) in
  let avg_ist := Qsum (map Crud.sub_ist_value scores) / n in
  let avg_soll := Qsum (map Crud.sub_soll_value scores) / n in
  mkDimensionScore dim_id avg_ist avg_soll 0.125.

Definition to_dimension_scores (scores : list Crud.SubdimensionScoreCreate)
  : list DimensionScore :=
  map average_group (dimension_groups scores).

(** [Archetyp(archetype)], [ValueError] caught: any other value is the
    balanced transformer. *)
Definition archetyp_of (archetype : string) : Full.Archetyp :=
  if String.eqb archetype "CHAOTIC_DOER" then Full.CHAOTIC_DOER
  else if String.eqb archetype "CAUTIOUS_CORPORATE" then Full.CAUTIOUS_CORPORATE
  else if String.eqb archetype "STAGNANT_ESTABLISHED" then Full.STAGNANT_ESTABLISHED
  else Full.BALANCED_TRANSFORMER.

Record DimensionAnalysis : Type := mkDimensionAnalysis {
  an_dimension_id : string;
  an_ist_value : Q;
  an_soll_value : Q;
  an_gap : Q;
  an_gap_percent : Q;
  an_priority : PriorityLevel;
  an_dynamic_weight : Q
}.

Record CalculationResult : Type := mkCalculationResult {
  core_eqi : Q;
  core_rgi : Q;
  core_si : Q;
  core_sbs : Q;
  core_context_score : Q;
  dynamic_weights : dict Q;
  dimension_analysis : list DimensionAnalysis;
  recommendations : list Full.Recommendation;
  meta_total_gap : Q;
  meta_average_ist_value : Q;
  meta_average_soll_value : Q;
  critical_dimensions : list string;
  high_priority_dimensions : list string
}.

(** Step 3: [score.dynamic_weight = ...] for the scores whose id has a
    weight. *)
Definition attach_weight (dynamic_weights : dict Q) (score : DimensionScore)
  : DimensionScore :=
  match dict_get (dimension_id score) dynamic_weights with
  | Some w => mkDimensionScore (dimension_id score) (ist_value score)
                               (soll_value score) w
  | None => score
  end.

Definition analyse (score : DimensionScore) : DimensionAnalysis :=
  let '(gap, gap_percent) :=
    Full.calculate_subdimension_gap (ist_value score) (soll_value score) in
  let priority := Full.calculate_priority_level (ist_value score) gap in
  mkDimensionAnalysis (dimension_id score) (ist_value score) (soll_value score)
                      gap gap_percent priority (dynamic_weight score).

(** [sum(...) / len(dimension_scores)]: the division of the integer 0 by
    the integer 0 raises for an empty list. *)
Definition average (values : list Q) : result Q :=
  match values with
  | [] => Raise ZeroDivisionError
  | _ => Ok (Qsum values / inject_Z (Z.of_nat (List.length values)))
  end.

Definition calculate_complete_aihe_metrics
           (dimension_scores : list DimensionScore)
           (context_factors : list ContextFactor)
           (archetype : string) (is_kmu : bool) : result CalculationResult :=
  let context_score := Full.calculate_context_score context_factors in
  let archetyp_enum := archetyp_of archetype in
  dynamic_weights <-
    Full.calculate_dynamic_weights dimension_scores context_score
                                   archetyp_enum is_kmu ;;
  let dimension_scores := map (attach_weight dynamic_weights) dimension_scores in
  let eqi := Full.calculate_eqi dimension_scores in
  let rgi := Full.calculate_rgi dimension_scores in
  let si := Full.calculate_si dimension_scores in
  let sbs := Full.calculate_sbs eqi si rgi in
  let recommendations := Full.generate_recommendations dimension_scores in
  let dimension_analysis := map analyse dimension_scores in
  average_ist <- average (map ist_value dimension_scores) ;;
  average_soll <- average (map soll_value dimension_scores) ;;
  Ok (mkCalculationResult
        (round eqi 3) (round rgi 3) (round si 3) (round sbs 3)
        (round context_score 3)
        dynamic_weights dimension_analysis recommendations
        (Qsum (map Full.gap dimension_scores))
        average_ist average_soll
        (map dimension_id
             (filter (fun score => Qltb (ist_value score) 2.0
                                   && Qgtb (Full.gap score) 1.5)
                     dimension_scores))
        (map dimension_id
             (filter (fun score => Qltb (ist_value score) 2.5
                                   && Qgtb (Full.gap score) 1.0)
                     dimension_scores))).

Definition calculate_aihe_metrics (completion_data : Crud.AssessmentCompletion)
           (archetype : string) (is_kmu : bool) : result CalculationResult :=
  let dimension_scores :=
    to_dimension_scores (Crud.subdimension_scores completion_data) in
  calculate_complete_aihe_metrics
    dimension_scores (Crud.context_factors completion_data) archetype is_kmu.

(** The counts [get_assessment_recommendations] returns beside the list. *)
Record RecommendationReport : Type := mkRecommendationReport {
  report_recommendations : list Full.Recommendation;
  total_recommendations : nat;
  critical_count : nat;
  high_count : nat;
  medium_count : nat;
  low_count : nat
}.

Definition priority_eqb (p q : PriorityLevel) : bool :=
  match p, q with
  | CRITICAL, CRITICAL | HIGH, HIGH | MEDIUM, MEDIUM | LOW, LOW => true
  | _, _ => false
  end.

Definition count_priority (p : PriorityLevel) (recs : list Full.Recommendation)
  : nat :=
  List.length (filter (fun r => priority_eqb (Full.rec_priority r) p) recs).

(** The part of [get_assessment_recommendations] after the assessment is
    loaded, over its subdimension scores. *)
Definition recommendation_report (subdimension_scores : list Crud.SubdimensionScoreCreate)
  : RecommendationReport :=
  let dimension_scores := to_dimension_scores subdimension_scores in
  let recommendations := Full.generate_recommendations dimension_scores in
  mkRecommendationReport
    recommendations
    (List.length recommendations)
    (count_priority CRITICAL recommendations)
    (count_priority HIGH recommendations)
    (count_priority MEDIUM recommendations)
    (count_priority LOW recommendations).

End Assessments.

(* ================================================================== *)
(** * crud_organisation.py: the organisations table *)

Module Organisations.

Record Organisation : Type := mkOrganisation {
  organisation_id : nat;
  name : string;
  industry : option string;
  primary_archetype : option string;
  active : bool
}.

(** The table, in the order the database returns its rows. *)
Definition Table := list Organisation.

Definition option_string_eqb (o : option string) (s : string) : bool :=
  match o with Some s' => String.eqb s' s | None => false end.

(** [query.offset(skip).limit(limit).all()] after the optional filter. *)
Definition get_multi (db : Table) (skip limit : nat) (active_only : bool)
  : list Organisation :=
  let query := if active_only then filter active db else db in
  firstn limit (skipn skip query).

Definition get_by_name (db : Table) (n : string) : option Organisation :=
  find (fun o => String.eqb (name o) n) db.

Definition get_by_industry (db : Table) (i : string) : list Organisation :=
  filter (fun o => option_string_eqb (industry o) i && active o) db.

Definition get_by_archetype (db : Table) (a : string) : list Organisation :=
  filter (fun o => option_string_eqb (primary_archetype o) a && active o) db.

Definition deactivate (o : Organisation) : Organisation :=
  mkOrganisation (organisation_id o) (name o) (industry o)
                 (primary_archetype o) false.

(** The row with primary key [id], rewritten in place. *)
Fixpoint update_row (id : nat) (f : Organisation -> Organisation) (db : Table)
  : Table :=
  match db with
  | [] => []
  | o :: db' =>
      if Nat.eqb (organisation_id o) id then f o :: db'
      else o :: update_row id f db'
  end.

(** [remove]: [obj = db.query(self.model).get(id)], then
    [obj.active = False]; for an unknown id [obj] is [None] and the
    assignment raises [AttributeError] ([None] below). *)
Definition remove (db : Table) (id : nat) : option (Organisation * Table) :=
  match find (fun o => Nat.eqb (organisation_id o) id) db with
  | None => None
  | Some obj => Some (deactivate obj, update_row id deactivate db)
  end.

End Organisations.

(* ================================================================== *)
(** * The specification's words, for comparison with the code *)

(** Section 4.1: the ordered decision cascade, first match wins. *)
Inductive canonical_cascade (ist gap : Q) : PriorityLevel -> Prop :=
| cascade_1 :
    ist < 2 /\ 1.5 < gap ->
    canonical_cascade ist gap CRITICAL
| cascade_2 :
    ~ (ist < 2 /\ 1.5 < gap) ->
    ist < 2.5 /\ 1 < gap ->
    canonical_cascade ist gap HIGH
| cascade_3 :
    ~ (ist < 2 /\ 1.5 < gap) -> ~ (ist < 2.5 /\ 1 < gap) ->
    1.5 < gap ->
    canonical_cascade ist gap HIGH
| cascade_4 :
    ~ (ist < 2 /\ 1.5 < gap) -> ~ (ist < 2.5 /\ 1 < gap) -> ~ 1.5 < gap ->
    0.8 < gap ->
    canonical_cascade ist gap MEDIUM
| cascade_5 :
    ~ (ist < 2 /\ 1.5 < gap) -> ~ (ist < 2.5 /\ 1 < gap) -> ~ 1.5 < gap ->
    ~ 0.8 < gap ->
    canonical_cascade ist gap LOW.

(** Section 4.2: the value supplied for a factor name (the last one, when
    a name is supplied more than once), 1 when absent; the
    resource-availability factor inverted; the sum over the eight expected
    names divided by 24 and rounded to three decimals; 0.5 for no factors. *)
Definition supplied_value (name : string) (context_factors : list ContextFactor)
  : option Z :=
  match find (fun f => String.eqb (factor_name f) name) (rev context_factors) with
  | Some f => Some (factor_value f)
  | None => None
  end.

Definition spec_effective_value (context_factors : list ContextFactor)
           (name : string) : Z :=
  let value :=
    match supplied_value name context_factors with
    | Some v => v
    | None => 1%Z
    end in
  if String.eqb name "Ressourcenverfügbarkeit" then (3 - value)%Z else value.

Definition spec_context_score (context_factors : list ContextFactor) : Q :=
  match context_factors with
  | [] => 0.5
  | _ =>
      round (inject_Z (fold_right Z.add 0%Z
                         (map (spec_effective_value context_factors)
                              Backend.expected_factors)) / 24) 3
  end.

(** Section 4.6, step 1: a set of subdimension scores with exactly two
    subdimensions for each of the eight dimensions, sixteen in all. *)
Definition two_per_dimension (scores : list Crud.SubdimensionScoreCreate)
  : Prop :=
  List.length scores = 16%nat
  /\ forall dim_id,
      In dim_id Crud.dimensions ->
      List.length (filter (String.prefix (dim_id ++ "."))
                          (map Crud.subdimension_id scores)) = 2%nat.

(** Two weight dictionaries with the same keys in the same order and the
    same numbers. *)
Definition same_weights (w1 w2 : dict Q) : Prop :=
  Forall2 (fun a b => fst a = fst b /\ snd a == snd b) w1 w2.

(** Section 4.5: the priority of a dimension, the dimensions that get a
    recommendation, the record they get, and the order of the list. *)
Definition dimension_priority (s : DimensionScore) : PriorityLevel :=
  Full.calculate_priority_level (ist_value s) (Qabs (ist_value s - soll_value s)).

Definition needs_recommendation (s : DimensionScore) : bool :=
  match dimension_priority s with
  | CRITICAL | HIGH => true
  | MEDIUM | LOW => false
  end.

Definition recommendation_of (s : DimensionScore) : Full.Recommendation :=
  Full.mkRecommendation
    (dimension_id s) (dimension_priority s)
    (Qabs (ist_value s - soll_value s))
    (Qabs (ist_value s - soll_value s) / 4 * 100)
    ("Dimension " ++ dimension_id s ++ " benötigt Aufmerksamkeit")
    (ist_value s) (soll_value s).

Definition priority_rank (r : Full.Recommendation) : Z :=
  match Full.rec_priority r with
  | CRITICAL => 0 | HIGH => 1 | MEDIUM => 2 | LOW => 3
  end%Z.

(** [a] may stand before [b]: the rank does not decrease and, within one
    rank, the gap does not increase. *)
Definition recommendation_order (a b : Full.Recommendation) : Prop :=
  (priority_rank a <= priority_rank b)%Z
  /\ (priority_rank a = priority_rank b -> Full.rec_gap b <= Full.rec_gap a).

(** Section 4.3, rule 8: the weights divided by their sum, each rounded
    to three decimals, and the residual of the rounded set. *)
Definition normalised (weights : dict Q) : dict Q :=
  map (fun kv => (fst kv, snd kv / Qsum (dict_values weights))) weights.

Definition rounded3 (weights : dict Q) : dict Q :=
  map (fun kv => (fst kv, quantize3 (snd kv))) weights.

Definition residual (rounded : dict Q) : Q := 1 - Qsum (dict_values rounded).

(** [k] holds the largest value [v] of [d]. *)
Definition largest (k : string) (v : Q) (d : dict Q) : Prop :=
  dict_get k d = Some v /\ forall k' v', In (k', v') d -> v' <= v.

(* ================================================================== *)
(** * Vocabulary for the weighting pipeline *)

(** The weight a dictionary holds for a key (0 when the key is absent). *)
Definition val (k : string) (w : dict Q) : Q :=
  match dict_get k w with Some v => v | None => 0 end.

(** A weight dictionary with the eight dimension keys, in order. *)
Definition shaped (w : dict Q) : Prop := dict_keys w = Full.dims.

Fixpoint qpow (c : Q) (n : nat) : Q :=
  match n with
  | O => 1
  | S n' => c * qpow c n'
  end.

(** How many of the scores carry the dimension id [k] and satisfy [p]. *)
Fixpoint cnt (p : DimensionScore -> bool) (k : string)
         (scores : list DimensionScore) : nat :=
  match scores with
  | [] => O
  | s :: scores' =>
      (if p s && String.eqb k (dimension_id s) then 1 else 0)
      + cnt p k scores'
  end.

Definition occ (k : string) (scores : list DimensionScore) : nat :=
  cnt (fun _ => true) k scores.

(** The conditions under which rules 1, 2 and 5 touch a score. *)
Definition tight_gap (s : DimensionScore) : bool :=
  Qle_bool (Full.gap s) Full.SCHWELLENWERT_GAP.

Definition large_gap (s : DimensionScore) : bool :=
  Qgtb (Full.gap s) Full.SCHWELLENWERT_GAP.

Definition above_average (scores : list DimensionScore) (s : DimensionScore)
  : bool :=
  Qgtb (ist_value s) Full.SCHWELLENWERT_IST
  && Qgeb (ist_value s) (soll_value s)
  && negb (Full._is_in_critical_tension (dimension_id s) scores).

(** A factor between [lo] and [hi] relates the two weights of a key. *)
Definition factor_between (lo hi x y : Q) : Prop :=
  exists r, lo <= r <= hi /\ y == x * r.

(** Dimension scores as an assessment holds them: eight, each for one of
    the dimensions D1 to D8. *)
Definition eight_scores (scores : list DimensionScore) : Prop :=
  List.length scores = 8%nat
  /\ Forall (fun s => In (dimension_id s) Full.dims) scores.

(** What C1 asks of a returned weight dictionary. *)
Definition weights_ok (w : dict Q) : Prop :=
  dict_keys w = Full.dims
  /\ Qabs (Qsum (dict_values w) - 1) <= 0.001
  /\ Forall (fun v => 0.01 <= v) (dict_values w).

(* ================================================================== *)
(** * Inputs used in the examples *)

(** Eight dimension scores in which technology (D6) is far above its
    target and culture (D3) far below: the signed gaps are [+3] and [-3],
    so the tension of the pair, as rule 3 computes it, is 6. *)
Definition tension_scores : list DimensionScore :=
  [ mkDimensionScore "D1" 2.5 3.0 0.125; mkDimensionScore "D2" 2.5 3.0 0.125;
    mkDimensionScore "D3" 1.0 4.0 0.125; mkDimensionScore "D4" 2.5 3.0 0.125;
    mkDimensionScore "D5" 2.5 3.0 0.125; mkDimensionScore "D6" 4.0 1.0 0.125;
    mkDimensionScore "D7" 2.5 3.0 0.125; mkDimensionScore "D8" 2.5 3.0 0.125 ].

(** Rule 3's intensity of the pair [(a, b)]: the distance of the signed gaps. *)
Definition tension_intensity (a b : DimensionScore) : Q :=
  Qabs ((ist_value a - soll_value a) - (ist_value b - soll_value b)).

(** A session holding one draft assessment; the subdimension scores of a
    request body in which the second subdimension of D8 is missing, and
    those of a complete one, with the completion object built from it. *)
Definition draft_session : Crud.Session :=
  Crud.mkSession
    [Crud.mkAssessment 1 None None None None None Crud.DRAFT 0] [] [] [].

Definition fifteen_scores : list Crud.SubdimensionScoreCreate :=
  map (fun id => Crud.mkSubdimensionScoreCreate id 2.0 3.0)
      (removelast Crud.expected_subdimensions).

Definition sixteen_subdimensions : list Crud.SubdimensionScoreCreate :=
  map (fun id => Crud.mkSubdimensionScoreCreate id 2.0 3.0)
      Crud.expected_subdimensions.

Definition sixteen_scores : Crud.AssessmentCompletion :=
  Crud.mkAssessmentCompletion
    sixteen_subdimensions []
    (ex_intro _ sixteen_subdimensions eq_refl).

(** Floats that fall below every half. *)
Definition to_lower : list Q -> bool := fun _ => false.

(** Twenty-two scores that all name D1, and a score of a dimension that
    does not exist. *)
Definition crowded_scores : list DimensionScore :=
  List.repeat (mkDimensionScore "D1" 2.5 3.0 0.125) 22.

Definition stray_score : list DimensionScore :=
  [mkDimensionScore "D9" 2.5 3.0 0.125].

(** Context factor values the schema admits ([ge=0, le=3]). *)
Definition valid_factor (f : ContextFactor) : Prop :=
  (0 <= factor_value f <= 3)%Z.

(** A dimension score with values on the 1.0 to 4.0 scale and a
    non-negative weight. *)
Definition valid_score (s : DimensionScore) : Prop :=
  1 <= ist_value s <= 4 /\ 1 <= soll_value s <= 4 /\ 0 <= dynamic_weight s.

Definition weight_sum (scores : list DimensionScore) : Q :=
  Qsum (map dynamic_weight scores).

Definition in_unit (x : Q) : Prop := 0 <= x <= 1.

(** Eight scores at the top of the scale whose weights sum to 1.0006. *)
Definition heavy_scores : list DimensionScore :=
  mkDimensionScore "D1" 4.0 4.0 0.1256
  :: map (fun d => mkDimensionScore d 4.0 4.0 0.125)
         ["D2"; "D3"; "D4"; "D5"; "D6"; "D7"; "D8"]%string.

(* ================================================================== *)
(** * Vocabulary for the further properties *)

(** A stored metric: present and within [0, 1]. *)
Definition stored_in_unit (o : option Q) : Prop :=
  exists x, o = Some x /\ in_unit x.

(** Subdimension values on the 1.0 to 4.0 scale. *)
Definition valid_subscore (x : Crud.SubdimensionScoreCreate) : Prop :=
  1 <= Crud.sub_ist_value x <= 4 /\ 1 <= Crud.sub_soll_value x <= 4.

(** [dynamic_weights.get(dim_id, 0.125)] *)
Definition weight_or_default (w : dict Q) (dim_id : string) : Q :=
  match dict_get dim_id w with Some x => x | None => 0.125 end.

(** Every weight of a dictionary multiplied by [c]. *)
Definition scale_weights (c : Q) (w : dict Q) : dict Q :=
  map (fun kv => (fst kv, snd kv * c)) w.

(** The weighted sum of the top-level context score. *)
Definition weighted_factor_sum (context_factors : list ContextFactor) : Q :=
  Qsum (map (fun fw => inject_Z (factor_value (fst fw)) * snd fw)
            (combine context_factors Full.context_weights)).

(** The subdimension scores of a list that [calculate_aihe_metrics] puts
    in the group of the dimension [d]. *)
Definition members (d : string) (scores : list Crud.SubdimensionScoreCreate)
  : list Crud.SubdimensionScoreCreate :=
  filter (fun s => String.eqb (Assessments.dim_prefix (Crud.subdimension_id s)) d)
         scores.

(** A table with two organisations, the second one in retail. *)
Definition two_organisations : Organisations.Table :=
  [ Organisations.mkOrganisation 1 "Acme" None None true;
    Organisations.mkOrganisation 2 "Bolt" (Some "retail"%string) None true ].

(* ================================================================== *)
(** * Comparisons and rounding *)

Lemma Qltb_lt (x y : Q) : Qltb x y = true <-> x < y.
Proof.
  unfold Qltb. rewrite negb_true_iff. split; intro H.
  - apply Qnot_le_lt. intro Hle. apply Qle_bool_iff in Hle. congruence.
  - destruct (Qle_bool y x) eqn:E; [ | reflexivity ].
    apply Qle_bool_iff in E. exfalso. apply (Qlt_not_le _ _ H E).
Qed.

Lemma Qltb_ge (x y : Q) : Qltb x y = false <-> y <= x.
Proof.
  unfold Qltb. rewrite negb_false_iff. apply Qle_bool_iff.
Qed.

Lemma Qgtb_gt (x y : Q) : Qgtb x y = true <-> y < x.
Proof. apply Qltb_lt. Qed.

Lemma Qgtb_le (x y : Q) : Qgtb x y = false <-> x <= y.
Proof. apply Qltb_ge. Qed.

Lemma Qgeb_ge (x y : Q) : Qgeb x y = true <-> y <= x.
Proof. apply Qle_bool_iff. Qed.

Lemma Qltb_comp (x x' y y' : Q) : x == x' -> y == y' -> Qltb x y = Qltb x' y'.
Proof.
  intros Hx Hy. destruct (Qltb x' y') eqn:E.
  - apply Qltb_lt. apply Qltb_lt in E. rewrite Hx, Hy. exact E.
  - apply Qltb_ge. apply Qltb_ge in E. rewrite Hx, Hy. exact E.
Qed.

Lemma Qle_bool_comp (x x' y y' : Q) :
  x == x' -> y == y' -> Qle_bool x y = Qle_bool x' y'.
Proof.
  intros Hx Hy. destruct (Qle_bool x' y') eqn:E.
  - apply Qle_bool_iff. apply Qle_bool_iff in E. rewrite Hx, Hy. exact E.
  - destruct (Qle_bool x y) eqn:E'; [ | reflexivity ].
    apply Qle_bool_iff in E'. rewrite Hx, Hy in E'.
    apply Qle_bool_iff in E'. congruence.
Qed.

Ltac reflect_cmp :=
  repeat match goal with
    | H : Qltb _ _ = true |- _ => apply Qltb_lt in H
    | H : Qltb _ _ = false |- _ => apply Qltb_ge in H
    | H : Qgtb _ _ = true |- _ => apply Qgtb_gt in H
    | H : Qgtb _ _ = false |- _ => apply Qgtb_le in H
    | H : Qgeb _ _ = true |- _ => apply Qgeb_ge in H
    | H : Qle_bool _ _ = true |- _ => apply Qle_bool_iff in H
    | H : Qle_bool ?x ?y = false |- _ =>
        let Hle := fresh "Hle" in
        assert (y < x) by
          (apply Qnot_le_lt; intro Hle; apply Qle_bool_iff in Hle; congruence);
        clear H
    end.

Lemma Qfloor_spec (y : Q) :
  inject_Z (Qfloor y) <= y /\ y < inject_Z (Qfloor y) + 1.
Proof.
  split; [ apply Qfloor_le | ].
  pose proof (Qlt_floor y) as H. rewrite inject_Z_plus in H. exact H.
Qed.

Lemma inject_Z_le (a b : Z) : (a <= b)%Z <-> inject_Z a <= inject_Z b.
Proof. rewrite Zle_Qle. reflexivity. Qed.

Lemma inject_Z_lt (a b : Z) : (a < b)%Z <-> inject_Z a < inject_Z b.
Proof. rewrite Zlt_Qlt. reflexivity. Qed.

(** The two integer roundings stay within one half of their argument. *)
Lemma round_half_even_Z_near (y : Q) :
  y - (1 # 2) <= inject_Z (round_half_even_Z y) <= y + (1 # 2).
Proof.
  unfold round_half_even_Z.
  destruct (Qfloor_spec y) as [Hlo Hhi].
  destruct (Qltb (y - inject_Z (Qfloor y)) (1 # 2)) eqn:E1.
  { reflect_cmp. split; lra. }
  destruct (Qltb (1 # 2) (y - inject_Z (Qfloor y))) eqn:E2.
  { reflect_cmp. rewrite inject_Z_plus. change (inject_Z 1) with 1.
    split; lra. }
  reflect_cmp. destruct (Z.even (Qfloor y)).
  - split; lra.
  - rewrite inject_Z_plus. change (inject_Z 1) with 1. split; lra.
Qed.

Lemma round_half_up_Z_near (y : Q) :
  y - (1 # 2) <= inject_Z (round_half_up_Z y) <= y + (1 # 2).
Proof.
  unfold round_half_up_Z. destruct (Qle_bool 0 y) eqn:E.
  - destruct (Qfloor_spec (y + (1 # 2))) as [Hlo Hhi]. split; lra.
  - destruct (Qfloor_spec (- y + (1 # 2))) as [Hlo Hhi].
    rewrite inject_Z_opp. split; lra.
Qed.

(** An integer bound on the argument is a bound on the rounded value. *)
Lemma near_upper (y : Q) (z k : Z) :
  inject_Z z <= y + (1 # 2) -> y <= inject_Z k ->
  (z <= k \/ z = k + 1 /\ y == inject_Z k)%Z.
Proof.
  intros Hz Hk.
  destruct (Z_le_gt_dec z k) as [Hle | Hgt]; [ left; exact Hle | ].
  assert (H1 : (k + 1 <= z)%Z) by lia.
  apply inject_Z_le in H1. rewrite inject_Z_plus in H1.
  change (inject_Z 1) with 1 in H1. lra.
Qed.

Lemma round_half_even_Z_le (y : Q) (k : Z) :
  y <= inject_Z k -> (round_half_even_Z y <= k)%Z.
Proof.
  intro Hk. unfold round_half_even_Z.
  destruct (Qfloor_spec y) as [Hlo Hhi].
  assert (Hf : (Qfloor y <= k)%Z) by (apply inject_Z_le; lra).
  destruct (Qltb (y - inject_Z (Qfloor y)) (1 # 2)) eqn:E1; [ exact Hf | ].
  reflect_cmp.
  assert (Hne : (Qfloor y < k)%Z).
  { apply inject_Z_lt. lra. }
  destruct (Qltb (1 # 2) (y - inject_Z (Qfloor y))); [ lia | ].
  destruct (Z.even (Qfloor y)); lia.
Qed.

Lemma round_half_even_Z_ge (y : Q) (k : Z) :
  inject_Z k <= y -> (k <= round_half_even_Z y)%Z.
Proof.
  intro Hk. unfold round_half_even_Z.
  assert (Hf : (k <= Qfloor y)%Z).
  { rewrite <- (Qfloor_Z k). apply Qfloor_resp_le. exact Hk. }
  destruct (Qltb (y - inject_Z (Qfloor y)) (1 # 2)); [ exact Hf | ].
  destruct (Qltb (1 # 2) (y - inject_Z (Qfloor y))); [ lia | ].
  destruct (Z.even (Qfloor y)); lia.
Qed.

Lemma round_half_even_Z_comp (x y : Q) :
  x == y -> round_half_even_Z x = round_half_even_Z y.
Proof.
  intro H. unfold round_half_even_Z.
  assert (Hf : Qfloor x = Qfloor y) by (apply Qfloor_comp; exact H).
  rewrite Hf.
  rewrite (Qltb_comp (x - inject_Z (Qfloor y)) (y - inject_Z (Qfloor y))
                     (1 # 2) (1 # 2)); [ | rewrite H; reflexivity | reflexivity ].
  rewrite (Qltb_comp (1 # 2) (1 # 2)
                     (x - inject_Z (Qfloor y)) (y - inject_Z (Qfloor y)));
    [ reflexivity | reflexivity | rewrite H; reflexivity ].
Qed.

Lemma round_comp (x y : Q) (n : nat) : x == y -> round x n = round y n.
Proof.
  intro H. unfold round. f_equal. apply round_half_even_Z_comp.
  rewrite H. reflexivity.
Qed.

Lemma Qmake_as_div (z : Z) (p : positive) :
  Qmake z p == inject_Z z / inject_Z (Zpos p).
Proof.
  unfold Qeq, Qdiv, Qmult, Qinv, inject_Z. simpl. lia.
Qed.

(** Rounding keeps a value inside an interval with integer end points. *)
Lemma round_between (x : Q) (n : nat) (lo hi : Z) :
  inject_Z lo <= x <= inject_Z hi ->
  inject_Z lo <= round x n <= inject_Z hi.
Proof.
  intros [Hlo Hhi]. unfold round.
  set (s := scale n).
  assert (Hs : 0 < inject_Z (Zpos s)) by (unfold Qlt; simpl; lia).
  assert (H1 : (lo * Zpos s <= round_half_even_Z (x * inject_Z (Zpos s)))%Z).
  { apply round_half_even_Z_ge. rewrite inject_Z_mult.
    apply Qmult_le_compat_r; [ exact Hlo | apply Qlt_le_weak; exact Hs ]. }
  assert (H2 : (round_half_even_Z (x * inject_Z (Zpos s)) <= hi * Zpos s)%Z).
  { apply round_half_even_Z_le. rewrite inject_Z_mult.
    apply Qmult_le_compat_r; [ exact Hhi | apply Qlt_le_weak; exact Hs ]. }
  apply inject_Z_le in H1. apply inject_Z_le in H2.
  rewrite inject_Z_mult in H1, H2.
  rewrite Qmake_as_div.
  set (z := inject_Z (round_half_even_Z (x * inject_Z (Zpos s)))) in *.
  split.
  - apply Qle_shift_div_l; [ exact Hs | exact H1 ].
  - apply Qle_shift_div_r; [ exact Hs | exact H2 ].
Qed.

Lemma round_unit (x : Q) (n : nat) : 0 <= x <= 1 -> 0 <= round x n <= 1.
Proof. intro H. apply (round_between x n 0 1). exact H. Qed.

(** The same for the rounding of a float, whichever side a half takes. *)
Lemma round_float_between (up : bool) (x : Q) (n : nat) (lo hi : Z) :
  inject_Z lo <= x <= inject_Z hi ->
  inject_Z lo <= round_float up x n <= inject_Z hi.
Proof.
  intros [Hlo Hhi]. unfold round_float. cbv zeta.
  set (s := scale n). set (y := x * inject_Z (Zpos s)).
  destruct (Qeq_bool (y - inject_Z (Qfloor y)) (1 # 2)) eqn:E;
    [ | apply round_between; split; assumption ].
  apply Qeq_bool_iff in E.
  assert (Hs : 0 < inject_Z (Zpos s)) by (unfold Qlt; simpl; lia).
  assert (A : inject_Z (lo * Zpos s) <= y).
  { rewrite inject_Z_mult. subst y.
    apply Qmult_le_compat_r; [ exact Hlo | apply Qlt_le_weak; exact Hs ]. }
  assert (B : y <= inject_Z (hi * Zpos s)).
  { rewrite inject_Z_mult. subst y.
    apply Qmult_le_compat_r; [ exact Hhi | apply Qlt_le_weak; exact Hs ]. }
  assert (F1 : (lo * Zpos s <= Qfloor y)%Z).
  { rewrite <- (Qfloor_Z (lo * Zpos s)). apply Qfloor_resp_le. exact A. }
  assert (F2 : (Qfloor y + 1 <= hi * Zpos s)%Z).
  { assert (C : inject_Z (Qfloor y) < inject_Z (hi * Zpos s)) by lra.
    apply inject_Z_lt in C. lia. }
  set (r := if up then (Qfloor y + 1)%Z else Qfloor y).
  assert (R1 : (lo * Zpos s <= r)%Z) by (subst r; destruct up; lia).
  assert (R2 : (r <= hi * Zpos s)%Z) by (subst r; destruct up; lia).
  apply inject_Z_le in R1. apply inject_Z_le in R2.
  rewrite inject_Z_mult in R1, R2.
  rewrite (Qmake_as_div r s).
  split.
  - apply Qle_shift_div_l; [ exact Hs | exact R1 ].
  - apply Qle_shift_div_r; [ exact Hs | exact R2 ].
Qed.

(* ================================================================== *)
(** * Dictionaries *)

Section DictFacts.
Context {V : Type}.
Implicit Types (d : dict V) (k : string) (v : V).

Lemma dict_get_set k k' v d :
  dict_get k (dict_set k' v d) =
  if String.eqb k k' then Some v else dict_get k d.
Proof.
  induction d as [ | [k0 v0] d IH ]; simpl.
  - destruct (String.eqb k k'); reflexivity.
  - destruct (String.eqb k' k0) eqn:E0; simpl.
    + apply String.eqb_eq in E0. subst k0.
      destruct (String.eqb k k'); reflexivity.
    + destruct (String.eqb k k0) eqn:E1.
      * apply String.eqb_eq in E1. subst k0.
        rewrite String.eqb_sym, E0. reflexivity.
      * exact IH.
Qed.

Lemma dict_keys_set_present k v d :
  In k (dict_keys d) -> dict_keys (dict_set k v d) = dict_keys d.
Proof.
  induction d as [ | [k0 v0] d IH ]; simpl; [ tauto | ].
  intros [Heq | Hin].
  - subst k0. rewrite String.eqb_refl. reflexivity.
  - destruct (String.eqb k k0); simpl; [ reflexivity | ].
    rewrite IH by exact Hin. reflexivity.
Qed.

Lemma dict_get_In k d : In k (dict_keys d) <-> exists v, dict_get k d = Some v.
Proof.
  induction d as [ | [k0 v0] d IH ]; simpl.
  - split; [ tauto | intros [v H]; discriminate ].
  - destruct (String.eqb k k0) eqn:E.
    + apply String.eqb_eq in E. subst k0. split; eauto.
    + apply String.eqb_neq in E. rewrite <- IH. split.
      * intros [H | H]; [ congruence | exact H ].
      * intro H. right. exact H.
Qed.
End DictFacts.

(* ================================================================== *)
(** * The priority cascade *)

(** The backend cascade is the canonical one of section 4.1. *)
Lemma backend_priority_is_canonical (ist gap : Q) :
  canonical_cascade ist gap (Backend.calculate_priority_level ist gap).
Proof.
  unfold Backend.calculate_priority_level.
  destruct (Qltb ist 2 && Qgtb gap 1.5) eqn:E1.
  { apply andb_true_iff in E1. destruct E1. reflect_cmp.
    apply cascade_1. split; assumption. }
  assert (N1 : ~ (ist < 2 /\ 1.5 < gap)).
  { intros [A B]. apply Qltb_lt in A. apply Qgtb_gt in B.
    rewrite A, B in E1. discriminate. }
  destruct (Qltb ist 2.5 && Qgtb gap 1) eqn:E2.
  { apply andb_true_iff in E2. destruct E2. reflect_cmp.
    apply cascade_2; [ exact N1 | split; assumption ]. }
  assert (N2 : ~ (ist < 2.5 /\ 1 < gap)).
  { intros [A B]. apply Qltb_lt in A. apply Qgtb_gt in B.
    rewrite A, B in E2. discriminate. }
  destruct (Qgtb gap 1.5) eqn:E3.
  { reflect_cmp. apply cascade_3; assumption. }
  assert (N3 : ~ 1.5 < gap).
  { intro A. apply Qgtb_gt in A. congruence. }
  destruct (Qgtb gap 0.8) eqn:E4.
  { reflect_cmp. apply cascade_4; assumption. }
  apply cascade_5; try assumption.
  intro A. apply Qgtb_gt in A. congruence.
Qed.

(** The cascade determines the level: it is a function of [(ist, gap)]. *)
Lemma canonical_cascade_functional (ist gap : Q) (p q : PriorityLevel) :
  canonical_cascade ist gap p -> canonical_cascade ist gap q -> p = q.
Proof.
  intros Hp Hq. destruct Hp; destruct Hq; try reflexivity; tauto.
Qed.

(** Outside the band between the two pairs of thresholds the top-level
    cascade and the backend cascade return the same level. *)
Lemma full_priority_outside_band (ist gap : Q) :
  gap < 0.5 \/ 1.5 < gap ->
  Full.calculate_priority_level ist gap = Backend.calculate_priority_level ist gap.
Proof.
  intro H. unfold Full.calculate_priority_level, Backend.calculate_priority_level.
  destruct (Qltb ist 2 && Qgtb gap 1.5); [ reflexivity | ].
  destruct (Qltb ist 2.5 && Qgtb gap 1); [ reflexivity | ].
  destruct (Qgtb gap 0.8) eqn:E1; destruct (Qgtb gap 1.5) eqn:E2;
    destruct (Qgtb gap 0.5) eqn:E3; reflect_cmp;
    try reflexivity; exfalso; destruct H; lra.
Qed.

(** C3, as the code has it.  For every [(ist, gap)] the backend
    [calculate_priority_level] returns the level the canonical ordered
    cascade of section 4.1 assigns (first match wins), and that level is
    unique.  The top-level [calculate_priority_level] has the same first
    two steps and then the thresholds 0.8 and 0.5 where the canonical
    cascade has 1.5 and 0.8: it returns the canonical level whenever
    [gap < 0.5] or [gap > 1.5].  [ist = 1.9, gap = 1.6] is CRITICAL and
    [ist = 3.8, gap = 0.2] is LOW in both engines. *)
Theorem C3_priority_cascade :
  (forall ist gap p,
      Backend.calculate_priority_level ist gap = p <->
      canonical_cascade ist gap p)
  /\ (forall ist gap,
        gap < 0.5 \/ 1.5 < gap ->
        canonical_cascade ist gap (Full.calculate_priority_level ist gap))
  /\ Backend.calculate_priority_level 1.9 1.6 = CRITICAL
  /\ Backend.calculate_priority_level 3.8 0.2 = LOW
  /\ Full.calculate_priority_level 1.9 1.6 = CRITICAL
  /\ Full.calculate_priority_level 3.8 0.2 = LOW.
Proof.
  split; [ | split; [ | repeat split; reflexivity ] ].
  - intros ist gap p. split.
    + intros <-. apply backend_priority_is_canonical.
    + intro H.
      apply (canonical_cascade_functional ist gap); [ | exact H ].
      apply backend_priority_is_canonical.
  - intros ist gap H. rewrite (full_priority_outside_band ist gap H).
    apply backend_priority_is_canonical.
Qed.

Lemma C3_priority_cascade_witness :
  (0.2 < 0.5 \/ 1.5 < 0.2)
  /\ canonical_cascade 3.8 0.2 (Full.calculate_priority_level 3.8 0.2).
Proof.
  assert (H : 0.2 < 0.5 \/ 1.5 < 0.2) by (left; reflexivity).
  split; [ exact H | ].
  exact (proj1 (proj2 C3_priority_cascade) 3.8 0.2 H).
Defined.

(** C3, the claim at a failing input.  For [ist = 3.0, gap = 0.9] the
    canonical cascade assigns MEDIUM (no step before [gap > 0.8]
    applies); the top-level [calculate_priority_level] returns HIGH, by
    its step [gap > 0.8]. *)
Lemma C3_full_engine_thresholds :
  canonical_cascade 3.0 0.9 MEDIUM
  /\ Full.calculate_priority_level 3.0 0.9 = HIGH
  /\ ~ canonical_cascade 3.0 0.9 (Full.calculate_priority_level 3.0 0.9).
Proof.
  assert (HM : canonical_cascade 3.0 0.9 MEDIUM).
  { change MEDIUM with (Backend.calculate_priority_level 3.0 0.9).
    apply backend_priority_is_canonical. }
  split; [ exact HM | ]. split; [ reflexivity | ].
  intro H. change (Full.calculate_priority_level 3.0 0.9) with HIGH in H.
  pose proof (canonical_cascade_functional _ _ _ _ H HM) as E. discriminate E.
Qed.

(** The top-level engine keeps steps 1 and 2 and uses the thresholds 0.8
    and 0.5 in steps 3 and 4: it differs from the canonical cascade
    between them. *)
Lemma full_priority_thresholds :
  Full.calculate_priority_level 3.0 0.9 = HIGH
  /\ Backend.calculate_priority_level 3.0 0.9 = MEDIUM
  /\ Full.calculate_priority_level 3.5 0.6 = MEDIUM
  /\ Backend.calculate_priority_level 3.5 0.6 = LOW.
Proof. repeat split; reflexivity. Qed.

(* ================================================================== *)
(** * The shape guard of the metrics *)

Lemma bad_shape_length (l : list DimensionScore) :
  List.length l <> 8%nat -> Backend.bad_shape l = true.
Proof.
  intro H. unfold Backend.bad_shape. destruct l as [ | s l ]; [ reflexivity | ].
  apply negb_true_iff. apply Nat.eqb_neq. exact H.
Qed.

Lemma backend_metrics_bad_shape (l : list DimensionScore) :
  List.length l <> 8%nat ->
  Backend.calculate_eqi l = 0
  /\ Backend.calculate_rgi l = 0
  /\ Backend.calculate_si l = 0.
Proof.
  intro H. apply bad_shape_length in H.
  unfold Backend.calculate_eqi, Backend.calculate_rgi, Backend.calculate_si.
  rewrite H. repeat split; reflexivity.
Qed.

(** C4, as the code has it.  In the backend engine every list of
    dimension scores whose length is not 8, the empty list included,
    makes [calculate_eqi], [calculate_rgi] and [calculate_si] return 0.0. *)
Theorem C4_backend_shape_guard (l : list DimensionScore) :
  List.length l <> 8%nat ->
  Backend.calculate_eqi l = 0
  /\ Backend.calculate_rgi l = 0
  /\ Backend.calculate_si l = 0.
Proof. apply backend_metrics_bad_shape. Qed.

Lemma C4_backend_shape_guard_witness :
  List.length (@nil DimensionScore) <> 8%nat
  /\ Backend.calculate_eqi [] = 0
  /\ Backend.calculate_rgi [] = 0
  /\ Backend.calculate_si [] = 0.
Proof.
  split; [ simpl; lia | apply (C4_backend_shape_guard []); simpl; lia ].
Defined.

(** The top-level engine has no such guard: over the empty list its
    [calculate_eqi] is 1.0, and over a single score with weight 1 its
    [calculate_rgi] is [ist / 4]. *)
Lemma C4_full_engine_unguarded :
  List.length (@nil DimensionScore) <> 8%nat
  /\ Full.calculate_eqi [] == 1
  /\ ~ Full.calculate_eqi [] == 0.
Proof.
  split; [ simpl; lia | ]. split; vm_compute; [ reflexivity | discriminate ].
Qed.

Lemma full_rgi_unguarded :
  Full.calculate_rgi [mkDimensionScore "D1" 2 3 1] == 0.5.
Proof. vm_compute. reflexivity. Qed.

(* ================================================================== *)
(** * The context score *)

Lemma find_app {A : Type} (f : A -> bool) (l1 l2 : list A) :
  find f (l1 ++ l2) =
  match find f l1 with Some x => Some x | None => find f l2 end.
Proof.
  induction l1 as [ | a l1 IH ]; simpl; [ reflexivity | ].
  destruct (f a); [ reflexivity | exact IH ].
Qed.

Lemma factor_values_from (name : string) (cfs : list ContextFactor) (d : dict Z) :
  dict_get name
    (fold_left (fun d f => dict_set (factor_name f) (factor_value f) d) cfs d) =
  match supplied_value name cfs with
  | Some v => Some v
  | None => dict_get name d
  end.
Proof.
  revert d. induction cfs as [ | f cfs IH ]; intro d; simpl.
  - reflexivity.
  - rewrite IH. unfold supplied_value. simpl. rewrite find_app. simpl.
    destruct (find _ (rev cfs)) as [ f' | ]; [ reflexivity | ].
    rewrite dict_get_set. rewrite (String.eqb_sym (factor_name f) name).
    destruct (String.eqb name (factor_name f)); reflexivity.
Qed.

Lemma effective_value_spec (name : string) (cfs : list ContextFactor) :
  Backend.effective_value (Backend.factor_values cfs) name =
  spec_effective_value cfs name.
Proof.
  unfold Backend.effective_value, spec_effective_value, Backend.factor_values.
  rewrite factor_values_from. simpl.
  destruct (supplied_value name cfs); reflexivity.
Qed.

Lemma fold_left_Zadd (f : string -> Z) (l : list string) (acc : Z) :
  fold_left (fun a name => (a + f name)%Z) l acc =
  (acc + fold_right Z.add 0%Z (map f l))%Z.
Proof.
  revert acc. induction l as [ | x l IH ]; intro acc; simpl.
  - lia.
  - rewrite IH. lia.
Qed.

Lemma context_score_refines_spec (context_factors : list ContextFactor) :
  Backend.calculate_context_score context_factors =
  spec_context_score context_factors.
Proof.
  destruct context_factors as [ | f cfs ]; [ reflexivity | ].
  unfold Backend.calculate_context_score, spec_context_score.
  rewrite fold_left_Zadd. rewrite Z.add_0_l.
  rewrite (map_ext _ _ (fun name => effective_value_spec name (f :: cfs))).
  reflexivity.
Qed.

(** C7, as the code has it.  The backend [calculate_context_score] is the
    computation of section 4.2 over the eight canonical names: a missing
    factor counts 1, the resource-availability factor counts
    [3 - value], the sum is divided by 24 and rounded to three decimals;
    the empty list gives exactly 0.5; eight factors all at value 1 give
    exactly 0.375.  The top-level [calculate_context_score] is another
    formula, over ten factors taken by position: for every list that
    does not hold exactly ten factors, the empty list and the eight
    canonical factors included, it returns 0.5. *)
Theorem C7_context_score :
  (forall context_factors,
      Backend.calculate_context_score context_factors =
      spec_context_score context_factors)
  /\ Backend.calculate_context_score [] = 0.5
  /\ Backend.calculate_context_score
       (map (fun name => mkContextFactor name 1) Backend.expected_factors)
     = 0.375
  /\ (forall context_factors,
        List.length context_factors <> 10%nat ->
        Full.calculate_context_score context_factors = 0.5).
Proof.
  split; [ exact context_score_refines_spec | ].
  split; [ reflexivity | ]. split; [ reflexivity | ].
  intros cfs H. unfold Full.calculate_context_score.
  apply Nat.eqb_neq in H. rewrite H. reflexivity.
Qed.

Lemma C7_context_score_witness :
  List.length (@nil ContextFactor) <> 10%nat
  /\ Full.calculate_context_score [] = 0.5.
Proof.
  assert (H : List.length (@nil ContextFactor) <> 10%nat) by discriminate.
  split; [ exact H | ].
  exact (proj2 (proj2 (proj2 C7_context_score)) [] H).
Defined.

(** C7, the claim at a failing input.  On the eight canonical factors,
    all at value 1, the computation of section 4.2 gives 0.375; the
    top-level [calculate_context_score] returns its neutral 0.5, and it
    returns the same 0.5 when the resource-availability factor is 3
    instead, which the inversion of section 4.2 would count as 0. *)
Lemma C7_full_engine_neutral :
  spec_context_score
    (map (fun name => mkContextFactor name 1) Backend.expected_factors) = 0.375
  /\ Full.calculate_context_score
       (map (fun name => mkContextFactor name 1) Backend.expected_factors) = 0.5
  /\ ~ Full.calculate_context_score
         (map (fun name => mkContextFactor name 1) Backend.expected_factors)
       == 0.375
  /\ Full.calculate_context_score
       (map (fun name =>
               mkContextFactor name
                 (if String.eqb name "Ressourcenverfügbarkeit" then 3 else 1))
            Backend.expected_factors) = 0.5.
Proof.
  split; [ reflexivity | ]. split; [ reflexivity | ].
  split; [ intro H; vm_compute in H; discriminate H | reflexivity ].
Qed.

(** A name supplied twice counts with its last value, and a factor left
    out counts 1. *)
Lemma context_score_examples :
  Backend.calculate_context_score
    [mkContextFactor "Marktdynamik" 0; mkContextFactor "Marktdynamik" 3] = 0.458
  /\ Backend.calculate_context_score [mkContextFactor "Marktdynamik" 1] = 0.375.
Proof. split; reflexivity. Qed.

(* ================================================================== *)
(** * The backend weighting engine *)

Lemma Qsum_scale (c : Q) (l : list Q) :
  Qsum (map (fun v => v * c) l) == Qsum l * c.
Proof.
  induction l as [ | x l IH ]; simpl; [ lra | ]. rewrite IH. lra.
Qed.

Lemma map_values_fdiv (total : Q) (d : dict Q) :
  ~ total == 0 ->
  Backend.map_values (fun weight => Backend.fdiv weight total) d =
  Ok (map (fun kv => (fst kv, snd kv / total)) d).
Proof.
  intro Hne. induction d as [ | [k v] d IH ]; simpl; [ reflexivity | ].
  unfold Backend.fdiv at 1.
  destruct (Qeq_bool total 0) eqn:E.
  - apply Qeq_bool_iff in E. contradiction.
  - simpl. rewrite IH. reflexivity.
Qed.

Lemma base_weights_cases (archetype : string) :
  In (Backend.base_weights_of archetype)
     (Backend.balanced_weights :: dict_values Backend.ARCHETYPE_WEIGHTS).
Proof.
  unfold Backend.base_weights_of, Backend.ARCHETYPE_WEIGHTS. simpl.
  repeat match goal with
         | |- context [ String.eqb archetype ?k ] =>
             destruct (String.eqb archetype k)
         end; simpl; tauto.
Qed.

(** Every base table sums to 1 and holds numbers of three decimals. *)
Lemma base_weights_sum (archetype : string) :
  Qsum (dict_values (Backend.base_weights_of archetype)) == 1.
Proof.
  pose proof (base_weights_cases archetype) as H. simpl in H.
  repeat (destruct H as [ <- | H ]; [ vm_compute; reflexivity | ]).
  contradiction.
Qed.

Lemma base_weights_rounded (archetype : string) :
  same_weights
    (map (fun kv => (fst kv, round (snd kv) 3)) (Backend.base_weights_of archetype))
    (Backend.base_weights_of archetype).
Proof.
  pose proof (base_weights_cases archetype) as H. simpl in H.
  repeat (destruct H as [ <- | H ];
          [ repeat constructor; vm_compute; reflexivity | ]).
  contradiction.
Qed.

(** The context multiplier cancels: whatever the context score, the result
    is the base table rounded to three decimals. *)
Lemma backend_weights_closed_form (archetype : string) (c : Q)
      (ds : option (list DimensionScore)) :
  ~ c == -4.5 ->
  Backend.calculate_dynamic_weights archetype c ds =
  Ok (map (fun kv => (fst kv, round (snd kv) 3))
          (Backend.base_weights_of archetype)).
Proof.
  intro Hc. unfold Backend.calculate_dynamic_weights.
  set (base := Backend.base_weights_of archetype).
  set (cf := 1 + (c - 0.5) * 0.2).
  assert (Hcf : ~ cf == 0).
  { subst cf. intro H. apply Hc. lra. }
  assert (Htotal :
            Qsum (dict_values (map (fun kv => (fst kv, snd kv * cf)) base)) == cf).
  { unfold dict_values. rewrite map_map. simpl.
    rewrite <- (map_map snd (fun v => v * cf)). rewrite Qsum_scale.
    fold (dict_values base). subst base. rewrite base_weights_sum. lra. }
  rewrite map_values_fdiv by (rewrite Htotal; exact Hcf).
  simpl. f_equal. rewrite !map_map. simpl.
  apply map_ext. intros [k v]. simpl. f_equal.
  apply round_comp. rewrite Htotal. field. exact Hcf.
Qed.

(** C10. In the backend engine [calculate_dynamic_weights] does not depend
    on the context score (nor on the dimension scores): for every
    archetype and every two context scores, neither of them the pole
    [-4.5] of the multiplier, the two calls return the same dictionary,
    and that dictionary is the archetype's base-weight table. *)
Theorem C10_weights_independent_of_context
        (archetype : string) (c1 c2 : Q)
        (ds1 ds2 : option (list DimensionScore)) :
  ~ c1 == -4.5 -> ~ c2 == -4.5 ->
  Backend.calculate_dynamic_weights archetype c1 ds1 =
  Backend.calculate_dynamic_weights archetype c2 ds2
  /\ exists w,
      Backend.calculate_dynamic_weights archetype c1 ds1 = Ok w
      /\ same_weights w (Backend.base_weights_of archetype).
Proof.
  intros H1 H2.
  rewrite (backend_weights_closed_form archetype c1 ds1 H1).
  rewrite (backend_weights_closed_form archetype c2 ds2 H2).
  split; [ reflexivity | ].
  eexists. split; [ reflexivity | apply base_weights_rounded ].
Qed.

Lemma C10_weights_independent_of_context_witness :
  ~ 0 == -4.5 /\ ~ 1 == -4.5
  /\ Backend.calculate_dynamic_weights "CHAOTIC_DOER" 0 None =
     Backend.calculate_dynamic_weights "CHAOTIC_DOER" 1 None
  /\ exists w,
      Backend.calculate_dynamic_weights "CHAOTIC_DOER" 0 None = Ok w
      /\ same_weights w (Backend.base_weights_of "CHAOTIC_DOER").
Proof.
  assert (H0 : ~ 0 == -4.5) by (intro H; vm_compute in H; discriminate).
  assert (H1 : ~ 1 == -4.5) by (intro H; vm_compute in H; discriminate).
  split; [ exact H0 | split; [ exact H1 | ] ].
  exact (C10_weights_independent_of_context "CHAOTIC_DOER" 0 1 None None H0 H1).
Defined.

(** At the pole the multiplier is 0 and the division raises. *)
Lemma backend_weights_pole (archetype : string) :
  Backend.calculate_dynamic_weights archetype (-4.5) None =
  Raise ZeroDivisionError.
Proof.
  pose proof (base_weights_cases archetype) as H.
  unfold Backend.calculate_dynamic_weights. simpl in H.
  repeat (destruct H as [ <- | H ]; [ reflexivity | ]).
  contradiction.
Qed.

(* ================================================================== *)
(** * Rule 5 and the tension check *)

Lemma dict_mul_present (k : string) (c v : Q) (w : dict Q) :
  dict_get k w = Some v -> Full.dict_mul k c w = Ok (dict_set k (v * c) w).
Proof. intro H. unfold Full.dict_mul. rewrite H. reflexivity. Qed.

(** Whatever the scores, the tension check answers no. *)
Lemma is_in_critical_tension_false (d : string) (scores : list DimensionScore) :
  Full._is_in_critical_tension d scores = false.
Proof. reflexivity. Qed.

(** C6, the code at the failing input.  D6 has [ist = 4.0 > 3.5] and
    [ist >= soll]; it takes part in the pair (D3, D6), whose intensity 6
    is above 3.0 (rule 3 fires on it); rule 5 still multiplies the weight
    of D6 by 0.8. *)
Theorem C6_rule5_dampens_under_tension :
  In ("D3", "D6")%string Full.SPANNUNGSPAARE
  /\ (exists s3 s6,
        dict_get "D3"%string (scores_dict tension_scores) = Some s3
        /\ dict_get "D6"%string (scores_dict tension_scores) = Some s6
        /\ Full.SCHWELLENWERT_SPANNUNG < tension_intensity s6 s3
        /\ Full.SCHWELLENWERT_IST < ist_value s6
        /\ soll_value s6 <= ist_value s6)
  /\ (exists w v,
        Full._apply_rule_5_above_average (Full._load_base_weights false)
                                         tension_scores = Ok w
        /\ dict_get "D6"%string w = Some v
        /\ v == 0.125 * 0.8).
Proof.
  split; [ simpl; tauto | ]. split.
  - eexists. eexists. split; [ reflexivity | ]. split; [ reflexivity | ].
    split; [ reflexivity | ]. split; [ reflexivity | ].
    vm_compute. discriminate.
  - eexists. eexists. split; [ vm_compute; reflexivity | ].
    split; [ reflexivity | vm_compute; reflexivity ].
Qed.

(* ================================================================== *)
(** * Ranges of the five metrics *)

Lemma round_half_even_Z_le_even (y : Q) (k : Z) :
  Z.even k = true -> y <= inject_Z k + (1 # 2) ->
  (round_half_even_Z y <= k)%Z.
Proof.
  intros Hev Hy. unfold round_half_even_Z.
  destruct (Qfloor_spec y) as [Hlo Hhi].
  assert (Hf : (Qfloor y <= k)%Z).
  { apply Z.lt_succ_r. apply inject_Z_lt. unfold Z.succ.
    rewrite inject_Z_plus. change (inject_Z 1) with 1. lra. }
  destruct (Qltb (y - inject_Z (Qfloor y)) (1 # 2)) eqn:E1; [ exact Hf | ].
  reflect_cmp.
  destruct (Z.eq_dec (Qfloor y) k) as [Heq | Hne].
  - rewrite Heq in *.
    destruct (Qltb (1 # 2) (y - inject_Z k)) eqn:E2.
    + reflect_cmp. lra.
    + rewrite Hev. lia.
  - destruct (Qltb (1 # 2) (y - inject_Z (Qfloor y))); [ lia | ].
    destruct (Z.even (Qfloor y)); lia.
Qed.

(** [round(x, 3) <= 1] as soon as [x <= 1.0005]. *)
Lemma round3_le_1 (x : Q) : x <= 1.0005 -> round x 3 <= 1.
Proof.
  intro H. unfold round.
  assert (Hz : (round_half_even_Z (x * inject_Z (Zpos (scale 3))) <= 1000)%Z).
  { apply round_half_even_Z_le_even; [ reflexivity | ].
    change (inject_Z (Zpos (scale 3))) with 1000.
    change (inject_Z 1000) with 1000. lra. }
  rewrite Qmake_as_div. apply Qle_shift_div_r.
  - reflexivity.
  - change (inject_Z (Zpos (scale 3))) with (inject_Z 1000).
    rewrite Qmult_1_l. apply (proj1 (inject_Z_le _ _)). exact Hz.
Qed.

Lemma round_nonneg (x : Q) (n : nat) : 0 <= x -> 0 <= round x n.
Proof.
  intro H. unfold round.
  assert (Hs : 0 < inject_Z (Zpos (scale n))) by (unfold Qlt; simpl; lia).
  assert (Hz : (0 <= round_half_even_Z (x * inject_Z (Zpos (scale n))))%Z).
  { apply round_half_even_Z_ge. change (inject_Z 0) with 0.
    apply Qmult_le_0_compat; [ exact H | apply Qlt_le_weak; exact Hs ]. }
  unfold Qle. simpl. lia.
Qed.

Lemma clamp01_unit (x : Q) : in_unit (Full.clamp01 x).
Proof.
  unfold in_unit, Full.clamp01. split.
  - apply Q.le_max_l.
  - apply Q.max_lub; [ lra | apply Q.le_min_l ].
Qed.

Lemma Qsum_nonneg (l : list Q) : Forall (fun x => 0 <= x) l -> 0 <= Qsum l.
Proof.
  induction 1 as [ | x l Hx _ IH ]; simpl; lra.
Qed.

Lemma fold_left_nonneg {A : Type} (f : A -> Q) (l : list A) (acc : Q) :
  (forall a, 0 <= f a) -> 0 <= acc ->
  0 <= fold_left (fun acc a => acc + f a) l acc.
Proof.
  intro Hf. revert acc. induction l as [ | a l IH ]; intros acc Hacc; simpl.
  - exact Hacc.
  - apply IH. specialize (Hf a). lra.
Qed.

Lemma backend_eqi_unit (l : list DimensionScore) :
  in_unit (Backend.calculate_eqi l).
Proof.
  unfold Backend.calculate_eqi.
  destruct (Backend.bad_shape l); [ unfold in_unit; lra | ].
  apply round_unit.
  set (t := Qsum _ / (8 * 3)).
  assert (Ht : 0 <= t).
  { subst t. apply Qle_shift_div_l; [ reflexivity | ].
    rewrite Qmult_0_l. apply Qsum_nonneg. apply Forall_map.
    apply Forall_forall. intros s _. apply Qabs_nonneg. }
  assert (H1 : Qmin 1 t <= 1) by apply Q.le_min_l.
  assert (H2 : 0 <= Qmin 1 t) by (apply Q.min_glb; lra).
  lra.
Qed.

Lemma backend_pair_tension_nonneg (d : dict DimensionScore) (pw : Q)
      (p : string * string) :
  0 <= pw -> 0 <= Backend.pair_tension d pw p.
Proof.
  intro Hpw. unfold Backend.pair_tension. destruct p as [a b].
  destruct (dict_get a d); [ | lra ].
  destruct (dict_get b d); [ | lra ].
  apply Qmult_le_0_compat; [ apply Qabs_nonneg | exact Hpw ].
Qed.

Lemma backend_si_unit (l : list DimensionScore) :
  in_unit (Backend.calculate_si l).
Proof.
  unfold Backend.calculate_si.
  destruct (Backend.bad_shape l); [ unfold in_unit; lra | ].
  apply round_unit.
  set (t := fold_left _ _ _).
  assert (Ht : 0 <= t).
  { subst t. apply fold_left_nonneg; [ | lra ].
    intro p. apply backend_pair_tension_nonneg. vm_compute. discriminate. }
  split.
  - apply Q.min_glb; [ | lra ].
    apply Qle_shift_div_l; [ reflexivity | lra ].
  - apply Q.le_min_r.
Qed.

Lemma weighted_ist_bounds (l : list DimensionScore) :
  Forall valid_score l ->
  0 <= Qsum (map (fun s => ist_value s * dynamic_weight s) l) <= 4 * weight_sum l.
Proof.
  unfold weight_sum.
  induction 1 as [ | s l [[H1 H2] [_ Hw]] _ IH ]; simpl; [ lra | ].
  assert (A : 0 <= ist_value s * dynamic_weight s)
    by (apply Qmult_le_0_compat; lra).
  assert (B : ist_value s * dynamic_weight s <= 4 * dynamic_weight s)
    by (apply Qmult_le_compat_r; lra).
  lra.
Qed.

Lemma backend_rgi_unit (l : list DimensionScore) :
  Forall valid_score l -> weight_sum l <= 1.0005 ->
  in_unit (Backend.calculate_rgi l).
Proof.
  intros Hv Hw. unfold Backend.calculate_rgi.
  destruct (Backend.bad_shape l); [ unfold in_unit; lra | ].
  destruct (weighted_ist_bounds l Hv) as [Hlo Hhi].
  split.
  - apply round_nonneg. apply Qle_shift_div_l; [ reflexivity | lra ].
  - apply round3_le_1. apply Qle_shift_div_r; [ reflexivity | lra ].
Qed.

Lemma backend_sbs_unit (eqi si rgi : Q) :
  in_unit eqi -> in_unit si -> in_unit rgi ->
  in_unit (Backend.calculate_sbs eqi si rgi).
Proof.
  unfold in_unit, Backend.calculate_sbs. intros He Hs Hr.
  apply round_unit. split.
  - apply Qle_shift_div_l; [ reflexivity | lra ].
  - apply Qle_shift_div_r; [ reflexivity | lra ].
Qed.

Lemma supplied_value_In (name : string) (cfs : list ContextFactor) (v : Z) :
  supplied_value name cfs = Some v ->
  exists f, In f cfs /\ factor_value f = v.
Proof.
  unfold supplied_value.
  destruct (find _ (rev cfs)) as [ f | ] eqn:E; [ | discriminate ].
  intro H. injection H as <-. apply find_some in E. destruct E as [Hin _].
  exists f. split; [ apply in_rev; exact Hin | reflexivity ].
Qed.

Lemma spec_effective_value_range (cfs : list ContextFactor) (name : string) :
  Forall valid_factor cfs ->
  (0 <= spec_effective_value cfs name <= 3)%Z.
Proof.
  intro Hv. unfold spec_effective_value.
  assert (H : (0 <= match supplied_value name cfs with
                    | Some v => v
                    | None => 1
                    end <= 3)%Z).
  { destruct (supplied_value name cfs) as [ v | ] eqn:E; [ | lia ].
    apply supplied_value_In in E. destruct E as [f [Hin <-]].
    rewrite Forall_forall in Hv. apply Hv. exact Hin. }
  destruct (String.eqb name _); lia.
Qed.

Lemma Zsum_range (f : string -> Z) (l : list string) :
  (forall x, 0 <= f x <= 3)%Z ->
  (0 <= fold_right Z.add 0 (map f l) <= 3 * Z.of_nat (List.length l))%Z.
Proof.
  intro Hf. induction l as [ | x l IH ]; simpl List.length; simpl map;
    simpl fold_right; [ lia | ].
  specialize (Hf x). lia.
Qed.

Lemma backend_context_unit (cfs : list ContextFactor) :
  Forall valid_factor cfs -> in_unit (Backend.calculate_context_score cfs).
Proof.
  intro Hv. rewrite context_score_refines_spec.
  unfold spec_context_score. destruct cfs as [ | f cfs ].
  { unfold in_unit. split; vm_compute; discriminate. }
  apply round_unit.
  pose proof (Zsum_range (spec_effective_value (f :: cfs))
                         Backend.expected_factors
                         (fun name => spec_effective_value_range _ name Hv))
    as [Hlo Hhi].
  change (3 * Z.of_nat (List.length Backend.expected_factors))%Z with 24%Z in Hhi.
  apply inject_Z_le in Hlo. apply inject_Z_le in Hhi.
  change (inject_Z 0) with 0 in Hlo. change (inject_Z 24) with 24 in Hhi.
  split.
  - apply Qle_shift_div_l; [ reflexivity | lra ].
  - apply Qle_shift_div_r; [ reflexivity | lra ].
Qed.

(** The top-level engine clamps each of its five results. *)
Lemma full_metrics_unit (l : list DimensionScore) (cfs : list ContextFactor)
      (eqi si rgi : Q) :
  in_unit (Full.calculate_eqi l)
  /\ in_unit (Full.calculate_rgi l)
  /\ in_unit (Full.calculate_si l)
  /\ in_unit (Full.calculate_sbs eqi si rgi)
  /\ in_unit (Full.calculate_context_score cfs).
Proof.
  repeat split; try apply clamp01_unit.
  - unfold Full.calculate_context_score.
    destruct (negb _); [ vm_compute; discriminate | apply clamp01_unit ].
  - unfold Full.calculate_context_score.
    destruct (negb _); [ vm_compute; discriminate | apply clamp01_unit ].
Qed.

(** X27. With ist and soll in [1.0, 4.0], weights that are non-negative
    and sum to at most 1.0004, and context factor values in 0..3, the
    five results of the backend engine (as [calculate_all_metrics]
    returns them) lie in [0.0, 1.0]; the five results of the top-level
    engine lie in [0.0, 1.0] for every input.  The bound on the weights
    stays clear of 1.0005, where the rounding of the RGI tips over. *)
Theorem backend_metrics_in_unit_interval
        (scores : list DimensionScore) (factors : list ContextFactor) :
  Forall valid_score scores ->
  weight_sum scores <= 1.0004 ->
  Forall valid_factor factors ->
  let m := Backend.calculate_all_metrics scores factors in
  (in_unit (Backend.eqi m) /\ in_unit (Backend.rgi m) /\ in_unit (Backend.si m)
   /\ in_unit (Backend.sbs m) /\ in_unit (Backend.context_score m))
  /\ (forall l cfs,
        let eqi := Full.calculate_eqi l in
        let rgi := Full.calculate_rgi l in
        let si := Full.calculate_si l in
        in_unit eqi /\ in_unit rgi /\ in_unit si
        /\ in_unit (Full.calculate_sbs eqi si rgi)
        /\ in_unit (Full.calculate_context_score cfs)).
Proof.
  intros Hs Hw Hf. simpl.
  assert (Hw' : weight_sum scores <= 1.0005) by lra.
  pose proof (backend_eqi_unit scores) as He.
  pose proof (backend_rgi_unit scores Hs Hw') as Hr.
  pose proof (backend_si_unit scores) as Hsi.
  split.
  - repeat split; try apply He; try apply Hr; try apply Hsi;
      try apply (backend_sbs_unit _ _ _ He Hsi Hr);
      apply (backend_context_unit factors Hf).
  - intros l cfs. apply full_metrics_unit.
Qed.

Ltac qdec := vm_compute; first [ reflexivity | discriminate ].

Lemma backend_metrics_in_unit_interval_witness :
  Forall valid_score tension_scores
  /\ weight_sum tension_scores <= 1.0004
  /\ Forall valid_factor [mkContextFactor "Marktdynamik" 3]
  /\ in_unit (Backend.rgi (Backend.calculate_all_metrics
                             tension_scores [mkContextFactor "Marktdynamik" 3])).
Proof.
  assert (Hs : Forall valid_score tension_scores).
  { repeat constructor; qdec. }
  assert (Hw : weight_sum tension_scores <= 1.0004) by qdec.
  assert (Hf : Forall valid_factor [mkContextFactor "Marktdynamik" 3]).
  { repeat constructor; qdec. }
  split; [ exact Hs | ]. split; [ exact Hw | ]. split; [ exact Hf | ].
  exact (proj1 (proj2 (proj1
           (backend_metrics_in_unit_interval tension_scores _ Hs Hw Hf)))).
Defined.

(** C8, the code at the failing input.  The backend [calculate_rgi]
    rounds but does not clamp, although its docstring promises a value
    between 0.0 and 1.0 and the top-level engine clamps: eight scores
    with ist and soll at 4.0 and non-negative weights that sum to 1.0006,
    within the tolerance 1e-3 of 1, give an RGI of 1.001. *)
Lemma C8_backend_rgi_above_one :
  List.length heavy_scores = 8%nat
  /\ Forall valid_score heavy_scores
  /\ Qabs (weight_sum heavy_scores - 1) <= 0.001
  /\ Backend.calculate_rgi heavy_scores = 1.001
  /\ ~ in_unit (Backend.calculate_rgi heavy_scores).
Proof.
  split; [ reflexivity | ].
  split; [ repeat constructor; qdec | ].
  split; [ qdec | ].
  split; [ reflexivity | ].
  intros [_ H]. vm_compute in H. apply H. reflexivity.
Qed.

(* ================================================================== *)
(** * Completing an assessment *)

Lemma backend_weights_total (archetype : string) (cfs : list ContextFactor) :
  Forall valid_factor cfs ->
  Backend.calculate_dynamic_weights
    archetype (Backend.calculate_context_score cfs) None =
  Ok (map (fun kv => (fst kv, round (snd kv) 3))
          (Backend.base_weights_of archetype)).
Proof.
  intro Hv. apply backend_weights_closed_form.
  destruct (backend_context_unit cfs Hv) as [Hlo _]. intro H. lra.
Qed.

Lemma filter_length_perm {A : Type} (f : A -> bool) (l l' : list A) :
  Permutation l l' -> List.length (filter f l) = List.length (filter f l').
Proof.
  induction 1 as [ | x l l' _ IH | x y l | l l' l'' _ IH1 _ IH2 ]; simpl.
  - reflexivity.
  - destruct (f x); simpl; congruence.
  - destruct (f x); destruct (f y); reflexivity.
  - congruence.
Qed.

Lemma filter_nil_forall {A : Type} (f : A -> bool) (l : list A) :
  filter f l = [] -> forall x, In x l -> f x = false.
Proof.
  induction l as [ | a l IH ]; simpl; [ tauto | ].
  destruct (f a) eqn:E; [ discriminate | ].
  intros H x [<- | Hin]; [ exact E | apply IH; assumption ].
Qed.

(** What the schema validator lets through: the sixteen expected
    subdimension ids, each once, in some order. *)
Lemma validated_ids (v v' : list Crud.SubdimensionScoreCreate) :
  Crud.validate_all_subdimensions v = Ok v' ->
  v' = v
  /\ Permutation Crud.expected_subdimensions (map Crud.subdimension_id v).
Proof.
  unfold Crud.validate_all_subdimensions.
  destruct (Nat.eqb (List.length v) 16) eqn:Elen; [ | discriminate ].
  cbn [negb]. apply Nat.eqb_eq in Elen.
  destruct (filter _ Crud.expected_subdimensions) eqn:Emiss; [ | discriminate ].
  intro H. injection H as <-. split; [ reflexivity | ].
  apply NoDup_Permutation_bis.
  - repeat constructor; simpl; intuition discriminate.
  - rewrite length_map, Elen. simpl. lia.
  - intros e He. pose proof (filter_nil_forall _ _ Emiss e He) as Hf.
    apply negb_false_iff in Hf. apply existsb_exists in Hf.
    destruct Hf as [x [Hx Heq]]. apply String.eqb_eq in Heq. subst x. exact Hx.
Qed.

Lemma prefixed_scores_length (v : list Crud.SubdimensionScoreCreate)
      (dim_id : string) :
  List.length
    (filter (fun score =>
               String.prefix (dim_id ++ ".")
                 (Crud.subdimension_id (Crud.score_data score)))
            (map Crud.score_subdimension v))
  = List.length (filter (String.prefix (dim_id ++ "."))
                        (map Crud.subdimension_id v)).
Proof.
  induction v as [ | x v IH ]; [ reflexivity | ].
  cbn [map filter].
  change (Crud.subdimension_id (Crud.score_data (Crud.score_subdimension x)))
    with (Crud.subdimension_id x).
  destruct (String.prefix (dim_id ++ ".") (Crud.subdimension_id x)); simpl;
    rewrite IH; reflexivity.
Qed.

(** A dimension gives one row, under its own id, when exactly two
    subdimension ids carry its prefix, and no row otherwise. *)
Lemma aggregate_dimension_ids (up : list Q -> bool) (w : dict Q)
      (v : list Crud.SubdimensionScoreCreate) (dim_id : string) :
  map (fun r => dimension_id (Crud.row_score r))
      (Crud.aggregate_dimension up w (map Crud.score_subdimension v) dim_id)
  = if Nat.eqb (List.length (filter (String.prefix (dim_id ++ "."))
                                    (map Crud.subdimension_id v))) 2
    then [dim_id] else [].
Proof.
  unfold Crud.aggregate_dimension. rewrite prefixed_scores_length.
  destruct (Nat.eqb _ 2); reflexivity.
Qed.

Lemma aggregate_dimension_length (up : list Q -> bool) (w : dict Q)
      (v : list Crud.SubdimensionScoreCreate) (dim_id : string) :
  List.length (Crud.aggregate_dimension up w (map Crud.score_subdimension v) dim_id)
  = if Nat.eqb (List.length (filter (String.prefix (dim_id ++ "."))
                                    (map Crud.subdimension_id v))) 2
    then 1%nat else 0%nat.
Proof.
  rewrite <- (length_map (fun r => dimension_id (Crud.row_score r))).
  rewrite aggregate_dimension_ids. destruct (Nat.eqb _ 2); reflexivity.
Qed.

(** The words of the claim and the validator: a list the validator
    accepts has two subdimensions for each dimension. *)
Lemma validated_two_per_dimension (v : list Crud.SubdimensionScoreCreate) :
  Permutation Crud.expected_subdimensions (map Crud.subdimension_id v) ->
  two_per_dimension v.
Proof.
  intro HP. split.
  - rewrite <- (length_map Crud.subdimension_id).
    rewrite <- (Permutation_length HP). reflexivity.
  - intros d Hd. rewrite <- (filter_length_perm _ _ _ HP).
    simpl in Hd.
    repeat (destruct Hd as [ <- | Hd ]; [ reflexivity | ]). contradiction.
Qed.

(** With two subdimensions for each dimension, the rows are those of the
    eight dimensions, in order. *)
Lemma two_per_dimension_rows (up : list Q -> bool) (w : dict Q)
      (v : list Crud.SubdimensionScoreCreate) :
  two_per_dimension v ->
  map (fun r => dimension_id (Crud.row_score r))
      (flat_map (Crud.aggregate_dimension up w (map Crud.score_subdimension v))
                Crud.dimensions)
  = Crud.dimensions.
Proof.
  intros [_ H].
  assert (G : forall ds,
             incl ds Crud.dimensions ->
             map (fun r => dimension_id (Crud.row_score r))
                 (flat_map (Crud.aggregate_dimension
                              up w (map Crud.score_subdimension v)) ds) = ds).
  { induction ds as [ | d ds IH ]; intro Hincl; [ reflexivity | ].
    cbn [flat_map]. rewrite map_app, aggregate_dimension_ids.
    rewrite (H d (Hincl d (or_introl eq_refl))). cbn [Nat.eqb app].
    f_equal. apply IH. intros x Hx. apply Hincl. right. exact Hx. }
  apply G. apply incl_refl.
Qed.

(** What an [AssessmentCompletion] object holds. *)
Lemma completion_validated (c : Crud.AssessmentCompletion) :
  Crud.validate_all_subdimensions (Crud.subdimension_scores c)
  = Ok (Crud.subdimension_scores c)
  /\ Permutation Crud.expected_subdimensions
                 (map Crud.subdimension_id (Crud.subdimension_scores c)).
Proof.
  destruct (Crud.subdimension_scores_validated c) as [v Hv].
  destruct (validated_ids _ _ Hv) as [E HP]. rewrite E in *.
  split; [ exact Hv | exact HP ].
Qed.

(** The constructor returns an object exactly for the lists the
    validator accepts, and raises what the validator raises. *)
Lemma completion_init_cases (given : list Crud.SubdimensionScoreCreate)
      (factors : list ContextFactor) :
  match Crud.validate_all_subdimensions given with
  | Ok v =>
      exists c, Crud.AssessmentCompletion_init given factors = Ok c
                /\ Crud.subdimension_scores c = v
                /\ Crud.context_factors c = factors
  | Raise e => Crud.AssessmentCompletion_init given factors = Raise e
  end.
Proof.
  unfold Crud.AssessmentCompletion_init.
  assert (G : forall r (E : Crud.validate_all_subdimensions given = r),
             match r with
             | Ok v =>
                 exists c, Crud.validated_completion given factors r E = Ok c
                           /\ Crud.subdimension_scores c = v
                           /\ Crud.context_factors c = factors
             | Raise e => Crud.validated_completion given factors r E = Raise e
             end).
  { intros r E. destruct r as [ v | e ]; cbn [Crud.validated_completion].
    - eexists. split; [ reflexivity | split; reflexivity ].
    - reflexivity. }
  exact (G _ eq_refl).
Qed.

(** The validator raises nothing but [ValueError]. *)
Lemma validator_raises_value_error (v : list Crud.SubdimensionScoreCreate)
      (e : exn) :
  Crud.validate_all_subdimensions v = Raise e -> exists msg, e = ValueError msg.
Proof.
  unfold Crud.validate_all_subdimensions.
  destruct (negb _); [ intro H; injection H as <-; eexists; reflexivity | ].
  cbv zeta. destruct (filter _ _); [ discriminate | ].
  intro H. injection H as <-. eexists. reflexivity.
Qed.

(** After the validator, every dimension has its two subdimensions and
    eight dimension scores are stored. *)
Lemma validated_rows (up : list Q -> bool) (w : dict Q)
      (v v' : list Crud.SubdimensionScoreCreate) :
  Crud.validate_all_subdimensions v = Ok v' ->
  List.length (flat_map (Crud.aggregate_dimension up w (map Crud.score_subdimension v))
                        Crud.dimensions) = 8%nat.
Proof.
  intro H. apply validated_ids in H. destruct H as [_ HP].
  rewrite <- (length_map (fun r => dimension_id (Crud.row_score r))).
  rewrite (two_per_dimension_rows up w v (validated_two_per_dimension v HP)).
  reflexivity.
Qed.

(** C2.  The subdimension scores reach [complete_assessment] inside an
    [AssessmentCompletion], and building that object is where the set is
    checked: for a set that does not hold exactly two subdimensions for
    each of the eight dimensions (sixteen in all) the constructor raises
    a [ValueError], so the caller gets an invalid-input failure and
    there is no object to call [complete_assessment] with.  For every
    object there is, with an assessment that exists and context factors
    the schema admits, [complete_assessment] returns the assessment as
    COMPLETED and stores the dimension scores of D1 to D8, one each and
    in this order, whichever side the halves of the averages take: it
    never goes on with fewer than eight. *)
Theorem C2_invalid_input_rejected
        (given : list Crud.SubdimensionScoreCreate)
        (factors : list ContextFactor)
        (completion : Crud.AssessmentCompletion)
        (halfway_up : list Q -> bool)
        (db : Crud.Session) (id : nat) (archetype : string)
        (a0 : Crud.Assessment) :
  (~ two_per_dimension given ->
   exists msg,
     Crud.AssessmentCompletion_init given factors = Raise (ValueError msg))
  /\ (Crud.AssessmentCompletion_init given factors = Ok completion ->
      two_per_dimension given
      /\ Crud.subdimension_scores completion = given
      /\ Crud.context_factors completion = factors)
  /\ (Crud.get db id = Some a0 ->
      Forall valid_factor (Crud.context_factors completion) ->
      two_per_dimension (Crud.subdimension_scores completion)
      /\ exists a db' rows,
          Crud.complete_assessment halfway_up db id completion archetype
          = Ok (a, db')
          /\ Crud.status a = Crud.COMPLETED
          /\ Crud.dimension_rows db' = Crud.dimension_rows db ++ rows
          /\ map (fun r => dimension_id (Crud.row_score r)) rows
             = Crud.dimensions).
Proof.
  pose proof (completion_init_cases given factors) as Hinit.
  split; [ | split ].
  - intro Hbad.
    destruct (Crud.validate_all_subdimensions given) as [ v | e ] eqn:E.
    + exfalso. apply Hbad. apply validated_two_per_dimension.
      apply (validated_ids _ _ E).
    + destruct (validator_raises_value_error _ _ E) as [msg ->].
      exists msg. exact Hinit.
  - intro Hok.
    destruct (Crud.validate_all_subdimensions given) as [ v | e ] eqn:E.
    + destruct Hinit as [c [Hc [Hs Hf]]]. rewrite Hc in Hok.
      injection Hok as <-. destruct (validated_ids _ _ E) as [-> HP].
      split; [ apply validated_two_per_dimension; exact HP | ].
      split; [ exact Hs | exact Hf ].
    + rewrite Hinit in Hok. discriminate Hok.
  - intros Hget Hv.
    destruct (completion_validated completion) as [_ HP].
    pose proof (validated_two_per_dimension _ HP) as H2.
    split; [ exact H2 | ].
    unfold Crud.complete_assessment. rewrite Hget.
    rewrite (backend_weights_total archetype _ Hv). cbn [bind].
    eexists. eexists. eexists.
    split; [ reflexivity | ]. split; [ reflexivity | ].
    cbn [Crud.dimension_rows].
    split; [ reflexivity | ].
    apply two_per_dimension_rows. exact H2.
Qed.

Lemma C2_invalid_input_rejected_witness :
  ~ two_per_dimension fifteen_scores
  /\ (exists msg,
        Crud.AssessmentCompletion_init fifteen_scores [] = Raise (ValueError msg))
  /\ Crud.get draft_session 1 =
       Some (Crud.mkAssessment 1 None None None None None Crud.DRAFT 0)
  /\ Forall valid_factor (Crud.context_factors sixteen_scores)
  /\ exists a db' rows,
      Crud.complete_assessment to_lower draft_session 1 sixteen_scores
                               "CAUTIOUS_CORPORATE" = Ok (a, db')
      /\ Crud.status a = Crud.COMPLETED
      /\ Crud.dimension_rows db' = Crud.dimension_rows draft_session ++ rows
      /\ map (fun r => dimension_id (Crud.row_score r)) rows = Crud.dimensions.
Proof.
  assert (H0 : ~ two_per_dimension fifteen_scores).
  { intros [Hlen _]. discriminate Hlen. }
  assert (H1 : Crud.get draft_session 1 =
               Some (Crud.mkAssessment 1 None None None None None Crud.DRAFT 0))
    by reflexivity.
  assert (H2 : Forall valid_factor (Crud.context_factors sixteen_scores))
    by constructor.
  pose proof (C2_invalid_input_rejected
                fifteen_scores [] sixteen_scores to_lower
                draft_session 1 "CAUTIOUS_CORPORATE"
                (Crud.mkAssessment 1 None None None None None Crud.DRAFT 0))
    as [A [_ B]].
  split; [ exact H0 | ]. split; [ exact (A H0) | ].
  split; [ exact H1 | ]. split; [ exact H2 | ].
  exact (proj2 (B H1 H2)).
Defined.

(** Fifteen subdimension scores, the second one of D8 missing: the
    validator refuses the list for its length and no object is built.
    Sixteen scores with D8.2 replaced by a second D8.1: refused for the
    missing id. *)
Lemma completion_refused :
  Crud.AssessmentCompletion_init fifteen_scores []
  = Raise (ValueError "Must provide exactly 16 subdimension scores")
  /\ Crud.AssessmentCompletion_init
       (fifteen_scores ++ [Crud.mkSubdimensionScoreCreate "D8.1" 2.0 3.0]) []
     = Raise (ValueError "Missing subdimension scores").
Proof. split; reflexivity. Qed.

(** With all sixteen expected subdimensions the object is built and
    eight dimension scores are stored. *)
Lemma complete_assessment_sixteen :
  (exists c, Crud.AssessmentCompletion_init sixteen_subdimensions [] = Ok c
             /\ Crud.subdimension_scores c = sixteen_subdimensions)
  /\ exists a db',
      Crud.complete_assessment to_lower draft_session 1 sixteen_scores
                               "BALANCED_TRANSFORMER" = Ok (a, db')
      /\ List.length (Crud.dimension_rows db') = 8%nat
      /\ Crud.overall_eqi a = Some 0.667
      /\ Crud.overall_rgi a = Some 0.500.
Proof.
  split.
  - eexists. split; reflexivity.
  - eexists. eexists. split; [ vm_compute; reflexivity | ].
    repeat split; reflexivity.
Qed.

(** An assessment that does not exist is the one error the function
    raises on its own. *)
Lemma complete_assessment_not_found (halfway_up : list Q -> bool)
      (completion : Crud.AssessmentCompletion) (archetype : string) :
  Crud.complete_assessment halfway_up draft_session 2 completion archetype =
  Raise (ValueError "Assessment not found").
Proof. reflexivity. Qed.


(* ================================================================== *)
(** * The recommendation list *)

Lemma recommend_spec (s : DimensionScore) :
  Full.recommend s =
  if needs_recommendation s then Some (recommendation_of s) else None.
Proof.
  unfold Full.recommend, Full.calculate_subdimension_gap, needs_recommendation,
    recommendation_of, dimension_priority.
  destruct (Full.calculate_priority_level _ _); reflexivity.
Qed.

Lemma collect_filter (scores : list DimensionScore) :
  Full.collect scores = map recommendation_of (filter needs_recommendation scores).
Proof.
  unfold Full.collect.
  induction scores as [ | s scores IH ]; [ reflexivity | ].
  cbn [flat_map filter]. rewrite IH, recommend_spec.
  destruct (needs_recommendation s); reflexivity.
Qed.

Lemma insert_by_key_perm (x : Full.Recommendation) (l : list Full.Recommendation) :
  Permutation (Full.insert_by_key x l) (x :: l).
Proof.
  induction l as [ | y l IH ]; simpl; [ apply Permutation_refl | ].
  destruct (Full.key_lt _ _); [ | apply Permutation_refl ].
  apply perm_trans with (y :: x :: l).
  - apply perm_skip. exact IH.
  - apply perm_swap.
Qed.

Lemma sort_by_key_perm (l : list Full.Recommendation) :
  Permutation (Full.sort_by_key l) l.
Proof.
  induction l as [ | x l IH ]; simpl; [ apply perm_nil | ].
  apply perm_trans with (x :: Full.sort_by_key l).
  - apply insert_by_key_perm.
  - apply perm_skip. exact IH.
Qed.

Lemma key_lt_order (a b : Full.Recommendation) :
  Full.key_lt (Full.sort_key a) (Full.sort_key b) = true ->
  recommendation_order a b.
Proof.
  unfold Full.key_lt, Full.sort_key, recommendation_order, priority_rank. simpl.
  fold (Full.priority_order (Full.rec_priority a)).
  fold (Full.priority_order (Full.rec_priority b)).
  intro H. apply orb_true_iff in H. destruct H as [H | H].
  - apply Z.ltb_lt in H. split; lia.
  - apply andb_true_iff in H. destruct H as [H1 H2].
    apply Z.eqb_eq in H1. apply Qltb_lt in H2. split; [ lia | intros _; lra ].
Qed.

Lemma key_nlt_order (a b : Full.Recommendation) :
  Full.key_lt (Full.sort_key a) (Full.sort_key b) = false ->
  recommendation_order b a.
Proof.
  unfold Full.key_lt, Full.sort_key, recommendation_order, priority_rank. simpl.
  fold (Full.priority_order (Full.rec_priority a)).
  fold (Full.priority_order (Full.rec_priority b)).
  intro H. apply orb_false_iff in H. destruct H as [H1 H2].
  apply Z.ltb_ge in H1. split; [ exact H1 | ].
  intro Heq. rewrite Heq, Z.eqb_refl in H2. simpl in H2.
  apply Qltb_ge in H2. lra.
Qed.

Lemma recommendation_order_trans (a b c : Full.Recommendation) :
  recommendation_order a b -> recommendation_order b c ->
  recommendation_order a c.
Proof.
  unfold recommendation_order. intros [H1 H2] [H3 H4]. split; [ lia | ].
  intro Heq.
  assert (E1 : priority_rank a = priority_rank b) by lia.
  assert (E2 : priority_rank b = priority_rank c) by lia.
  specialize (H2 E1). specialize (H4 E2). lra.
Qed.

Lemma insert_by_key_sorted (x : Full.Recommendation)
      (l : list Full.Recommendation) :
  StronglySorted recommendation_order l ->
  StronglySorted recommendation_order (Full.insert_by_key x l).
Proof.
  induction 1 as [ | y l Hs IH Hall ]; simpl.
  - constructor; constructor.
  - destruct (Full.key_lt (Full.sort_key y) (Full.sort_key x)) eqn:E.
    + constructor; [ exact IH | ].
      apply (Permutation_Forall (Permutation_sym (insert_by_key_perm x l))).
      constructor; [ apply key_lt_order; exact E | exact Hall ].
    + apply key_nlt_order in E.
      constructor; [ constructor; assumption | ].
      constructor; [ exact E | ].
      apply Forall_impl with (P := recommendation_order y); [ | exact Hall ].
      intros z Hz. apply (recommendation_order_trans x y z); assumption.
Qed.

Lemma sort_by_key_sorted (l : list Full.Recommendation) :
  StronglySorted recommendation_order (Full.sort_by_key l).
Proof.
  induction l as [ | x l IH ]; simpl; [ constructor | ].
  apply insert_by_key_sorted. exact IH.
Qed.

(** C9. [generate_recommendations] returns one record for each dimension
    score whose priority is CRITICAL or HIGH and for no other, and the
    list is ordered: along it the priority rank never decreases and,
    between records of one rank, the gap never increases. *)
Theorem C9_recommendations_sorted (scores : list DimensionScore) :
  let recs := Full.generate_recommendations scores in
  Permutation recs (map recommendation_of (filter needs_recommendation scores))
  /\ (forall r, In r recs <->
                exists s, In s scores
                          /\ (dimension_priority s = CRITICAL
                              \/ dimension_priority s = HIGH)
                          /\ r = recommendation_of s)
  /\ StronglySorted recommendation_order recs.
Proof.
  simpl. unfold Full.generate_recommendations.
  assert (HP : Permutation (Full.sort_by_key (Full.collect scores))
                 (map recommendation_of (filter needs_recommendation scores))).
  { rewrite <- collect_filter. apply sort_by_key_perm. }
  split; [ exact HP | ]. split; [ | apply sort_by_key_sorted ].
  intro r. split.
  - intro Hin. apply (Permutation_in _ HP) in Hin.
    apply in_map_iff in Hin. destruct Hin as [s [Hr Hs]].
    apply filter_In in Hs. destruct Hs as [Hs Hn].
    exists s. split; [ exact Hs | ]. split; [ | symmetry; exact Hr ].
    unfold needs_recommendation in Hn.
    destruct (dimension_priority s); try discriminate; tauto.
  - intros [s [Hs [Hp Hr]]]. subst r.
    apply (Permutation_in _ (Permutation_sym HP)).
    apply in_map. apply filter_In. split; [ exact Hs | ].
    unfold needs_recommendation. destruct Hp as [-> | ->]; reflexivity.
Qed.

(** On the scores of the test fixture: D4 is CRITICAL, D3 and D8 are HIGH
    and come in the order of their gaps 1.2 and 1.0. *)
Lemma recommendations_example :
  map Full.rec_dimension_id
      (Full.generate_recommendations
         [ mkDimensionScore "D1" 2.5 3.0 0.20; mkDimensionScore "D2" 2.8 3.2 0.18;
           mkDimensionScore "D3" 1.8 3.0 0.10; mkDimensionScore "D4" 1.5 3.5 0.12;
           mkDimensionScore "D5" 2.3 3.0 0.12; mkDimensionScore "D6" 3.5 3.0 0.08;
           mkDimensionScore "D7" 2.7 3.0 0.10; mkDimensionScore "D8" 2.0 3.0 0.10 ])
  = ["D4"; "D3"; "D8"]%string.
Proof. reflexivity. Qed.


(* ================================================================== *)
(** * Normalisation and the rounding correction *)

Lemma In_dict_get {V : Type} (k : string) (v : V) (d : dict V) :
  NoDup (dict_keys d) -> In (k, v) d -> dict_get k d = Some v.
Proof.
  induction d as [ | [k0 v0] d IH ]; simpl; [ tauto | ].
  intros Hnd [Heq | Hin].
  - injection Heq as -> ->. rewrite String.eqb_refl. reflexivity.
  - inversion Hnd as [ | ? ? Hnotin Hnd' ]; subst.
    destruct (String.eqb k k0) eqn:E.
    + apply String.eqb_eq in E. subst k0. exfalso. apply Hnotin.
      apply (in_map fst) in Hin. exact Hin.
    + apply IH; assumption.
Qed.

Lemma dict_keys_map_values (f : Q -> Q) (d : dict Q) :
  dict_keys (map (fun kv => (fst kv, f (snd kv))) d) = dict_keys d.
Proof. unfold dict_keys. rewrite map_map. reflexivity. Qed.

Lemma Qsum_dict_set (k : string) (v v' : Q) (d : dict Q) :
  dict_get k d = Some v ->
  Qsum (dict_values (dict_set k v' d)) == Qsum (dict_values d) - v + v'.
Proof.
  induction d as [ | [k0 v0] d IH ]; simpl; [ discriminate | ].
  destruct (String.eqb k k0).
  - intro H. injection H as ->. simpl. lra.
  - intro H. simpl. rewrite (IH H). lra.
Qed.

Lemma divide_all_ok (summe : Q) (weights : dict Q) :
  ~ summe == 0 ->
  Full.divide_all summe weights =
  Ok (map (fun kv => (fst kv, snd kv / summe)) weights).
Proof.
  intro Hne. induction weights as [ | [k v] d IH ]; simpl; [ reflexivity | ].
  unfold Full.ddiv at 1. destruct (Qeq_bool summe 0) eqn:E.
  - apply Qeq_bool_iff in E. contradiction.
  - simpl. rewrite IH. reflexivity.
Qed.

(** The first maximum of a dictionary. *)
Lemma argmax_from_spec (d : dict Q) (best : string) (bv : Q) :
  exists v,
    (In (Full.argmax_from best bv d, v) d
     \/ (Full.argmax_from best bv d = best /\ v = bv))
    /\ bv <= v
    /\ forall k' v', In (k', v') d -> v' <= v.
Proof.
  revert best bv. induction d as [ | [k0 v0] d IH ]; intros best bv; simpl.
  - exists bv. split; [ right; split; reflexivity | ].
    split; [ lra | intros ? ? [] ].
  - destruct (Qltb bv v0) eqn:E; reflect_cmp.
    + destruct (IH k0 v0) as [v [Hin [Hle Hmax]]]. exists v.
      split; [ | split; [ lra | ] ].
      * destruct Hin as [Hin | [Hk Hv]]; [ left; right; exact Hin | ].
        left. left. rewrite Hk, Hv. reflexivity.
      * intros k' v' [Heq | Hin']; [ injection Heq as <- <-; exact Hle | ].
        apply (Hmax k' v' Hin').
    + destruct (IH best bv) as [v [Hin [Hle Hmax]]]. exists v.
      split; [ | split; [ exact Hle | ] ].
      * destruct Hin as [Hin | Hb]; [ left; right; exact Hin | right; exact Hb ].
      * intros k' v' [Heq | Hin']; [ injection Heq as <- <-; lra | ].
        apply (Hmax k' v' Hin').
Qed.

Lemma argmax_spec (d : dict Q) :
  d <> [] -> NoDup (dict_keys d) ->
  exists k v, Full.argmax d = Ok k /\ largest k v d.
Proof.
  intros Hne Hnd. destruct d as [ | [k0 v0] d ]; [ contradiction | ].
  simpl. destruct (argmax_from_spec d k0 v0) as [v [Hin [Hle Hmax]]].
  exists (Full.argmax_from k0 v0 d), v. split; [ reflexivity | ]. split.
  - apply In_dict_get; [ exact Hnd | ].
    destruct Hin as [Hin | [Hk Hv]]; [ right; exact Hin | ].
    left. rewrite Hk, Hv. reflexivity.
  - intros k' v' [Heq | Hin']; [ injection Heq as <- <-; exact Hle | ].
    apply (Hmax k' v' Hin').
Qed.

(** The rounded weights are whole thousandths, and so is their sum. *)
Lemma Qsum_rounded3 (weights : dict Q) :
  exists z, Qsum (dict_values (rounded3 weights)) == inject_Z z / 1000.
Proof.
  induction weights as [ | [k v] d [z IH] ]; simpl.
  - exists 0%Z. reflexivity.
  - exists (round_half_up_Z (v * 1000) + z)%Z.
    unfold rounded3 in IH. rewrite IH. unfold quantize3.
    rewrite Qmake_as_div, inject_Z_plus.
    change (inject_Z (Zpos 1000)) with 1000. field.
Qed.

(** A residual of at most one ten-thousandth is no residual at all. *)
Lemma small_residual_zero (weights : dict Q) :
  Qabs (residual (rounded3 weights)) <= 0.0001 ->
  residual (rounded3 weights) == 0.
Proof.
  unfold residual. destruct (Qsum_rounded3 weights) as [z Hz]. rewrite Hz.
  intro H. apply Qabs_Qle_condition in H. destruct H as [H1 H2].
  unfold Qdiv in H1, H2. change (/ 1000) with (1 # 1000) in H1, H2.
  assert (Hz' : z = 1000%Z).
  { assert (A : inject_Z 999 < inject_Z z).
    { change (inject_Z 999) with 999. lra. }
    assert (B : inject_Z z < inject_Z 1001).
    { change (inject_Z 1001) with 1001. lra. }
    apply inject_Z_lt in A. apply inject_Z_lt in B. lia. }
  subst z. reflexivity.
Qed.

Lemma round_and_correct_large (w : dict Q) :
  w <> [] -> NoDup (dict_keys w) ->
  0.0001 < Qabs (residual (rounded3 w)) ->
  exists k v,
    largest k v (rounded3 w)
    /\ Full._round_and_correct w =
       Ok (dict_set k (v + residual (rounded3 w)) (rounded3 w))
    /\ Qsum (dict_values (dict_set k (v + residual (rounded3 w)) (rounded3 w)))
       == 1.
Proof.
  intros Hne Hnd Hres.
  assert (Hne' : rounded3 w <> []).
  { destruct w; [ contradiction | discriminate ]. }
  assert (Hnd' : NoDup (dict_keys (rounded3 w))).
  { unfold rounded3. rewrite dict_keys_map_values. exact Hnd. }
  destruct (argmax_spec (rounded3 w) Hne' Hnd') as [k [v [Hk Hl]]].
  exists k, v. split; [ exact Hl | ]. destruct Hl as [Hget _]. split.
  - unfold Full._round_and_correct. fold (rounded3 w).
    fold (residual (rounded3 w)).
    apply Qgtb_gt in Hres. rewrite Hres, Hk. cbn [bind]. rewrite Hget.
    reflexivity.
  - rewrite (Qsum_dict_set k v _ _ Hget). unfold residual. lra.
Qed.

Lemma round_and_correct_small (w : dict Q) :
  Qabs (residual (rounded3 w)) <= 0.0001 ->
  Full._round_and_correct w = Ok (rounded3 w)
  /\ Qsum (dict_values (rounded3 w)) == 1.
Proof.
  intro Hres. split.
  - unfold Full._round_and_correct. fold (rounded3 w).
    fold (residual (rounded3 w)).
    apply Qgtb_le in Hres. rewrite Hres. reflexivity.
  - apply small_residual_zero in Hres. unfold residual in Hres. lra.
Qed.

Lemma normalize_weights_unfold (weights : dict Q) :
  ~ Qsum (dict_values weights) == 0 ->
  Full._normalize_weights weights = Full._round_and_correct (normalised weights).
Proof.
  intro Hne. unfold Full._normalize_weights.
  rewrite (divide_all_ok _ _ Hne). reflexivity.
Qed.

Lemma normalised_keys (weights : dict Q) :
  dict_keys (normalised weights) = dict_keys weights.
Proof.
  unfold normalised.
  apply (dict_keys_map_values (fun v => v / Qsum (dict_values weights))).
Qed.

(** C5. In [_normalize_weights] every weight is divided by the sum and
    rounded to three decimals, and [residual] is 1 minus the sum of the
    rounded weights.  When [|residual| > 0.0001] the whole residual is
    added to the one largest rounded weight, the others stay as rounded,
    and the returned weights sum to exactly 1; when [|residual| <= 0.0001]
    the rounded weights are returned unchanged. *)
Theorem C5_rounding_correction (weights : dict Q) :
  weights <> [] -> NoDup (dict_keys weights) ->
  ~ Qsum (dict_values weights) == 0 ->
  let rounded := rounded3 (normalised weights) in
  (0.0001 < Qabs (residual rounded) ->
   exists k v,
     largest k v rounded
     /\ Full._normalize_weights weights =
        Ok (dict_set k (v + residual rounded) rounded)
     /\ Qsum (dict_values (dict_set k (v + residual rounded) rounded)) == 1)
  /\ (Qabs (residual rounded) <= 0.0001 ->
      Full._normalize_weights weights = Ok rounded).
Proof.
  intros Hne Hnd Hsum. cbv zeta.
  rewrite (normalize_weights_unfold _ Hsum).
  split.
  - apply round_and_correct_large.
    + destruct weights; [ contradiction | discriminate ].
    + rewrite normalised_keys. exact Hnd.
  - intro H. apply round_and_correct_small. exact H.
Qed.

Lemma C5_rounding_correction_witness :
  let weights := [("D1", 0.3); ("D2", 0.4); ("D3", 0.5)]%string in
  weights <> [] /\ NoDup (dict_keys weights)
  /\ ~ Qsum (dict_values weights) == 0
  /\ (Qabs (residual (rounded3 (normalised weights))) <= 0.0001 ->
      Full._normalize_weights weights = Ok (rounded3 (normalised weights))).
Proof.
  cbv zeta.
  assert (H1 : [("D1", 0.3); ("D2", 0.4); ("D3", 0.5)]%string <> @nil (string * Q))
    by discriminate.
  assert (H2 : NoDup (dict_keys [("D1", 0.3); ("D2", 0.4); ("D3", 0.5)]%string)).
  { repeat constructor; simpl; intuition discriminate. }
  assert (H3 : ~ Qsum (dict_values [("D1", 0.3); ("D2", 0.4); ("D3", 0.5)]%string)
                 == 0) by (intro H; vm_compute in H; discriminate).
  split; [ exact H1 | ]. split; [ exact H2 | ]. split; [ exact H3 | ].
  exact (proj2 (C5_rounding_correction _ H1 H2 H3)).
Defined.

(** Both branches on concrete weights: thirds round to 0.333 each and leave
    a residual of 0.001, which the first of them receives; the weights of
    the repository's normalisation test round without residual. *)
Lemma round_and_correct_examples :
  Full._normalize_weights [("D1", 1); ("D2", 1); ("D3", 1)]%string
  = Ok [("D1", 0.333 + (1 - (0.333 + (0.333 + (0.333 + 0))))); ("D2", 0.333);
        ("D3", 0.333)]%string
  /\ Full._normalize_weights [("D1", 0.3); ("D2", 0.4); ("D3", 0.5)]%string
     = Ok [("D1", 0.250); ("D2", 0.333); ("D3", 0.417)]%string.
Proof. split; reflexivity. Qed.


(* ================================================================== *)
(** * The weighting pipeline of the top-level engine *)

Lemma qpow_nonneg (c : Q) (n : nat) : 0 <= c -> 0 <= qpow c n.
Proof.
  intro Hc. induction n as [ | n IH ]; simpl; [ lra | ].
  apply Qmult_le_0_compat; assumption.
Qed.

Lemma qpow_add (c : Q) (a b : nat) : qpow c (a + b) == qpow c a * qpow c b.
Proof.
  induction a as [ | a IH ]; simpl; [ lra | ]. rewrite IH. ring.
Qed.

Lemma qpow_mul (a b : Q) (n : nat) : qpow a n * qpow b n == qpow (a * b) n.
Proof.
  induction n as [ | n IH ]; simpl; [ lra | ]. rewrite <- IH. ring.
Qed.

(** Powers of a number between 0 and 1 decrease. *)
Lemma qpow_antitone (c : Q) (h n : nat) :
  0 <= c <= 1 -> (h <= n)%nat -> qpow c n <= qpow c h.
Proof.
  intros Hc Hle. induction Hle as [ | n Hle IH ]; [ lra | ].
  simpl. pose proof (qpow_nonneg c n (proj1 Hc)) as Hn.
  assert (H : c * qpow c n <= 1 * qpow c n)
    by (apply Qmult_le_compat_r; lra).
  lra.
Qed.

Lemma dict_mul_val (k : string) (c : Q) (w : dict Q) :
  shaped w -> In k Full.dims ->
  exists w', Full.dict_mul k c w = Ok w'
             /\ shaped w'
             /\ forall d, val d w' =
                          if String.eqb d k then val d w * c else val d w.
Proof.
  unfold shaped. intros Hs Hk. rewrite <- Hs in Hk.
  destruct (proj1 (dict_get_In k w) Hk) as [v Hv].
  exists (dict_set k (v * c) w). split; [ apply dict_mul_present; exact Hv | ].
  split; [ rewrite dict_keys_set_present; assumption | ].
  intro d. unfold val. rewrite dict_get_set.
  destruct (String.eqb d k) eqn:E; [ | reflexivity ].
  apply String.eqb_eq in E. subst d. rewrite Hv. reflexivity.
Qed.

(** A loop that multiplies the weight of each score that satisfies [p]
    by [c] multiplies the weight of a key by [c] once for each such score. *)
Lemma for_each_mul (p : DimensionScore -> bool) (c : Q)
      (scores : list DimensionScore) (w : dict Q) :
  shaped w -> Forall (fun s => In (dimension_id s) Full.dims) scores ->
  exists w',
    for_each (fun w s => if p s then Full.dict_mul (dimension_id s) c w else Ok w)
             scores w = Ok w'
    /\ shaped w'
    /\ forall d, val d w' == val d w * qpow c (cnt p d scores).
Proof.
  intros Hs Hids. revert w Hs.
  induction Hids as [ | s scores Hid _ IH ]; intros w Hs.
  - exists w. split; [ reflexivity | ]. split; [ exact Hs | ].
    intro d. simpl. ring.
  - cbn [for_each cnt]. destruct (p s) eqn:Ep.
    + destruct (dict_mul_val (dimension_id s) c w Hs Hid) as [w1 [H1 [Hs1 Hv1]]].
      rewrite H1. cbn [bind].
      destruct (IH w1 Hs1) as [w' [H' [Hs' Hv']]].
      exists w'. split; [ exact H' | ]. split; [ exact Hs' | ].
      intro d. rewrite Hv', Hv1. cbn [andb].
      destruct (String.eqb d (dimension_id s)); simpl; ring.
    + cbn [bind]. destruct (IH w Hs) as [w' [H' [Hs' Hv']]].
      exists w'. split; [ exact H' | ]. split; [ exact Hs' | ].
      intro d. rewrite Hv'. cbn [andb]. simpl. ring.
Qed.

Lemma cnt_le_occ (p : DimensionScore -> bool) (d : string)
      (scores : list DimensionScore) :
  (cnt p d scores <= occ d scores)%nat.
Proof.
  unfold occ. induction scores as [ | s scores IH ]; simpl; [ lia | ].
  destruct (p s); simpl; destruct (String.eqb d (dimension_id s)); lia.
Qed.

Lemma cnt_tight_large (d : string) (scores : list DimensionScore) :
  (cnt tight_gap d scores + cnt large_gap d scores = occ d scores)%nat.
Proof.
  unfold occ. induction scores as [ | s scores IH ]; simpl; [ reflexivity | ].
  unfold large_gap at 1, tight_gap at 1, Qgtb, Qltb.
  destruct (Qle_bool (Full.gap s) Full.SCHWELLENWERT_GAP); simpl;
    destruct (String.eqb d (dimension_id s)); lia.
Qed.

Lemma occ_le_length (d : string) (scores : list DimensionScore) :
  (occ d scores <= List.length scores)%nat.
Proof.
  unfold occ. induction scores as [ | s scores IH ]; simpl; [ lia | ].
  destruct (String.eqb d (dimension_id s)); lia.
Qed.

(** Rules 1 and 2 together: one factor 1.2 for each score of the key. *)
Lemma rules_1_2_val (scores : list DimensionScore) (w : dict Q) :
  shaped w -> Forall (fun s => In (dimension_id s) Full.dims) scores ->
  exists w1 w2,
    Full._apply_rule_1_tight_gaps w scores = Ok w1
    /\ Full._apply_rule_2_large_gaps w1 scores = Ok w2
    /\ shaped w2
    /\ forall d, val d w2 == val d w * qpow 1.2 (occ d scores).
Proof.
  intros Hs Hids.
  destruct (for_each_mul tight_gap Full.ANPASSUNGSFAKTOR scores w Hs Hids)
    as [w1 [H1 [Hs1 Hv1]]].
  destruct (for_each_mul large_gap Full.ANPASSUNGSFAKTOR scores w1 Hs1 Hids)
    as [w2 [H2 [Hs2 Hv2]]].
  exists w1, w2. split; [ exact H1 | ]. split; [ exact H2 | ].
  split; [ exact Hs2 | ]. intro d.
  rewrite Hv2, Hv1, <- cnt_tight_large, qpow_add.
  unfold Full.ANPASSUNGSFAKTOR. ring.
Qed.

Lemma rule_5_val (scores : list DimensionScore) (w : dict Q) :
  shaped w -> Forall (fun s => In (dimension_id s) Full.dims) scores ->
  exists w',
    Full._apply_rule_5_above_average w scores = Ok w'
    /\ shaped w'
    /\ forall d, val d w' == val d w * qpow 0.8 (cnt (above_average scores) d scores).
Proof.
  intros Hs Hids.
  apply (for_each_mul (above_average scores) Full.ANPASSUNGSFAKTOR_DAEMPFUNG
                      scores w Hs Hids).
Qed.

(** Two multiplications in a row, on different keys. *)
Lemma dict_mul_twice (k1 k2 : string) (c1 c2 : Q) (w : dict Q) :
  shaped w -> In k1 Full.dims -> In k2 Full.dims -> k1 <> k2 ->
  exists w',
    (w1 <- Full.dict_mul k1 c1 w ;; Full.dict_mul k2 c2 w1) = Ok w'
    /\ shaped w'
    /\ forall d, val d w' = val d w * c1 \/ val d w' = val d w * c2
                 \/ val d w' = val d w.
Proof.
  intros Hs H1 H2 Hne.
  destruct (dict_mul_val k1 c1 w Hs H1) as [w1 [E1 [Hs1 Hv1]]].
  destruct (dict_mul_val k2 c2 w1 Hs1 H2) as [w2 [E2 [Hs2 Hv2]]].
  exists w2. rewrite E1. cbn [bind]. split; [ exact E2 | ].
  split; [ exact Hs2 | ]. intro d. rewrite Hv2, Hv1.
  destruct (String.eqb d k2) eqn:A; destruct (String.eqb d k1) eqn:B; auto.
  apply String.eqb_eq in A. apply String.eqb_eq in B. congruence.
Qed.

Lemma dims_facts :
  In "D1"%string Full.dims /\ In "D2"%string Full.dims
  /\ In "D3"%string Full.dims /\ In "D6"%string Full.dims
  /\ In "D7"%string Full.dims /\ NoDup Full.dims.
Proof.
  repeat split; try (simpl; tauto).
  repeat constructor; simpl; intuition discriminate.
Qed.

Lemma factor_one (lo hi x : Q) : lo <= 1 <= hi -> factor_between lo hi x x.
Proof. intro H. exists 1. split; [ exact H | ring ]. Qed.

Lemma factor_of (lo hi x c : Q) : lo <= c <= hi -> factor_between lo hi x (x * c).
Proof. intro H. exists c. split; [ exact H | reflexivity ]. Qed.

Lemma rule_3_val (scores : list DimensionScore) (w : dict Q) :
  shaped w ->
  exists w',
    Full._apply_rule_3_high_tension w scores = Ok w'
    /\ shaped w'
    /\ forall d, factor_between 1 1.3 (val d w) (val d w').
Proof.
  intro Hs. destruct dims_facts as [_ [_ [H3 [H6 _]]]].
  assert (Hone : forall d, factor_between 1 1.3 (val d w) (val d w)).
  { intro d. apply factor_one. lra. }
  unfold Full._apply_rule_3_high_tension.
  destruct (dict_get "D6" (scores_dict scores)) as [ s6 | ];
    [ | exists w; auto ].
  destruct (dict_get "D3" (scores_dict scores)) as [ s3 | ];
    [ | exists w; auto ].
  cbv zeta. destruct (Qgtb _ _); [ | exists w; auto ].
  destruct (Qltb _ _).
  - destruct (dict_mul_twice "D3" "D6" Full.ANPASSUNGSFAKTOR_HOCH
                             Full.ANPASSUNGSFAKTOR_MITTEL w Hs H3 H6)
      as [w' [E [Hs' Hv]]]; [ discriminate | ].
    exists w'. split; [ exact E | ]. split; [ exact Hs' | ].
    intro d. destruct (Hv d) as [-> | [-> | ->]];
      [ apply factor_of | apply factor_of | apply factor_one ];
      unfold Full.ANPASSUNGSFAKTOR_HOCH, Full.ANPASSUNGSFAKTOR_MITTEL; lra.
  - destruct (dict_mul_twice "D6" "D3" Full.ANPASSUNGSFAKTOR_HOCH
                             Full.ANPASSUNGSFAKTOR_MITTEL w Hs H6 H3)
      as [w' [E [Hs' Hv]]]; [ discriminate | ].
    exists w'. split; [ exact E | ]. split; [ exact Hs' | ].
    intro d. destruct (Hv d) as [-> | [-> | ->]];
      [ apply factor_of | apply factor_of | apply factor_one ];
      unfold Full.ANPASSUNGSFAKTOR_HOCH, Full.ANPASSUNGSFAKTOR_MITTEL; lra.
Qed.

Lemma rule_4_val (context_score : Q) (w : dict Q) :
  shaped w ->
  exists w',
    Full._apply_rule_4_context w context_score = Ok w'
    /\ shaped w'
    /\ forall d, factor_between 1 1.2 (val d w) (val d w').
Proof.
  intro Hs. destruct dims_facts as [H1 [H2 [_ [_ [H7 _]]]]].
  unfold Full._apply_rule_4_context.
  destruct (Qltb context_score _).
  - destruct (dict_mul_val "D7" Full.ANPASSUNGSFAKTOR w Hs H7)
      as [w' [E [Hs' Hv]]].
    exists w'. split; [ exact E | ]. split; [ exact Hs' | ].
    intro d. rewrite Hv. destruct (String.eqb d "D7");
      [ apply factor_of | apply factor_one ];
      unfold Full.ANPASSUNGSFAKTOR; lra.
  - destruct (Qgtb context_score _).
    + destruct (dict_mul_twice "D1" "D2" Full.ANPASSUNGSFAKTOR
                               Full.ANPASSUNGSFAKTOR w Hs H1 H2)
        as [w' [E [Hs' Hv]]]; [ discriminate | ].
      exists w'. split; [ exact E | ]. split; [ exact Hs' | ].
      intro d. destruct (Hv d) as [-> | [-> | ->]];
        [ apply factor_of | apply factor_of | apply factor_one ];
        unfold Full.ANPASSUNGSFAKTOR; lra.
    + exists w. split; [ reflexivity | ]. split; [ exact Hs | ].
      intro d. apply factor_one. lra.
Qed.


(** Dictionaries rewritten value by value keep their keys. *)
Lemma dict_map_get (g : string -> Q -> Q) (F : string * Q -> string * Q)
      (w : dict Q) (k : string) :
  (forall kv, F kv = (fst kv, g (fst kv) (snd kv))) ->
  dict_keys (map F w) = dict_keys w
  /\ dict_get k (map F w) =
     match dict_get k w with Some v => Some (g k v) | None => None end.
Proof.
  intro HF. induction w as [ | [k0 v0] w [IHk IHg] ]; [ split; reflexivity | ].
  cbn [map]. rewrite (HF (k0, v0)). cbn [fst snd dict_keys map dict_get].
  split.
  - f_equal. exact IHk.
  - destruct (String.eqb k k0) eqn:E; [ | exact IHg ].
    apply String.eqb_eq in E. subst k0. reflexivity.
Qed.

Lemma archetyp_factor_range (archetyp : Full.Archetyp) (d : string) :
  In d Full.dims ->
  exists f, dict_get d (Full._get_archetyp_factors archetyp) = Some f
            /\ 0.7 <= f <= 1.5.
Proof.
  intro Hd. simpl in Hd.
  repeat (destruct Hd as [ <- | Hd ];
          [ destruct archetyp; eexists; (split; [ reflexivity | split; qdec ])
          | ]).
  contradiction.
Qed.

Lemma rule_6_val (archetyp : Full.Archetyp) (w : dict Q) :
  shaped w ->
  shaped (Full._apply_rule_6_archetyp w archetyp)
  /\ forall d, In d Full.dims ->
               factor_between 0.7 1.5 (val d w)
                              (val d (Full._apply_rule_6_archetyp w archetyp)).
Proof.
  intro Hs. unfold Full._apply_rule_6_archetyp.
  set (fk := Full._get_archetyp_factors archetyp).
  set (g := fun (k : string) (v : Q) =>
              match dict_get k fk with Some f => v * f | None => v end).
  assert (HF : forall kv : string * Q,
             match dict_get (fst kv) fk with
             | Some f => (fst kv, snd kv * f)
             | None => kv
             end = (fst kv, g (fst kv) (snd kv))).
  { intros [k v]. unfold g. simpl. destruct (dict_get k fk); reflexivity. }
  split.
  - unfold shaped. rewrite (proj1 (dict_map_get g _ w ""%string HF)). exact Hs.
  - intros d Hd. unfold val. rewrite (proj2 (dict_map_get g _ w d HF)).
    destruct (archetyp_factor_range archetyp d Hd) as [f [Hf Hr]].
    destruct (dict_get d w) as [ v | ].
    + unfold g. fold fk in Hf. rewrite Hf. apply factor_of. exact Hr.
    + apply factor_one. lra.
Qed.

Lemma minimum_security_val (w : dict Q) :
  shaped w ->
  shaped (Full._apply_minimum_security w)
  /\ forall d, In d Full.dims -> 0.01 <= val d w ->
               val d (Full._apply_minimum_security w) = val d w.
Proof.
  intro Hs. unfold Full._apply_minimum_security.
  set (g := fun (k : string) (v : Q) =>
              if Qltb v Full.MINIMUM_GEWICHT then Full.MINIMUM_GEWICHT else v).
  assert (HF : forall kv : string * Q,
             (if Qltb (snd kv) Full.MINIMUM_GEWICHT
              then (fst kv, Full.MINIMUM_GEWICHT) else kv)
             = (fst kv, g (fst kv) (snd kv))).
  { intros [k v]. unfold g. simpl. destruct (Qltb v _); reflexivity. }
  split.
  - unfold shaped. rewrite (proj1 (dict_map_get g _ w ""%string HF)). exact Hs.
  - intros d Hd Hlo. unfold val in *.
    rewrite (proj2 (dict_map_get g _ w d HF)).
    unfold shaped in Hs. rewrite <- Hs in Hd.
    destruct (proj1 (dict_get_In d w) Hd) as [v Hv]. rewrite Hv in *.
    unfold g. destruct (Qltb v Full.MINIMUM_GEWICHT) eqn:E; [ | reflexivity ].
    reflect_cmp. unfold Full.MINIMUM_GEWICHT in E. lra.
Qed.

Lemma base_weights_shape (is_kmu : bool) :
  shaped (Full._load_base_weights is_kmu)
  /\ forall d, In d Full.dims ->
               0.1 <= val d (Full._load_base_weights is_kmu) <= 0.15.
Proof.
  split; [ destruct is_kmu; reflexivity | ].
  intros d Hd. simpl in Hd.
  repeat (destruct Hd as [ <- | Hd ]; [ destruct is_kmu; split; qdec | ]).
  contradiction.
Qed.

(** Factors 1.2 and 0.8 on at most eight scores: the product stays above
    0.72, and a power of 1.2 below its chord through [(0, 1)] and
    [(8, 1.2^8)]. *)
Lemma pow_lower (n h : nat) :
  (h <= n)%nat -> (n <= 8)%nat -> 0.72 <= qpow 1.2 n * qpow 0.8 h.
Proof.
  intros Hh Hn.
  assert (A : qpow 0.8 n <= qpow 0.8 h) by (apply qpow_antitone; [ lra | exact Hh ]).
  assert (B : qpow (1.2 * 0.8) 8 <= qpow (1.2 * 0.8) n)
    by (apply qpow_antitone; [ lra | exact Hn ]).
  assert (C : 0.72 <= qpow (1.2 * 0.8) 8) by qdec.
  assert (D : 0 <= qpow 1.2 n) by (apply qpow_nonneg; lra).
  assert (E : qpow 1.2 n * qpow 0.8 n <= qpow 1.2 n * qpow 0.8 h).
  { rewrite (Qmult_comm (qpow 1.2 n) (qpow 0.8 n)).
    rewrite (Qmult_comm (qpow 1.2 n) (qpow 0.8 h)).
    apply Qmult_le_compat_r; assumption. }
  rewrite qpow_mul in E. lra.
Qed.

Lemma pow_upper (n : nat) :
  (n <= 8)%nat -> qpow 1.2 n <= 1 + 0.4125 * inject_Z (Z.of_nat n).
Proof.
  intro Hn. do 9 (destruct n as [ | n ]; [ qdec | ]). lia.
Qed.

Lemma pow_damp (h : nat) : 0 <= qpow 0.8 h <= 1.
Proof.
  split; [ apply qpow_nonneg; lra | ].
  apply (qpow_antitone 0.8 0 h); [ lra | lia ].
Qed.

Lemma occ_total (scores : list DimensionScore) :
  Forall (fun s => In (dimension_id s) Full.dims) scores ->
  (occ "D1" scores + occ "D2" scores + occ "D3" scores + occ "D4" scores
   + occ "D5" scores + occ "D6" scores + occ "D7" scores + occ "D8" scores
   = List.length scores)%nat.
Proof.
  unfold occ. induction 1 as [ | s scores Hid _ IH ]; [ reflexivity | ].
  cbn [cnt List.length andb]. simpl in Hid.
  repeat (destruct Hid as [ <- | Hid ]; [ simpl; lia | ]).
  contradiction.
Qed.

Lemma Qmult_between (x y lo1 hi1 lo2 hi2 : Q) :
  0 <= lo1 -> lo1 <= x <= hi1 -> 0 <= lo2 -> lo2 <= y <= hi2 ->
  lo1 * lo2 <= x * y <= hi1 * hi2.
Proof.
  intros H1 [Hx1 Hx2] H2 [Hy1 Hy2]. split.
  - apply Qle_trans with (x * lo2).
    + apply Qmult_le_compat_r; assumption.
    + rewrite (Qmult_comm x lo2), (Qmult_comm x y).
      apply Qmult_le_compat_r; [ assumption | lra ].
  - apply Qle_trans with (x * hi2).
    + rewrite (Qmult_comm x y), (Qmult_comm x hi2).
      apply Qmult_le_compat_r; [ assumption | lra ].
    + apply Qmult_le_compat_r; [ assumption | lra ].
Qed.

(** The product of the five adjustments of one weight. *)
Lemma adjusted_weight_bounds (b v2 v3 v4 v5 v6 : Q) (n h : nat) :
  0.1 <= b <= 0.15 -> (h <= n)%nat -> (n <= 8)%nat ->
  v2 == b * qpow 1.2 n ->
  factor_between 1 1.3 v2 v3 ->
  factor_between 1 1.2 v3 v4 ->
  v5 == v4 * qpow 0.8 h ->
  factor_between 0.7 1.5 v5 v6 ->
  0.05 <= v6 <= 0.351 * (1 + 0.4125 * inject_Z (Z.of_nat n)).
Proof.
  intros Hb Hh Hn E2 [r3 [H3 E3]] [r4 [H4 E4]] E5 [f [Hf E6]].
  pose proof (pow_lower n h Hh Hn) as PL.
  pose proof (pow_upper n Hn) as PU.
  pose proof (pow_damp h) as PD.
  set (A := qpow 1.2 n) in *. set (B := qpow 0.8 h) in *.
  set (N := inject_Z (Z.of_nat n)) in *.
  assert (HA : 1 <= A).
  { subst A. change 1 with (qpow 1.2 0).
    clear. induction n as [ | n IH ]; [ simpl; lra | ].
    simpl in *. assert (0 <= qpow 1.2 n) by (apply qpow_nonneg; lra). nra. }
  assert (E : v6 == (b * (A * B)) * ((r3 * r4) * f)).
  { rewrite E6, E5, E4, E3, E2. ring. }
  assert (M1 : 1 * 1 <= r3 * r4 <= 1.3 * 1.2)
    by (apply Qmult_between; lra).
  assert (M : (1 * 1) * 0.7 <= (r3 * r4) * f <= (1.3 * 1.2) * 1.5)
    by (apply Qmult_between; lra).
  assert (AB1 : 0.72 <= A * B) by exact PL.
  assert (AB2 : 0 * 0 <= A * B <= (1 + 0.4125 * N) * 1)
    by (apply Qmult_between; lra).
  assert (X : 0.1 * 0.72 <= b * (A * B) <= 0.15 * ((1 + 0.4125 * N) * 1))
    by (apply Qmult_between; lra).
  assert (Y : (0.1 * 0.72) * ((1 * 1) * 0.7)
              <= (b * (A * B)) * ((r3 * r4) * f)
              <= (0.15 * ((1 + 0.4125 * N) * 1)) * ((1.3 * 1.2) * 1.5))
    by (apply Qmult_between; lra).
  rewrite E. lra.
Qed.

Lemma values_as_vals (w : dict Q) :
  NoDup (dict_keys w) ->
  dict_values w = map (fun k => val k w) (dict_keys w).
Proof.
  induction w as [ | [k0 v0] w IH ]; [ reflexivity | ].
  intro Hnd. inversion Hnd as [ | ? ? Hnotin Hnd' ]; subst.
  cbn [dict_values dict_keys map fst snd]. f_equal.
  - unfold val. simpl. rewrite String.eqb_refl. reflexivity.
  - fold (dict_values w). fold (dict_keys w). rewrite (IH Hnd').
    apply map_ext_in. intros k Hk. unfold val. simpl.
    destruct (String.eqb k k0) eqn:E; [ | reflexivity ].
    apply String.eqb_eq in E. subst k0. contradiction.
Qed.

Lemma quantize3_near (x : Q) : x - 0.0005 <= quantize3 x <= x + 0.0005.
Proof.
  unfold quantize3. rewrite (Qmake_as_div (round_half_up_Z (x * 1000)) 1000).
  change (inject_Z (Zpos 1000)) with 1000.
  destruct (round_half_up_Z_near (x * 1000)) as [Hlo Hhi].
  set (z := inject_Z (round_half_up_Z (x * 1000))) in *. split.
  - apply Qle_shift_div_l; [ reflexivity | lra ].
  - apply Qle_shift_div_r; [ reflexivity | lra ].
Qed.

Lemma rounded_sum_near (d : dict Q) :
  let n := inject_Z (Z.of_nat (List.length d)) in
  Qsum (dict_values d) - n * 0.0005 <= Qsum (dict_values (rounded3 d))
  /\ Qsum (dict_values (rounded3 d)) <= Qsum (dict_values d) + n * 0.0005.
Proof.
  induction d as [ | [k v] d IH ]; cbv zeta in *.
  - split; qdec.
  - cbn [rounded3 map dict_values fst snd Qsum fold_right List.length].
    fold (rounded3 d). fold (dict_values (rounded3 d)). fold (dict_values d).
    fold (Qsum (dict_values (rounded3 d))). fold (Qsum (dict_values d)).
    rewrite Nat2Z.inj_succ. unfold Z.succ. rewrite inject_Z_plus.
    change (inject_Z 1) with 1.
    destruct (quantize3_near v) as [A B]. destruct IH as [C D]. split; lra.
Qed.

Lemma Qsum_div (c : Q) (l : list Q) :
  Qsum (map (fun v => v / c) l) == Qsum l / c.
Proof. exact (Qsum_scale (/ c) l). Qed.

Lemma normalised_sum (w : dict Q) :
  ~ Qsum (dict_values w) == 0 -> Qsum (dict_values (normalised w)) == 1.
Proof.
  intro Hne. unfold normalised, dict_values. rewrite map_map. simpl.
  rewrite <- (map_map snd (fun v => v / Qsum (map snd w))).
  rewrite Qsum_div. field. exact Hne.
Qed.

Lemma Qsum_lower (lo : Q) (l : list Q) :
  Forall (fun v => lo <= v) l ->
  lo * inject_Z (Z.of_nat (List.length l)) <= Qsum l.
Proof.
  induction 1 as [ | x l Hx _ IH ].
  { cbn [List.length Qsum fold_right].
    change (inject_Z (Z.of_nat 0)) with 0. lra. }
  cbn [List.length Qsum fold_right]. fold (Qsum l).
  rewrite Nat2Z.inj_succ. unfold Z.succ. rewrite inject_Z_plus.
  change (inject_Z 1) with 1. lra.
Qed.

Lemma Qsum_upper (hi : Q) (l : list Q) :
  Forall (fun v => v <= hi) l ->
  Qsum l <= hi * inject_Z (Z.of_nat (List.length l)).
Proof.
  induction 1 as [ | x l Hx _ IH ].
  { cbn [List.length Qsum fold_right].
    change (inject_Z (Z.of_nat 0)) with 0. lra. }
  cbn [List.length Qsum fold_right]. fold (Qsum l).
  rewrite Nat2Z.inj_succ. unfold Z.succ. rewrite inject_Z_plus.
  change (inject_Z 1) with 1. lra.
Qed.

Lemma Forall_dict_set (P : Q -> Prop) (k : string) (x : Q) (d : dict Q) :
  Forall P (dict_values d) -> P x -> Forall P (dict_values (dict_set k x d)).
Proof.
  intros Hd Hx. induction d as [ | [k0 v0] d IH ]; simpl.
  - constructor; [ exact Hx | constructor ].
  - inversion Hd as [ | ? ? H0 Hd' ]; subst.
    destruct (String.eqb k k0); simpl; constructor; auto.
Qed.

Lemma largest_values (k : string) (v : Q) (d : dict Q) :
  largest k v d -> Forall (fun v' => v' <= v) (dict_values d).
Proof.
  intros [_ H]. unfold dict_values. apply Forall_forall. intros v' Hin.
  apply in_map_iff in Hin. destruct Hin as [[k' v''] [E Hin]]. simpl in E.
  subst v''. apply (H k' v' Hin).
Qed.

(** Eight weights of at least 0.05 that sum to at most 4 come out of the
    normalisation with their keys, summing to 1, none below 0.01. *)
Lemma normalize_ok (w : dict Q) :
  List.length w = 8%nat -> NoDup (dict_keys w) ->
  Forall (fun v => 0.05 <= v) (dict_values w) ->
  Qsum (dict_values w) <= 4 ->
  exists out,
    Full._normalize_weights w = Ok out
    /\ dict_keys out = dict_keys w
    /\ Qsum (dict_values out) == 1
    /\ Forall (fun v => 0.01 <= v) (dict_values out).
Proof.
  intros Hlen Hnd Hlo Hhi.
  assert (HS : 0.4 <= Qsum (dict_values w)).
  { pose proof (Qsum_lower 0.05 _ Hlo) as H. unfold dict_values in H at 1.
    rewrite length_map, Hlen in H.
    change (inject_Z (Z.of_nat 8)) with 8 in H. lra. }
  assert (Hne : ~ Qsum (dict_values w) == 0) by (intro H; lra).
  rewrite (normalize_weights_unfold w Hne).
  set (nw := normalised w).
  assert (Hnlen : List.length nw = 8%nat).
  { subst nw. unfold normalised. rewrite length_map. exact Hlen. }
  assert (Hnnd : NoDup (dict_keys nw)).
  { subst nw. rewrite normalised_keys. exact Hnd. }
  assert (Hnne : nw <> []).
  { intro H. rewrite H in Hnlen. discriminate. }
  assert (Hnsum : Qsum (dict_values nw) == 1) by (apply normalised_sum; exact Hne).
  assert (Hnlo : Forall (fun v => 0.0125 <= v) (dict_values nw)).
  { subst nw. unfold normalised, dict_values. rewrite map_map. simpl.
    rewrite <- (map_map snd (fun v => v / Qsum (map snd w))).
    apply Forall_map. fold (dict_values w).
    apply Forall_impl with (P := fun v => 0.05 <= v); [ | exact Hlo ].
    intros v Hv. apply Qle_shift_div_l; lra. }
  assert (Hrlo : Forall (fun v => 0.012 <= v) (dict_values (rounded3 nw))).
  { unfold rounded3, dict_values. rewrite map_map. simpl.
    rewrite <- (map_map snd quantize3). apply Forall_map.
    fold (dict_values nw).
    apply Forall_impl with (P := fun v => 0.0125 <= v); [ | exact Hnlo ].
    intros v Hv. destruct (quantize3_near v). lra. }
  pose proof (rounded_sum_near nw) as Hnear. cbv zeta in Hnear.
  rewrite Hnlen in Hnear. change (inject_Z (Z.of_nat 8)) with 8 in Hnear.
  destruct Hnear as [Hr1 Hr2].
  assert (Hkeys : dict_keys (rounded3 nw) = dict_keys w).
  { unfold rounded3. rewrite dict_keys_map_values. apply normalised_keys. }
  destruct (Qlt_le_dec 0.0001 (Qabs (residual (rounded3 nw)))) as [Hbig | Hsmall].
  - destruct (round_and_correct_large nw Hnne Hnnd Hbig)
      as [k [v [Hl [Heq Hsum]]]].
    exists (dict_set k (v + residual (rounded3 nw)) (rounded3 nw)).
    split; [ exact Heq | ]. split; [ | split; [ exact Hsum | ] ].
    + rewrite dict_keys_set_present; [ exact Hkeys | ].
      apply dict_get_In. exists v. exact (proj1 Hl).
    + apply Forall_dict_set.
      * apply Forall_impl with (P := fun v => 0.012 <= v); [ | exact Hrlo ].
        intros x Hx. lra.
      * pose proof (Qsum_upper v _ (largest_values k v _ Hl)) as Hup.
        unfold dict_values in Hup at 2.
        unfold rounded3 in Hup at 2. rewrite !length_map, Hnlen in Hup.
        change (inject_Z (Z.of_nat 8)) with 8 in Hup.
        unfold residual. lra.
  - destruct (round_and_correct_small nw Hsmall) as [Heq Hsum].
    exists (rounded3 nw). split; [ exact Heq | ]. split; [ exact Hkeys | ].
    split; [ exact Hsum | ].
    apply Forall_impl with (P := fun v => 0.012 <= v); [ | exact Hrlo ].
    intros x Hx. lra.
Qed.


(** The weights the rules leave for the normalisation. *)
Lemma adjusted_weights (scores : list DimensionScore) (context_score : Q)
      (archetyp : Full.Archetyp) (is_kmu : bool) :
  eight_scores scores ->
  exists w7,
    Full.calculate_dynamic_weights scores context_score archetyp is_kmu =
    Full._normalize_weights w7
    /\ shaped w7
    /\ forall d, In d Full.dims ->
                 0.05 <= val d w7
                 <= 0.351 * (1 + 0.4125 * inject_Z (Z.of_nat (occ d scores))).
Proof.
  intros [Hlen Hids]. unfold Full.calculate_dynamic_weights.
  destruct (base_weights_shape is_kmu) as [Hs0 Hb].
  destruct (rules_1_2_val scores _ Hs0 Hids) as [w1 [w2 [E1 [E2 [Hs2 Hv2]]]]].
  destruct (rule_3_val scores w2 Hs2) as [w3 [E3 [Hs3 Hv3]]].
  destruct (rule_4_val context_score w3 Hs3) as [w4 [E4 [Hs4 Hv4]]].
  destruct (rule_5_val scores w4 Hs4 Hids) as [w5 [E5 [Hs5 Hv5]]].
  destruct (rule_6_val archetyp w5 Hs5) as [Hs6 Hv6].
  destruct (minimum_security_val _ Hs6) as [Hs7 Hv7].
  rewrite E1. cbn [bind]. rewrite E2. cbn [bind]. rewrite E3. cbn [bind].
  rewrite E4. cbn [bind]. rewrite E5. cbn [bind].
  eexists. split; [ reflexivity | ]. split; [ exact Hs7 | ].
  intros d Hd.
  assert (Hn : (occ d scores <= 8)%nat).
  { rewrite <- Hlen. apply occ_le_length. }
  pose proof (adjusted_weight_bounds
                _ _ _ _ _ _ (occ d scores)
                (cnt (above_average scores) d scores)
                (Hb d Hd) (cnt_le_occ _ d scores) Hn
                (Hv2 d) (Hv3 d) (Hv4 d) (Hv5 d) (Hv6 d Hd)) as Hbound.
  rewrite (Hv7 d Hd); [ exact Hbound | lra ].
Qed.

(** C1. For eight dimension scores of the dimensions D1 to D8, any context
    score, any archetype and either value of [is_kmu], the top-level
    [calculate_dynamic_weights] returns a weight for each of the eight
    dimensions; the weights sum to 1 within 1e-3 (exactly, in fact) and
    none is below 0.01. *)
Theorem C1_dynamic_weights (scores : list DimensionScore) (context_score : Q)
        (archetyp : Full.Archetyp) (is_kmu : bool) :
  eight_scores scores ->
  exists w,
    Full.calculate_dynamic_weights scores context_score archetyp is_kmu = Ok w
    /\ weights_ok w
    /\ Qsum (dict_values w) == 1.
Proof.
  intro H8.
  destruct (adjusted_weights scores context_score archetyp is_kmu H8)
    as [w7 [E [Hs7 Hb]]].
  destruct H8 as [Hlen Hids].
  destruct dims_facts as [_ [_ [_ [_ [_ Hnd]]]]].
  assert (Hvals : dict_values w7 = map (fun k => val k w7) Full.dims).
  { rewrite values_as_vals; [ rewrite Hs7; reflexivity | ].
    rewrite Hs7. exact Hnd. }
  assert (Hlen7 : List.length w7 = 8%nat).
  { rewrite <- (length_map fst). fold (dict_keys w7). rewrite Hs7. reflexivity. }
  assert (Hlo : Forall (fun v => 0.05 <= v) (dict_values w7)).
  { rewrite Hvals. apply Forall_map. apply Forall_forall.
    intros d Hd. apply (Hb d Hd). }
  assert (Hhi : Qsum (dict_values w7) <= 4).
  { rewrite Hvals. unfold Full.dims. cbn [map Qsum fold_right].
    pose proof (occ_total scores Hids) as Htot. rewrite Hlen in Htot.
    apply (f_equal Z.of_nat) in Htot. rewrite !Nat2Z.inj_add in Htot.
    apply (f_equal inject_Z) in Htot. rewrite !inject_Z_plus in Htot.
    change (inject_Z (Z.of_nat 8)) with 8 in Htot.
    assert (In1 : forall d, In d Full.dims ->
                  val d w7 <= 0.351 * (1 + 0.4125 * inject_Z (Z.of_nat (occ d scores))))
      by (intros d Hd; apply (Hb d Hd)).
    pose proof (In1 "D1"%string) as U1. pose proof (In1 "D2"%string) as U2.
    pose proof (In1 "D3"%string) as U3. pose proof (In1 "D4"%string) as U4.
    pose proof (In1 "D5"%string) as U5. pose proof (In1 "D6"%string) as U6.
    pose proof (In1 "D7"%string) as U7. pose proof (In1 "D8"%string) as U8.
    specialize (U1 ltac:(simpl; tauto)). specialize (U2 ltac:(simpl; tauto)).
    specialize (U3 ltac:(simpl; tauto)). specialize (U4 ltac:(simpl; tauto)).
    specialize (U5 ltac:(simpl; tauto)). specialize (U6 ltac:(simpl; tauto)).
    specialize (U7 ltac:(simpl; tauto)). specialize (U8 ltac:(simpl; tauto)).
    clear In1 Hb.
    set (n1 := inject_Z (Z.of_nat (occ "D1" scores))) in *.
    set (n2 := inject_Z (Z.of_nat (occ "D2" scores))) in *.
    set (n3 := inject_Z (Z.of_nat (occ "D3" scores))) in *.
    set (n4 := inject_Z (Z.of_nat (occ "D4" scores))) in *.
    set (n5 := inject_Z (Z.of_nat (occ "D5" scores))) in *.
    set (n6 := inject_Z (Z.of_nat (occ "D6" scores))) in *.
    set (n7 := inject_Z (Z.of_nat (occ "D7" scores))) in *.
    set (n8 := inject_Z (Z.of_nat (occ "D8" scores))) in *.
    assert (Htot' : n1 + n2 + n3 + n4 + n5 + n6 + n7 + n8 == 8)
      by (rewrite Htot; reflexivity).
    lra. }
  assert (Hnd7 : NoDup (dict_keys w7)) by (rewrite Hs7; exact Hnd).
  destruct (normalize_ok w7 Hlen7 Hnd7 Hlo Hhi) as [out [Eo [Hk [Hsum Hmin]]]].
  exists out. split; [ rewrite E; exact Eo | ].
  split; [ | exact Hsum ].
  split; [ rewrite Hk; exact Hs7 | ]. split; [ | exact Hmin ].
  apply Qabs_Qle_condition. split; lra.
Qed.

Lemma C1_dynamic_weights_witness :
  eight_scores tension_scores
  /\ exists w,
      Full.calculate_dynamic_weights tension_scores 0.9 Full.CHAOTIC_DOER true
      = Ok w
      /\ weights_ok w
      /\ Qsum (dict_values w) == 1.
Proof.
  assert (H : eight_scores tension_scores).
  { split; [ reflexivity | ].
    repeat (apply Forall_cons; [ simpl; auto 10 | ]). apply Forall_nil. }
  split; [ exact H | ].
  exact (C1_dynamic_weights tension_scores 0.9 Full.CHAOTIC_DOER true H).
Defined.

(** The weights of that call: the rounded weights sum to 0.999 and the
    residual 0.001 goes to D2, the largest. *)
Lemma dynamic_weights_example :
  exists w,
    Full.calculate_dynamic_weights tension_scores 0.9 Full.CHAOTIC_DOER true
    = Ok w
    /\ same_weights w
         [ ("D1", 0.143); ("D2", 0.201); ("D3", 0.139); ("D4", 0.131);
           ("D5", 0.087); ("D6", 0.049); ("D7", 0.155); ("D8", 0.095) ]%string.
Proof.
  eexists. split; [ vm_compute; reflexivity | ].
  repeat constructor.
Qed.

(** The backend engine, for every context score but the pole: the base
    table, which sums to 1 and holds no weight below 0.05. *)
Lemma backend_weights_ok (archetype : string) (c : Q)
      (ds : option (list DimensionScore)) :
  ~ c == -4.5 ->
  exists w,
    Backend.calculate_dynamic_weights archetype c ds = Ok w
    /\ weights_ok w
    /\ Qsum (dict_values w) == 1.
Proof.
  intro Hc. rewrite (backend_weights_closed_form archetype c ds Hc).
  eexists. split; [ reflexivity | ].
  pose proof (base_weights_cases archetype) as H. simpl in H.
  repeat (destruct H as [ <- | H ];
          [ split; [ split; [ reflexivity | split; [ qdec | ] ] | qdec ];
            repeat constructor; qdec
          | ]).
  contradiction.
Qed.


(** Outside those inputs: a score of an unknown dimension raises
    [KeyError] in rule 1, and twenty-two scores of one dimension push the
    weight of D6 to 0.008, below the floor that rule 7 set before the
    normalisation. *)
Lemma dynamic_weights_outside_domain :
  Full.calculate_dynamic_weights stray_score 0.5 Full.CHAOTIC_DOER false
  = Raise (KeyError "D9")
  /\ exists w,
      Full.calculate_dynamic_weights crowded_scores 0.5
                                     Full.CHAOTIC_DOER false = Ok w
      /\ val "D6" w == 0.008
      /\ Qsum (dict_values w) == 1.
Proof.
  split; [ reflexivity | ].
  eexists. split; [ vm_compute; reflexivity | ]. split; reflexivity.
Qed.

(* ================================================================== *)
(** * Further properties: scores, gaps and priorities *)

Lemma round_half_even_Z_int (z : Z) : round_half_even_Z (inject_Z z) = z.
Proof.
  unfold round_half_even_Z. rewrite Qfloor_Z.
  assert (H : Qltb (inject_Z z - inject_Z z) (1 # 2) = true)
    by (apply Qltb_lt; lra).
  rewrite H. reflexivity.
Qed.

(** X1. [validate_maturity_values] snaps a value to the nearest tenth: the
    result is a whole number of tenths at most 0.05 away, a value on the
    1.0 to 4.0 scale stays on it, and validating twice changes nothing. *)
Theorem maturity_value_snapped (v : Q) :
  let r := Schemas.validate_maturity_values v in
  (exists k : Z, r == inject_Z k / 10)
  /\ Qabs (r - v) <= 0.05
  /\ Schemas.validate_maturity_values r = r
  /\ (1 <= v <= 4 -> 1 <= r <= 4).
Proof.
  cbv zeta. unfold Schemas.validate_maturity_values.
  set (k := round_half_even_Z (v * 10)).
  destruct (round_half_even_Z_near (v * 10)) as [Hlo Hhi]. fold k in Hlo, Hhi.
  split; [ exists k; reflexivity | ].
  split.
  { apply Qabs_Qle_condition. unfold Qdiv. change (/ 10) with (1 # 10).
    split; lra. }
  split.
  { assert (E : inject_Z k / 10 * 10 == inject_Z k) by field.
    rewrite (round_half_even_Z_comp _ _ E), round_half_even_Z_int.
    reflexivity. }
  intros [H1 H4].
  assert (A : (10 <= k)%Z).
  { apply (round_half_even_Z_ge (v * 10) 10). change (inject_Z 10) with 10. lra. }
  assert (B : (k <= 40)%Z).
  { apply (round_half_even_Z_le (v * 10) 40). change (inject_Z 40) with 40. lra. }
  apply inject_Z_le in A. apply inject_Z_le in B.
  change (inject_Z 10) with 10 in A. change (inject_Z 40) with 40 in B.
  unfold Qdiv. change (/ 10) with (1 # 10). split; lra.
Qed.

Lemma maturity_value_snapped_witness :
  1 <= 2.54 <= 4 /\ 1 <= Schemas.validate_maturity_values 2.54 <= 4.
Proof.
  assert (H : 1 <= 2.54 <= 4) by (split; intro A; vm_compute in A; discriminate A).
  split; [ exact H | ].
  exact (proj2 (proj2 (proj2 (maturity_value_snapped 2.54))) H).
Defined.

Lemma Qabs_minus_sym (x y : Q) : Qabs (x - y) == Qabs (y - x).
Proof.
  assert (E : x - y == - (y - x)) by ring.
  rewrite E. apply Qabs_opp.
Qed.

(** X2. The backend gap is symmetric in its two arguments, and for values on
    the 1.0 to 4.0 scale the gap lies in [0, 3] and the percentage in
    [0, 75]. *)
Theorem backend_gap_symmetric_bounded (ist soll : Q) :
  Backend.calculate_subdimension_gap ist soll =
  Backend.calculate_subdimension_gap soll ist
  /\ (1 <= ist <= 4 -> 1 <= soll <= 4 ->
      0 <= fst (Backend.calculate_subdimension_gap ist soll) <= 3
      /\ 0 <= snd (Backend.calculate_subdimension_gap ist soll) <= 75).
Proof.
  unfold Backend.calculate_subdimension_gap. split.
  - f_equal; apply round_comp; rewrite (Qabs_minus_sym soll ist); reflexivity.
  - intros Hi Hs. cbn [fst snd].
    assert (G : 0 <= Qabs (soll - ist) <= 3).
    { split; [ apply Qabs_nonneg | ].
      apply Qabs_Qle_condition. split; lra. }
    split.
    + apply (round_between _ 1 0 3). exact G.
    + apply (round_between _ 2 0 75).
      change (inject_Z 0) with 0. change (inject_Z 75) with 75.
      unfold Qdiv. change (/ 4) with (1 # 4). split; lra.
Qed.

Lemma backend_gap_symmetric_bounded_witness :
  1 <= 2.5 <= 4 /\ 1 <= 3.0 <= 4
  /\ 0 <= fst (Backend.calculate_subdimension_gap 2.5 3.0) <= 3.
Proof.
  assert (H1 : 1 <= 2.5 <= 4) by (split; qdec).
  assert (H2 : 1 <= 3.0 <= 4) by (split; qdec).
  split; [ exact H1 | ]. split; [ exact H2 | ].
  exact (proj1 (proj2 (backend_gap_symmetric_bounded 2.5 3.0) H1 H2)).
Defined.

Lemma Qabs_tenths (a b : Z) :
  Qabs (inject_Z b / 10 - inject_Z a / 10) == inject_Z (Z.abs (b - a)) / 10.
Proof.
  destruct (Z_le_gt_dec a b) as [H | H].
  - rewrite Z.abs_eq by lia. rewrite Qabs_pos.
    + unfold Zminus. rewrite inject_Z_plus, inject_Z_opp. field.
    + apply inject_Z_le in H. unfold Qdiv. change (/ 10) with (1 # 10). lra.
  - rewrite Z.abs_neq by lia. rewrite Qabs_neg.
    + rewrite inject_Z_opp. unfold Zminus.
      rewrite inject_Z_plus, inject_Z_opp. field.
    + assert (H' : (b <= a)%Z) by lia. apply inject_Z_le in H'.
      unfold Qdiv. change (/ 10) with (1 # 10). lra.
Qed.

(** A number less than one half away from an integer rounds to it. *)
Lemma round_half_even_Z_close (y : Q) (z : Z) :
  Qabs (y - inject_Z z) < 1 # 2 -> round_half_even_Z y = z.
Proof.
  intro H. apply Qabs_Qlt_condition in H. destruct H as [H1 H2].
  destruct (round_half_even_Z_near y) as [A B].
  set (r := round_half_even_Z y) in *.
  assert (C : inject_Z r < inject_Z (z + 1)).
  { rewrite inject_Z_plus. change (inject_Z 1) with 1. lra. }
  assert (D : inject_Z (z - 1) < inject_Z r).
  { unfold Zminus. rewrite inject_Z_plus. change (inject_Z (- (1))) with (- (1)).
    lra. }
  apply inject_Z_lt in C. apply inject_Z_lt in D. lia.
Qed.

Lemma round_close (x : Q) (n : nat) (z : Z) :
  Qabs (x * inject_Z (Zpos (scale n)) - inject_Z z) < 1 # 2 ->
  round x n == inject_Z z / inject_Z (Zpos (scale n)).
Proof.
  intro H. unfold round. rewrite (round_half_even_Z_close _ z H).
  apply (Qmake_as_div z (scale n)).
Qed.

Lemma Qabs_close (x y e : Q) :
  Qabs (x - y) < e -> Qabs (Qabs x - Qabs y) < e.
Proof.
  intro H. apply Qabs_Qlt_condition.
  pose proof (Qabs_triangle_reverse x y) as A.
  pose proof (Qabs_triangle_reverse y x) as B.
  rewrite (Qabs_minus_sym y x) in B. split; lra.
Qed.

(** X3. The backend gap absorbs small errors in its arguments.  For
    arguments less than 0.0001 away from two validated values (whole
    tenths) it returns exactly the distance of those two tenths, and 25
    times that distance as the percentage.  The binary noise of a float
    subtraction, of the order of 1e-16, therefore never shows in what
    the backend returns. *)
Theorem backend_gap_absorbs_noise (v1 v2 ist soll : Q) :
  Qabs (ist - Schemas.validate_maturity_values v1) < 0.0001 ->
  Qabs (soll - Schemas.validate_maturity_values v2) < 0.0001 ->
  let a := Schemas.validate_maturity_values v1 in
  let b := Schemas.validate_maturity_values v2 in
  fst (Backend.calculate_subdimension_gap ist soll) == Qabs (b - a)
  /\ snd (Backend.calculate_subdimension_gap ist soll) == 25 * Qabs (b - a).
Proof.
  cbv zeta. unfold Schemas.validate_maturity_values.
  set (A := round_half_even_Z (v1 * 10)). set (B := round_half_even_Z (v2 * 10)).
  intros Hi Hs.
  unfold Backend.calculate_subdimension_gap. cbn [fst snd].
  pose proof (Qabs_tenths A B) as E.
  set (K := inject_Z (Z.abs (B - A))) in *.
  assert (Hd : Qabs ((soll - ist) - (inject_Z B / 10 - inject_Z A / 10)) < 0.0002).
  { apply Qabs_Qlt_condition in Hi. apply Qabs_Qlt_condition in Hs.
    apply Qabs_Qlt_condition. split; lra. }
  apply Qabs_close in Hd. apply Qabs_Qlt_condition in Hd.
  set (g := Qabs (soll - ist)) in *.
  set (g0 := Qabs (inject_Z B / 10 - inject_Z A / 10)) in *.
  unfold Qdiv in E. change (/ 10) with (1 # 10) in E.
  assert (G : round g 1 == g0).
  { rewrite (round_close g 1 (Z.abs (B - A))).
    - change (inject_Z (Zpos (scale 1))) with 10. fold K.
      unfold Qdiv. change (/ 10) with (1 # 10). lra.
    - change (inject_Z (Zpos (scale 1))) with 10. fold K.
      apply Qabs_Qlt_condition. split; lra. }
  assert (P : round (g / 4 * 100) 2 == 25 * g0).
  { rewrite (round_close (g / 4 * 100) 2 (Z.abs (B - A) * 250)).
    - change (inject_Z (Zpos (scale 2))) with 100. rewrite inject_Z_mult.
      fold K. change (inject_Z 250) with 250.
      unfold Qdiv. change (/ 100) with (1 # 100). lra.
    - change (inject_Z (Zpos (scale 2))) with 100. rewrite inject_Z_mult.
      fold K. change (inject_Z 250) with 250.
      unfold Qdiv. change (/ 4) with (1 # 4).
      apply Qabs_Qlt_condition. split; lra. }
  split; [ exact G | exact P ].
Qed.

Lemma backend_gap_absorbs_noise_witness :
  Qabs (2.3 - Schemas.validate_maturity_values 2.3) < 0.0001
  /\ Qabs (3.1 - Schemas.validate_maturity_values 3.1) < 0.0001
  /\ fst (Backend.calculate_subdimension_gap 2.3 3.1) == 0.8.
Proof.
  assert (H1 : Qabs (2.3 - Schemas.validate_maturity_values 2.3) < 0.0001)
    by reflexivity.
  assert (H2 : Qabs (3.1 - Schemas.validate_maturity_values 3.1) < 0.0001)
    by reflexivity.
  split; [ exact H1 | ]. split; [ exact H2 | ].
  rewrite (proj1 (backend_gap_absorbs_noise 2.3 3.1 2.3 3.1 H1 H2)).
  reflexivity.
Defined.

Ltac split_tests :=
  unfold Qgtb in *;
  repeat match goal with
         | |- context [ Qltb ?a ?b ] =>
             let E := fresh "E" in destruct (Qltb a b) eqn:E
         end;
  reflect_cmp; cbn [andb orb negb].

(** X4. Both cascades are monotone: a lower current value or a larger gap never
    gives a less urgent level (rank 0 is CRITICAL, rank 3 is LOW). *)
Theorem priority_monotone (ist ist' gap gap' : Q) :
  ist' <= ist -> gap <= gap' ->
  (Full.priority_order (Backend.calculate_priority_level ist' gap')
   <= Full.priority_order (Backend.calculate_priority_level ist gap))%Z
  /\ (Full.priority_order (Full.calculate_priority_level ist' gap')
      <= Full.priority_order (Full.calculate_priority_level ist gap))%Z.
Proof.
  intros Hi Hg.
  unfold Backend.calculate_priority_level, Full.calculate_priority_level.
  split; split_tests; cbn [Full.priority_order]; try lia; exfalso; lra.
Qed.

Lemma priority_monotone_witness :
  1.5 <= 2.4 /\ 1.1 <= 1.6
  /\ (Full.priority_order (Backend.calculate_priority_level 1.5 1.6)
      <= Full.priority_order (Backend.calculate_priority_level 2.4 1.1))%Z.
Proof.
  assert (H1 : 1.5 <= 2.4) by qdec. assert (H2 : 1.1 <= 1.6) by qdec.
  split; [ exact H1 | ]. split; [ exact H2 | ].
  exact (proj1 (priority_monotone 2.4 1.5 1.1 1.6 H1 H2)).
Defined.

(** X5. In the top-level cascade the second step never decides: the level is
    CRITICAL for [ist < 2.0] with [gap > 1.5], and otherwise a function of
    the gap alone, HIGH above 0.8, MEDIUM above 0.5, LOW below. *)
Theorem full_priority_by_gap (ist gap : Q) :
  Full.calculate_priority_level ist gap =
  if Qltb ist 2 && Qgtb gap 1.5 then CRITICAL
  else if Qgtb gap 0.8 then HIGH
  else if Qgtb gap 0.5 then MEDIUM
  else LOW.
Proof.
  unfold Full.calculate_priority_level.
  split_tests; try reflexivity; exfalso; lra.
Qed.

(** X6. The top-level cascade is never less urgent than the backend one, and
    the two agree outside the band [0.5 < gap <= 1.5]. *)
Theorem full_priority_at_least_backend (ist gap : Q) :
  (Full.priority_order (Full.calculate_priority_level ist gap)
   <= Full.priority_order (Backend.calculate_priority_level ist gap))%Z
  /\ (gap <= 0.5 \/ 1.5 < gap ->
      Full.calculate_priority_level ist gap =
      Backend.calculate_priority_level ist gap).
Proof.
  unfold Backend.calculate_priority_level, Full.calculate_priority_level.
  split.
  - split_tests; cbn [Full.priority_order]; try lia; exfalso; lra.
  - intros [H | H]; split_tests; try reflexivity; exfalso; lra.
Qed.

Lemma full_priority_at_least_backend_witness :
  (0.3 <= 0.5 \/ 1.5 < 0.3)
  /\ Full.calculate_priority_level 3.0 0.3 =
     Backend.calculate_priority_level 3.0 0.3.
Proof.
  assert (H : 0.3 <= 0.5 \/ 1.5 < 0.3).
  { left. intro A. vm_compute in A. discriminate A. }
  split; [ exact H | ].
  exact (proj2 (full_priority_at_least_backend 3.0 0.3) H).
Defined.

(** A dimension gets a recommendation exactly when its gap is above 0.8,
    whatever its current value. *)
Lemma needs_recommendation_iff (s : DimensionScore) :
  needs_recommendation s = true <-> 0.8 < Qabs (ist_value s - soll_value s).
Proof.
  unfold needs_recommendation, dimension_priority.
  unfold Full.calculate_priority_level.
  split.
  - split_tests; intro H; try discriminate; lra.
  - intro H. split_tests; try reflexivity; exfalso; lra.
Qed.

Lemma recommendation_membership (scores : list DimensionScore)
      (r : Full.Recommendation) :
  In r (Full.generate_recommendations scores) <->
  exists s, In s scores
            /\ 0.8 < Qabs (ist_value s - soll_value s)
            /\ r = recommendation_of s.
Proof.
  unfold Full.generate_recommendations.
  assert (HP : Permutation (Full.sort_by_key (Full.collect scores))
                 (map recommendation_of (filter needs_recommendation scores))).
  { rewrite <- collect_filter. apply sort_by_key_perm. }
  split.
  - intro Hin. apply (Permutation_in _ HP) in Hin.
    apply in_map_iff in Hin. destruct Hin as [s [Hr Hs]].
    apply filter_In in Hs. destruct Hs as [Hs Hn].
    exists s. split; [ exact Hs | ].
    split; [ apply needs_recommendation_iff; exact Hn | symmetry; exact Hr ].
  - intros [s [Hs [Hg Hr]]]. subst r.
    apply (Permutation_in _ (Permutation_sym HP)).
    apply in_map. apply filter_In. split; [ exact Hs | ].
    apply needs_recommendation_iff. exact Hg.
Qed.

(** X7. Whether a dimension gets a recommendation depends on its gap
    alone, with the threshold at 0.8, and not on its current value:
    every dimension score whose gap is at least 0.801 has its record in
    the list, and every record in the list is that of a dimension score
    whose gap is above 0.799.  (At a gap of exactly 0.8 the outcome
    hangs on the last bit of the float subtraction.) *)
Theorem recommended_by_gap_alone (scores : list DimensionScore) :
  (forall s, In s scores ->
             0.801 <= Qabs (ist_value s - soll_value s) ->
             In (recommendation_of s) (Full.generate_recommendations scores))
  /\ (forall r, In r (Full.generate_recommendations scores) ->
                exists s, In s scores
                          /\ 0.799 < Qabs (ist_value s - soll_value s)
                          /\ r = recommendation_of s).
Proof.
  split.
  - intros s Hs Hg. apply recommendation_membership. exists s.
    split; [ exact Hs | ]. split; [ lra | reflexivity ].
  - intros r Hr. apply recommendation_membership in Hr.
    destruct Hr as [s [Hs [Hg Hr]]]. exists s.
    split; [ exact Hs | ]. split; [ lra | exact Hr ].
Qed.

Lemma recommended_by_gap_alone_witness :
  In (mkDimensionScore "D3" 1.0 4.0 0.125) tension_scores
  /\ 0.801 <= Qabs (1.0 - 4.0)
  /\ In (recommendation_of (mkDimensionScore "D3" 1.0 4.0 0.125))
        (Full.generate_recommendations tension_scores).
Proof.
  assert (H1 : In (mkDimensionScore "D3" 1.0 4.0 0.125) tension_scores)
    by (simpl; auto).
  assert (H2 : 0.801 <= Qabs (1.0 - 4.0))
    by (intro A; vm_compute in A; discriminate A).
  split; [ exact H1 | ]. split; [ exact H2 | ].
  exact (proj1 (recommended_by_gap_alone tension_scores) _ H1 H2).
Defined.

Lemma recommendations_urgent (scores : list DimensionScore) :
  Forall (fun r => Full.rec_priority r = CRITICAL \/ Full.rec_priority r = HIGH)
         (Full.generate_recommendations scores).
Proof.
  apply Forall_forall. intros r Hin.
  apply recommendation_membership in Hin. destruct Hin as [s [_ [Hg ->]]].
  apply needs_recommendation_iff in Hg.
  unfold needs_recommendation in Hg. cbn [recommendation_of Full.rec_priority].
  destruct (dimension_priority s); try discriminate; tauto.
Qed.

Lemma count_urgent (recs : list Full.Recommendation) :
  Forall (fun r => Full.rec_priority r = CRITICAL \/ Full.rec_priority r = HIGH)
         recs ->
  Assessments.count_priority MEDIUM recs = 0%nat
  /\ Assessments.count_priority LOW recs = 0%nat
  /\ List.length recs =
     (Assessments.count_priority CRITICAL recs
      + Assessments.count_priority HIGH recs)%nat.
Proof.
  unfold Assessments.count_priority.
  induction 1 as [ | r recs Hr _ [IH1 [IH2 IH3]] ]; [ repeat split | ].
  cbn [filter List.length].
  destruct Hr as [-> | ->]; cbn [Assessments.priority_eqb List.length];
    repeat split; lia.
Qed.

(** X8. The report of [get_assessment_recommendations] never counts a MEDIUM
    or a LOW recommendation: both counts are 0 and the total is the sum
    of the CRITICAL and HIGH counts, which is at most the number of
    dimensions found. *)
Theorem recommendation_report_counts
        (subdimension_scores : list Crud.SubdimensionScoreCreate) :
  let report := Assessments.recommendation_report subdimension_scores in
  Assessments.medium_count report = 0%nat
  /\ Assessments.low_count report = 0%nat
  /\ Assessments.total_recommendations report =
     (Assessments.critical_count report + Assessments.high_count report)%nat
  /\ (Assessments.total_recommendations report
      <= List.length (Assessments.to_dimension_scores subdimension_scores))%nat.
Proof.
  cbv zeta. unfold Assessments.recommendation_report.
  cbn [Assessments.medium_count Assessments.low_count
       Assessments.total_recommendations Assessments.critical_count
       Assessments.high_count].
  set (ds := Assessments.to_dimension_scores subdimension_scores).
  destruct (count_urgent _ (recommendations_urgent ds)) as [A [B C]].
  split; [ exact A | ]. split; [ exact B | ]. split; [ exact C | ].
  unfold Full.generate_recommendations.
  rewrite (Permutation_length (sort_by_key_perm _)), collect_filter, length_map.
  apply filter_length_le.
Qed.

(* ================================================================== *)
(** * Further properties: the schema validator and the backend metrics *)

Lemma filter_all_false {A : Type} (f : A -> bool) (l : list A) :
  (forall x, In x l -> f x = false) -> filter f l = [].
Proof.
  induction l as [ | a l IH ]; intro H; [ reflexivity | ].
  simpl. rewrite (H a (or_introl eq_refl)). apply IH.
  intros x Hx. apply H. right. exact Hx.
Qed.

(** X9. The validator accepts a list exactly when its ids are the sixteen
    expected subdimension ids, each once, in any order; an accepted list
    is returned as it came. *)
Theorem validator_accepts_permutations (v : list Crud.SubdimensionScoreCreate) :
  (Crud.validate_all_subdimensions v = Ok v <->
   Permutation Crud.expected_subdimensions (map Crud.subdimension_id v))
  /\ (forall v', Crud.validate_all_subdimensions v = Ok v' -> v' = v).
Proof.
  split; [ split | ].
  - intro H. apply (validated_ids v v H).
  - intro HP. unfold Crud.validate_all_subdimensions.
    assert (Hlen : List.length v = 16%nat).
    { rewrite <- (length_map Crud.subdimension_id).
      rewrite <- (Permutation_length HP). reflexivity. }
    rewrite Hlen. cbn [Nat.eqb negb].
    rewrite filter_all_false; [ reflexivity | ].
    intros e He. apply negb_false_iff. apply existsb_exists.
    exists e. split; [ apply (Permutation_in _ HP He) | apply String.eqb_refl ].
  - intros v' H. apply (validated_ids v v' H).
Qed.

Lemma validator_accepts_permutations_witness :
  Permutation Crud.expected_subdimensions
              (map Crud.subdimension_id (Crud.subdimension_scores sixteen_scores))
  /\ Crud.validate_all_subdimensions (Crud.subdimension_scores sixteen_scores)
     = Ok (Crud.subdimension_scores sixteen_scores).
Proof.
  assert (H : Permutation Crud.expected_subdimensions
                (map Crud.subdimension_id
                     (Crud.subdimension_scores sixteen_scores)))
    by apply Permutation_refl.
  split; [ exact H | ].
  exact (proj2 (proj1 (validator_accepts_permutations
                         (Crud.subdimension_scores sixteen_scores))) H).
Defined.

(** X10. With a number of dimension scores other than 8 the backend reports
    EQI, RGI and SI as 0.0 and, from them, SBS as 0.333; the context score
    is computed as usual. *)
Theorem backend_metrics_wrong_shape (l : list DimensionScore)
        (cfs : list ContextFactor) :
  List.length l <> 8%nat ->
  Backend.calculate_all_metrics l cfs =
  Backend.mkMetrics 0 0 0 0.333 (Backend.calculate_context_score cfs).
Proof.
  intro H. unfold Backend.calculate_all_metrics.
  destruct (backend_metrics_bad_shape l H) as [-> [-> ->]]. reflexivity.
Qed.

Lemma backend_metrics_wrong_shape_witness :
  List.length tension_scores <> 7%nat
  /\ List.length (removelast tension_scores) <> 8%nat
  /\ Backend.calculate_all_metrics (removelast tension_scores) [] =
     Backend.mkMetrics 0 0 0 0.333 (Backend.calculate_context_score []).
Proof.
  assert (H : List.length (removelast tension_scores) <> 8%nat)
    by (simpl; lia).
  split; [ simpl; lia | ]. split; [ exact H | ].
  exact (backend_metrics_wrong_shape (removelast tension_scores) [] H).
Defined.

Lemma scores_dict_from (l : list DimensionScore) (d : dict DimensionScore)
      (k : string) (s : DimensionScore) :
  dict_get k (fold_left (fun d s => dict_set (dimension_id s) s d) l d) = Some s ->
  In s l \/ dict_get k d = Some s.
Proof.
  revert d. induction l as [ | x l IH ]; intros d H; simpl in H.
  - right. exact H.
  - destruct (IH _ H) as [Hin | Hd]; [ left; right; exact Hin | ].
    rewrite dict_get_set in Hd.
    destruct (String.eqb k (dimension_id x)).
    + injection Hd as ->. left. left. reflexivity.
    + right. exact Hd.
Qed.

Lemma scores_dict_In (l : list DimensionScore) (k : string) (s : DimensionScore) :
  dict_get k (scores_dict l) = Some s -> In s l.
Proof.
  intro H. destruct (scores_dict_from l [] k s H) as [Hin | Hd];
    [ exact Hin | discriminate ].
Qed.

Lemma fold_left_zero {A : Type} (f : A -> Q) (l : list A) (acc : Q) :
  (forall a, f a == 0) -> fold_left (fun acc a => acc + f a) l acc == acc.
Proof.
  intro Hf. revert acc. induction l as [ | a l IH ]; intro acc; simpl.
  - reflexivity.
  - rewrite IH, Hf. ring.
Qed.

Lemma Qsum_zero (l : list Q) : Forall (fun x => x == 0) l -> Qsum l == 0.
Proof.
  induction 1 as [ | x l Hx _ IH ]; simpl; [ reflexivity | ].
  rewrite Hx, IH. ring.
Qed.

(** X11. Eight dimensions that are all equally far from their targets, on the
    same side, are in no tension: the backend SI is 0.  Eight dimensions
    on target have EQI 1. *)
Theorem backend_balance (l : list DimensionScore) (c : Q) :
  List.length l = 8%nat ->
  (forall s, In s l -> ist_value s - soll_value s == c) ->
  Backend.calculate_si l == 0
  /\ (c == 0 -> Backend.calculate_eqi l == 1).
Proof.
  intros Hlen Hc.
  assert (Hshape : Backend.bad_shape l = false).
  { unfold Backend.bad_shape. destruct l; [ discriminate | ].
    rewrite Hlen. reflexivity. }
  split.
  - unfold Backend.calculate_si. rewrite Hshape.
    set (pw := 1 / inject_Z (Z.of_nat (List.length Backend.TENSION_PAIRS))).
    assert (Hz : forall p, Backend.pair_tension (scores_dict l) pw p == 0).
    { intros [a b]. unfold Backend.pair_tension.
      destruct (dict_get a (scores_dict l)) as [ sa | ] eqn:Ea; [ | reflexivity ].
      destruct (dict_get b (scores_dict l)) as [ sb | ] eqn:Eb; [ | reflexivity ].
      apply scores_dict_In in Ea. apply scores_dict_In in Eb.
      assert (E : ist_value sa - soll_value sa - (ist_value sb - soll_value sb)
                  == 0) by (rewrite (Hc sa Ea), (Hc sb Eb); ring).
      rewrite E. reflexivity. }
    rewrite (round_comp _ 0 3); [ reflexivity | ].
    rewrite (fold_left_zero _ _ 0 Hz). reflexivity.
  - intro Hc0. unfold Backend.calculate_eqi. rewrite Hshape.
    rewrite (round_comp _ 1 3); [ reflexivity | ].
    assert (Hs : Qsum (map (fun s => Qabs (ist_value s - soll_value s)) l) == 0).
    { apply Qsum_zero. apply Forall_map. apply Forall_forall.
      intros s Hs. rewrite (Hc s Hs), Hc0. reflexivity. }
    rewrite Hs. reflexivity.
Qed.

Lemma backend_balance_witness :
  List.length heavy_scores = 8%nat
  /\ (forall s, In s heavy_scores -> ist_value s - soll_value s == 0)
  /\ Backend.calculate_si heavy_scores == 0.
Proof.
  assert (H1 : List.length heavy_scores = 8%nat) by reflexivity.
  assert (H2 : forall s, In s heavy_scores -> ist_value s - soll_value s == 0).
  { intros s Hs. simpl in Hs.
    repeat (destruct Hs as [ <- | Hs ]; [ reflexivity | ]). contradiction. }
  split; [ exact H1 | ]. split; [ exact H2 | ].
  exact (proj1 (backend_balance heavy_scores 0 H1 H2)).
Defined.


(* ================================================================== *)
(** * Further properties: a completed assessment *)

Lemma dict_get_value_In {V : Type} (k : string) (v : V) (d : dict V) :
  dict_get k d = Some v -> In v (dict_values d).
Proof.
  induction d as [ | [k0 v0] d IH ]; simpl; [ discriminate | ].
  destruct (String.eqb k k0).
  - intro H. injection H as ->. left. reflexivity.
  - intro H. right. apply IH. exact H.
Qed.

Lemma backend_weights_nonneg (archetype : string) :
  Forall (fun x => 0 <= x)
         (dict_values (map (fun kv => (fst kv, round (snd kv) 3))
                           (Backend.base_weights_of archetype)))
  /\ Qsum (map (weight_or_default
                  (map (fun kv => (fst kv, round (snd kv) 3))
                       (Backend.base_weights_of archetype)))
               Crud.dimensions) == 1.
Proof.
  pose proof (base_weights_cases archetype) as H. simpl in H.
  repeat (destruct H as [ <- | H ];
          [ split; [ repeat constructor; qdec | qdec ] | ]).
  contradiction.
Qed.

Lemma weight_or_default_nonneg (w : dict Q) (dim_id : string) :
  Forall (fun x => 0 <= x) (dict_values w) -> 0 <= weight_or_default w dim_id.
Proof.
  intro H. unfold weight_or_default.
  destruct (dict_get dim_id w) as [ x | ] eqn:E; [ | qdec ].
  rewrite Forall_forall in H. apply H. apply (dict_get_value_In _ _ _ E).
Qed.

(** What one dimension contributes: nothing, or one row for that dimension
    with the weight of the dimension and averages on the scale. *)
Lemma aggregate_dimension_row (up : list Q -> bool) (w : dict Q)
      (v : list Crud.SubdimensionScoreCreate) (dim_id : string) :
  Forall valid_subscore v ->
  Crud.aggregate_dimension up w (map Crud.score_subdimension v) dim_id = []
  \/ exists r,
      Crud.aggregate_dimension up w (map Crud.score_subdimension v) dim_id = [r]
      /\ dimension_id (Crud.row_score r) = dim_id
      /\ dynamic_weight (Crud.row_score r) = weight_or_default w dim_id
      /\ 1 <= ist_value (Crud.row_score r) <= 4
      /\ 1 <= soll_value (Crud.row_score r) <= 4.
Proof.
  intro Hv. unfold Crud.aggregate_dimension.
  set (sel := filter _ (map Crud.score_subdimension v)).
  assert (Hsel : Forall (fun s => valid_subscore (Crud.score_data s)) sel).
  { subst sel. apply Forall_forall. intros s Hs. apply filter_In in Hs.
    destruct Hs as [Hs _]. apply in_map_iff in Hs. destruct Hs as [x [<- Hx]].
    rewrite Forall_forall in Hv. apply (Hv x Hx). }
  destruct sel as [ | s1 [ | s2 [ | s3 sel ] ] ]; try (left; reflexivity).
  right. cbn [List.length Nat.eqb]. eexists. split; [ reflexivity | ].
  cbn [Crud.row_score dimension_id dynamic_weight ist_value soll_value].
  split; [ reflexivity | ]. split; [ reflexivity | ].
  inversion Hsel as [ | ? ? [A1 B1] Hsel' ]; subst.
  inversion Hsel' as [ | ? ? [A2 B2] _ ]; subst.
  split; apply (round_float_between _ _ 1 1 4); change (inject_Z 1) with 1;
    change (inject_Z 4) with 4; cbn [map Qsum fold_right];
    unfold Qdiv; change (/ 2) with (1 # 2); split; lra.
Qed.

Lemma weight_sum_app (l1 l2 : list DimensionScore) :
  weight_sum (l1 ++ l2) == weight_sum l1 + weight_sum l2.
Proof.
  unfold weight_sum. induction l1 as [ | s l1 IH ]; simpl; [ ring | ].
  rewrite IH. ring.
Qed.

Lemma aggregated_rows (up : list Q -> bool) (w : dict Q)
      (v : list Crud.SubdimensionScoreCreate) (dims : list string) :
  Forall valid_subscore v -> Forall (fun x => 0 <= x) (dict_values w) ->
  let rows := flat_map (Crud.aggregate_dimension
                          up w (map Crud.score_subdimension v)) dims in
  Forall valid_score (map Crud.row_score rows)
  /\ weight_sum (map Crud.row_score rows)
     <= Qsum (map (weight_or_default w) dims).
Proof.
  intros Hv Hw. cbv zeta. induction dims as [ | d dims [IH1 IH2] ].
  - split; [ apply Forall_nil | unfold weight_sum; simpl; lra ].
  - cbn [flat_map]. rewrite map_app. rewrite weight_sum_app.
    cbn [map Qsum fold_right].
    pose proof (weight_or_default_nonneg w d Hw) as Hd.
    destruct (aggregate_dimension_row up w v d Hv)
      as [-> | [r [-> [_ [Hwr [Hi Hs]]]]]].
    + split; [ exact IH1 | ]. unfold weight_sum at 1. simpl.
      fold (Qsum (map (weight_or_default w) dims)). lra.
    + split.
      * constructor; [ | exact IH1 ].
        split; [ exact Hi | ]. split; [ exact Hs | ]. rewrite Hwr. exact Hd.
      * unfold weight_sum at 1. cbn [map Qsum fold_right]. rewrite Hwr.
        fold (Qsum (map (weight_or_default w) dims)). lra.
Qed.

(** X12. Whatever subdimension scores on the 1.0 to 4.0 scale it is given,
    whatever valid context factors, and whichever side the halves of the
    averages take, [complete_assessment] stores five metrics that each
    lie in [0, 1], for every archetype string. *)
Theorem completed_metrics_in_range
        (halfway_up : list Q -> bool)
        (db : Crud.Session) (id : nat) (completion : Crud.AssessmentCompletion)
        (archetype : string) (a0 : Crud.Assessment) :
  Crud.get db id = Some a0 ->
  Forall valid_subscore (Crud.subdimension_scores completion) ->
  Forall valid_factor (Crud.context_factors completion) ->
  exists a db',
    Crud.complete_assessment halfway_up db id completion archetype = Ok (a, db')
    /\ Crud.assessment_id a = Crud.assessment_id a0
    /\ stored_in_unit (Crud.overall_eqi a)
    /\ stored_in_unit (Crud.overall_rgi a)
    /\ stored_in_unit (Crud.overall_si a)
    /\ stored_in_unit (Crud.overall_sbs a)
    /\ stored_in_unit (Crud.context_score a).
Proof.
  intros Hget Hv Hf. unfold Crud.complete_assessment. rewrite Hget.
  rewrite (backend_weights_total archetype _ Hf). cbn [bind].
  set (w := map (fun kv => (fst kv, round (snd kv) 3))
                (Backend.base_weights_of archetype)).
  destruct (backend_weights_nonneg archetype) as [Hw Hsum]. fold w in Hw, Hsum.
  destruct (aggregated_rows halfway_up w _ Crud.dimensions Hv Hw)
    as [Hvalid Hle].
  cbv zeta in Hvalid, Hle. cbv zeta.
  set (scores := map Crud.row_score _) in *.
  assert (Hws : weight_sum scores <= 1.0005) by lra.
  pose proof (backend_eqi_unit scores) as He.
  pose proof (backend_rgi_unit scores Hvalid Hws) as Hr.
  pose proof (backend_si_unit scores) as Hs.
  pose proof (backend_sbs_unit _ _ _ He Hs Hr) as Hb.
  pose proof (backend_context_unit _ Hf) as Hc.
  eexists. eexists. split; [ reflexivity | ].
  cbn [Crud.assessment_id Crud.overall_eqi Crud.overall_rgi Crud.overall_si
       Crud.overall_sbs Crud.context_score].
  unfold Backend.calculate_all_metrics.
  cbn [Backend.eqi Backend.rgi Backend.si Backend.sbs Backend.context_score].
  split; [ reflexivity | ].
  repeat split; eexists; (split; [ reflexivity | assumption ]).
Qed.

Lemma completed_metrics_in_range_witness :
  Crud.get draft_session 1 =
    Some (Crud.mkAssessment 1 None None None None None Crud.DRAFT 0)
  /\ Forall valid_subscore (Crud.subdimension_scores sixteen_scores)
  /\ Forall valid_factor (Crud.context_factors sixteen_scores)
  /\ exists a db',
      Crud.complete_assessment to_lower draft_session 1 sixteen_scores
                               "STAGNANT_ESTABLISHED" = Ok (a, db')
      /\ stored_in_unit (Crud.overall_rgi a).
Proof.
  assert (H1 : Crud.get draft_session 1 =
               Some (Crud.mkAssessment 1 None None None None None Crud.DRAFT 0))
    by reflexivity.
  assert (H2 : Forall valid_subscore (Crud.subdimension_scores sixteen_scores)).
  { apply Forall_forall. intros x Hx. simpl in Hx.
    repeat (destruct Hx as [ <- | Hx ]; [ split; split; qdec | ]).
    contradiction. }
  assert (H3 : Forall valid_factor (Crud.context_factors sixteen_scores))
    by constructor.
  split; [ exact H1 | ]. split; [ exact H2 | ]. split; [ exact H3 | ].
  destruct (completed_metrics_in_range
              to_lower draft_session 1 sixteen_scores "STAGNANT_ESTABLISHED"
              _ H1 H2 H3)
    as [a [db' [Hok [_ [_ [Hr _]]]]]].
  exists a, db'. split; [ exact Hok | exact Hr ].
Defined.


(* ================================================================== *)
(** * Further properties: the rules of the top-level weighting engine *)

Lemma occ_as_filter (d : string) (scores : list DimensionScore) :
  occ d scores =
  List.length (filter (String.eqb d) (map dimension_id scores)).
Proof.
  unfold occ. induction scores as [ | s scores IH ]; [ reflexivity | ].
  cbn [cnt map filter andb]. rewrite IH.
  destruct (String.eqb d (dimension_id s)); reflexivity.
Qed.

(** X13. With one score for each dimension, rules 1 and 2 together raise every
    weight by the factor 1.2, whatever the gaps are: each score is in the
    reach of exactly one of the two rules. *)
Theorem rules_1_2_scale_uniformly (scores : list DimensionScore) (w : dict Q) :
  shaped w ->
  Permutation (map dimension_id scores) Full.dims ->
  exists w1 w2,
    Full._apply_rule_1_tight_gaps w scores = Ok w1
    /\ Full._apply_rule_2_large_gaps w1 scores = Ok w2
    /\ dict_keys w2 = Full.dims
    /\ forall d, In d Full.dims -> val d w2 == 1.2 * val d w.
Proof.
  intros Hs HP.
  assert (Hids : Forall (fun s => In (dimension_id s) Full.dims) scores).
  { apply Forall_forall. intros s Hin.
    apply (Permutation_in _ HP). apply in_map. exact Hin. }
  destruct (rules_1_2_val scores w Hs Hids) as [w1 [w2 [E1 [E2 [Hs2 Hv]]]]].
  exists w1, w2. split; [ exact E1 | ]. split; [ exact E2 | ].
  split; [ exact Hs2 | ].
  intros d Hd. rewrite Hv, occ_as_filter.
  rewrite (filter_length_perm _ _ _ HP).
  simpl in Hd.
  repeat (destruct Hd as [ <- | Hd ]; [ simpl; ring | ]). contradiction.
Qed.

Lemma rules_1_2_scale_uniformly_witness :
  shaped (Full._load_base_weights true)
  /\ Permutation (map dimension_id tension_scores) Full.dims
  /\ exists w1 w2,
      Full._apply_rule_1_tight_gaps (Full._load_base_weights true)
                                    tension_scores = Ok w1
      /\ Full._apply_rule_2_large_gaps w1 tension_scores = Ok w2
      /\ dict_keys w2 = Full.dims.
Proof.
  assert (H1 : shaped (Full._load_base_weights true)) by reflexivity.
  assert (H2 : Permutation (map dimension_id tension_scores) Full.dims)
    by apply Permutation_refl.
  split; [ exact H1 | ]. split; [ exact H2 | ].
  destruct (rules_1_2_scale_uniformly tension_scores _ H1 H2)
    as [w1 [w2 [E1 [E2 [Hk _]]]]].
  exists w1, w2. split; [ exact E1 | ]. split; [ exact E2 | exact Hk ].
Defined.

Lemma minimum_security_facts (w : dict Q) :
  let w' := Full._apply_minimum_security w in
  dict_keys w' = dict_keys w
  /\ Forall (fun v => 0.01 <= v) (dict_values w')
  /\ (forall k v, dict_get k w = Some v ->
                  dict_get k w' = Some (if Qltb v 0.01 then 0.01 else v))
  /\ (Forall (fun v => 0.01 <= v) (dict_values w) -> w' = w)
  /\ Full._apply_minimum_security w' = w'.
Proof.
  cbv zeta. unfold Full._apply_minimum_security, Full.MINIMUM_GEWICHT.
  induction w as [ | [k0 v0] w [IH1 [IH2 [IH3 [IH4 IH5]]]] ].
  - repeat split; try reflexivity; try constructor. intros k v H. discriminate.
  - cbn [map fst snd dict_keys dict_values].
    fold (dict_keys w). fold (dict_values w).
    destruct (Qltb v0 0.01) eqn:E; cbn [fst snd]; reflect_cmp.
    + split; [ f_equal; exact IH1 | ].
      split; [ constructor; [ lra | exact IH2 ] | ].
      split.
      { intros k v. cbn [dict_get]. destruct (String.eqb k k0).
        - intro H. injection H as <-.
          assert (E' : Qltb v0 0.01 = true) by (apply Qltb_lt; exact E).
          rewrite E'. reflexivity.
        - apply IH3. }
      split.
      { intro H. inversion H; subst. exfalso. lra. }
      cbn [map fst snd]. f_equal. exact IH5.
    + split; [ f_equal; exact IH1 | ].
      split; [ constructor; [ exact E | exact IH2 ] | ].
      split.
      { intros k v. cbn [dict_get]. destruct (String.eqb k k0).
        - intro H. injection H as <-.
          assert (E' : Qltb v0 0.01 = false) by (apply Qltb_ge; exact E).
          rewrite E'. reflexivity.
        - apply IH3. }
      split.
      { intro H. inversion H; subst. f_equal. apply IH4. assumption. }
      cbn [map fst snd].
      assert (E' : Qltb v0 0.01 = false) by (apply Qltb_ge; exact E).
      rewrite E'. f_equal. exact IH5.
Qed.

(** X14. After rule 7 no weight is below 0.01; the keys and every weight that
    was at least 0.01 are unchanged, and a second application changes
    nothing. *)
Theorem minimum_security_floor (w : dict Q) :
  let w' := Full._apply_minimum_security w in
  dict_keys w' = dict_keys w
  /\ Forall (fun v => 0.01 <= v) (dict_values w')
  /\ (forall k v, dict_get k w = Some v ->
                  dict_get k w' = Some (if Qltb v 0.01 then 0.01 else v))
  /\ (Forall (fun v => 0.01 <= v) (dict_values w) -> w' = w)
  /\ Full._apply_minimum_security w' = w'.
Proof. exact (minimum_security_facts w). Qed.

Lemma minimum_security_floor_witness :
  Forall (fun v => 0.01 <= v) (dict_values (Full._load_base_weights true))
  /\ Full._apply_minimum_security (Full._load_base_weights true)
     = Full._load_base_weights true.
Proof.
  assert (H : Forall (fun v => 0.01 <= v)
                     (dict_values (Full._load_base_weights true))).
  { cbn [Full._load_base_weights dict_values map snd].
    repeat (apply Forall_cons; [ qdec | ]). apply Forall_nil. }
  split; [ exact H | ].
  pose proof (minimum_security_floor (Full._load_base_weights true)) as R.
  cbv zeta in R. destruct R as [_ [_ [_ [R _]]]]. exact (R H).
Defined.


(* ================================================================== *)
(** * Further properties: the normalisation *)

Lemma normalize_total (w : dict Q) :
  w <> [] -> NoDup (dict_keys w) -> ~ Qsum (dict_values w) == 0 ->
  exists out,
    Full._normalize_weights w = Ok out
    /\ dict_keys out = dict_keys w
    /\ Qsum (dict_values out) == 1.
Proof.
  intros Hne Hnd Hsum. rewrite (normalize_weights_unfold w Hsum).
  set (nw := normalised w).
  assert (Hnne : nw <> []).
  { subst nw. destruct w; [ contradiction | discriminate ]. }
  assert (Hnnd : NoDup (dict_keys nw)).
  { subst nw. rewrite normalised_keys. exact Hnd. }
  assert (Hkeys : dict_keys (rounded3 nw) = dict_keys w).
  { unfold rounded3. rewrite dict_keys_map_values. apply normalised_keys. }
  destruct (Qlt_le_dec 0.0001 (Qabs (residual (rounded3 nw)))) as [Hbig | Hsmall].
  - destruct (round_and_correct_large nw Hnne Hnnd Hbig)
      as [k [v [Hl [Heq Hs]]]].
    exists (dict_set k (v + residual (rounded3 nw)) (rounded3 nw)).
    split; [ exact Heq | ]. split; [ | exact Hs ].
    rewrite dict_keys_set_present; [ exact Hkeys | ].
    apply dict_get_In. exists v. exact (proj1 Hl).
  - destruct (round_and_correct_small nw Hsmall) as [Heq Hs].
    exists (rounded3 nw). split; [ exact Heq | ]. split; [ exact Hkeys | exact Hs ].
Qed.

(** X15. Whatever non-empty weights with a sum other than zero it is given,
    [_normalize_weights] returns weights for the same keys, in the same
    order, that sum to exactly 1: either the rounded weights already do,
    or the correction of the largest one makes them. *)
Theorem normalize_weights_sum_one (w : dict Q) :
  w <> [] -> NoDup (dict_keys w) -> ~ Qsum (dict_values w) == 0 ->
  exists out,
    Full._normalize_weights w = Ok out
    /\ dict_keys out = dict_keys w
    /\ Qsum (dict_values out) == 1.
Proof. exact (normalize_total w). Qed.

Lemma normalize_weights_sum_one_witness :
  let w := [("D1", 0.3); ("D2", 0.4); ("D3", 0.5)]%string in
  w <> [] /\ NoDup (dict_keys w) /\ ~ Qsum (dict_values w) == 0
  /\ exists out,
      Full._normalize_weights w = Ok out
      /\ dict_keys out = dict_keys w
      /\ Qsum (dict_values out) == 1.
Proof.
  cbv zeta.
  assert (H1 : [("D1", 0.3); ("D2", 0.4); ("D3", 0.5)]%string <> @nil (string * Q))
    by discriminate.
  assert (H2 : NoDup (dict_keys [("D1", 0.3); ("D2", 0.4); ("D3", 0.5)]%string)).
  { repeat constructor; simpl; intuition discriminate. }
  assert (H3 : ~ Qsum (dict_values [("D1", 0.3); ("D2", 0.4); ("D3", 0.5)]%string)
                 == 0) by (intro H; vm_compute in H; discriminate).
  split; [ exact H1 | ]. split; [ exact H2 | ]. split; [ exact H3 | ].
  exact (normalize_weights_sum_one _ H1 H2 H3).
Defined.

Lemma round_half_up_Z_comp (x y : Q) :
  x == y -> round_half_up_Z x = round_half_up_Z y.
Proof.
  intro H. unfold round_half_up_Z.
  rewrite (Qleb_comp 0 0 (Qeq_refl 0) x y H).
  destruct (Qle_bool 0 y).
  - apply Qfloor_comp. rewrite H. reflexivity.
  - f_equal. apply Qfloor_comp. rewrite H. reflexivity.
Qed.

Lemma quantize3_comp (x y : Q) : x == y -> quantize3 x = quantize3 y.
Proof.
  intro H. unfold quantize3. f_equal. apply round_half_up_Z_comp.
  rewrite H. reflexivity.
Qed.

Lemma rounded3_same (w1 w2 : dict Q) :
  same_weights w1 w2 -> rounded3 w1 = rounded3 w2.
Proof.
  unfold same_weights. induction 1 as [ | [k1 v1] [k2 v2] w1 w2 [Hk Hv] _ IH ];
    [ reflexivity | ].
  simpl in Hk, Hv. subst k2. unfold rounded3 in *. cbn [map fst snd].
  rewrite IH, (quantize3_comp v1 v2 Hv). reflexivity.
Qed.

Lemma round_and_correct_same (w1 w2 : dict Q) :
  same_weights w1 w2 ->
  Full._round_and_correct w1 = Full._round_and_correct w2.
Proof.
  intro H. apply rounded3_same in H. unfold rounded3 in H.
  unfold Full._round_and_correct. cbv zeta. rewrite H. reflexivity.
Qed.

Lemma Forall2_map_same {A B : Type} (R : B -> B -> Prop) (f g : A -> B)
      (l : list A) :
  (forall x, In x l -> R (f x) (g x)) -> Forall2 R (map f l) (map g l).
Proof.
  induction l as [ | x l IH ]; intro H; simpl; constructor.
  - apply H. left. reflexivity.
  - apply IH. intros y Hy. apply H. right. exact Hy.
Qed.

Lemma scale_weights_sum (c : Q) (w : dict Q) :
  Qsum (dict_values (scale_weights c w)) == Qsum (dict_values w) * c.
Proof.
  unfold scale_weights, dict_values. rewrite map_map. cbn [snd].
  rewrite <- (map_map snd (fun v => v * c)). apply Qsum_scale.
Qed.

(** X16. The normalisation does not depend on the scale of its input: weights
    that are all multiplied by the same number other than zero give the
    same result, and the same exception where there is one. *)
Theorem normalize_weights_scale_invariant (c : Q) (w : dict Q) :
  ~ c == 0 ->
  Full._normalize_weights (scale_weights c w) = Full._normalize_weights w.
Proof.
  intro Hc. pose proof (scale_weights_sum c w) as Hs.
  destruct (Qeq_bool (Qsum (dict_values w)) 0) eqn:E.
  - apply Qeq_bool_iff in E.
    assert (E' : Qsum (dict_values (scale_weights c w)) == 0).
    { rewrite Hs, E. ring. }
    destruct w as [ | [k v] d ]; [ reflexivity | ].
    unfold Full._normalize_weights. cbv zeta.
    change (scale_weights c ((k, v) :: d))
      with ((k, v * c) :: scale_weights c d) in *.
    cbn [Full.divide_all]. unfold Full.ddiv.
    rewrite (Qeq_eq_bool _ _ E), (Qeq_eq_bool _ _ E').
    assert (Ev : Qeq_bool (v * c) 0 = Qeq_bool v 0).
    { destruct (Qeq_bool v 0) eqn:Ev.
      - apply Qeq_bool_iff in Ev. apply Qeq_eq_bool. rewrite Ev. ring.
      - apply not_true_is_false. intro A. apply Qeq_bool_iff in A.
        apply Qeq_bool_neq in Ev. apply Qmult_integral in A.
        destruct A; contradiction. }
    rewrite Ev. destruct (Qeq_bool v 0); reflexivity.
  - apply Qeq_bool_neq in E.
    assert (E' : ~ Qsum (dict_values (scale_weights c w)) == 0).
    { rewrite Hs. intro A. apply Qmult_integral in A. destruct A; contradiction. }
    rewrite (normalize_weights_unfold _ E'), (normalize_weights_unfold _ E).
    apply round_and_correct_same. unfold normalised, scale_weights.
    rewrite map_map. apply Forall2_map_same. intros [k v] _. cbn [fst snd].
    split; [ reflexivity | ].
    fold (scale_weights c w). rewrite Hs. field. split; assumption.
Qed.

Lemma normalize_weights_scale_invariant_witness :
  ~ 2 == 0
  /\ Full._normalize_weights
       (scale_weights 2 [("D1", 0.3); ("D2", 0.4); ("D3", 0.5)]%string)
     = Full._normalize_weights [("D1", 0.3); ("D2", 0.4); ("D3", 0.5)]%string.
Proof.
  assert (H : ~ 2 == 0) by (intro A; vm_compute in A; discriminate).
  split; [ exact H | ].
  exact (normalize_weights_scale_invariant 2 _ H).
Defined.

(** X17. Where the normalisation fails: an empty dictionary reaches [max] over
    no keys, a [ValueError]; weights whose sum is zero stop at the first
    division, with [InvalidOperation] when the first weight is zero itself
    and [ZeroDivisionError] otherwise. *)
Theorem normalize_weights_errors (k : string) (v : Q) (d : dict Q) :
  Full._normalize_weights [] =
  Raise (ValueError "max() arg is an empty sequence")
  /\ (Qsum (dict_values ((k, v) :: d)) == 0 ->
      Full._normalize_weights ((k, v) :: d) =
      Raise (if Qeq_bool v 0 then InvalidOperation else ZeroDivisionError)).
Proof.
  split; [ reflexivity | ].
  intro E. unfold Full._normalize_weights. cbv zeta.
  cbn [Full.divide_all]. unfold Full.ddiv at 1.
  rewrite (Qeq_eq_bool _ _ E). destruct (Qeq_bool v 0); reflexivity.
Qed.

Lemma normalize_weights_errors_witness :
  Qsum (dict_values [("D1", 1); ("D2", -1)]%string) == 0
  /\ Full._normalize_weights [("D1", 1); ("D2", -1)]%string =
     Raise ZeroDivisionError.
Proof.
  assert (H : Qsum (dict_values [("D1", 1); ("D2", -1)]%string) == 0)
    by reflexivity.
  split; [ exact H | ].
  exact (proj2 (normalize_weights_errors "D1" 1 [("D2", -1)]%string) H).
Defined.

(* ================================================================== *)
(** * Further properties: scores of unknown dimensions *)

Lemma dict_mul_absent (k : string) (c : Q) (w : dict Q) :
  shaped w -> ~ In k Full.dims -> Full.dict_mul k c w = Raise (KeyError k).
Proof.
  unfold shaped. intros Hs Hk. unfold Full.dict_mul.
  destruct (dict_get k w) as [ v | ] eqn:E; [ | reflexivity ].
  exfalso. apply Hk. rewrite <- Hs. apply dict_get_In. exists v. exact E.
Qed.

(** A loop of guarded multiplications either runs through, and then every
    score it touched names a known dimension, or stops with the
    [KeyError] of a score it touched that does not. *)
Lemma for_each_mul_cases (p : DimensionScore -> bool) (c : Q)
      (scores : list DimensionScore) (w : dict Q) :
  shaped w ->
  (exists w',
      for_each (fun w s => if p s then Full.dict_mul (dimension_id s) c w else Ok w)
               scores w = Ok w'
      /\ shaped w'
      /\ Forall (fun s => p s = true -> In (dimension_id s) Full.dims) scores)
  \/ (exists s,
         In s scores /\ ~ In (dimension_id s) Full.dims
         /\ for_each (fun w s => if p s then Full.dict_mul (dimension_id s) c w
                                 else Ok w)
                     scores w = Raise (KeyError (dimension_id s))).
Proof.
  revert w. induction scores as [ | s scores IH ]; intros w Hs.
  - left. exists w. split; [ reflexivity | ]. split; [ exact Hs | constructor ].
  - cbn [for_each]. destruct (p s) eqn:Ep.
    + destruct (in_dec string_dec (dimension_id s) Full.dims) as [Hin | Hout].
      * destruct (dict_mul_val (dimension_id s) c w Hs Hin) as [w1 [H1 [Hs1 _]]].
        rewrite H1. cbn [bind].
        destruct (IH w1 Hs1) as [[w' [H' [Hs' HF]]] | [s' [Hin' [Hout' H']]]].
        -- left. exists w'. split; [ exact H' | ]. split; [ exact Hs' | ].
           constructor; [ intros _; exact Hin | exact HF ].
        -- right. exists s'. split; [ right; exact Hin' | ].
           split; [ exact Hout' | exact H' ].
      * right. exists s. split; [ left; reflexivity | ].
        split; [ exact Hout | ].
        rewrite (dict_mul_absent _ c w Hs Hout). reflexivity.
    + cbn [bind].
      destruct (IH w Hs) as [[w' [H' [Hs' HF]]] | [s' [Hin' [Hout' H']]]].
      * left. exists w'. split; [ exact H' | ]. split; [ exact Hs' | ].
        constructor; [ intro A; congruence | exact HF ].
      * right. exists s'. split; [ right; exact Hin' | ].
        split; [ exact Hout' | exact H' ].
Qed.

Lemma unknown_dimension_raises
        (scores : list DimensionScore) (context_score : Q)
        (archetyp : Full.Archetyp) (is_kmu : bool) :
  Exists (fun s => ~ In (dimension_id s) Full.dims) scores ->
  exists s,
    In s scores /\ ~ In (dimension_id s) Full.dims
    /\ Full.calculate_dynamic_weights scores context_score archetyp is_kmu
       = Raise (KeyError (dimension_id s)).
Proof.
  intro Hex. unfold Full.calculate_dynamic_weights. cbv zeta.
  destruct (base_weights_shape is_kmu) as [Hs0 _].
  unfold Full._apply_rule_1_tight_gaps, Full._apply_rule_2_large_gaps.
  destruct (for_each_mul_cases tight_gap Full.ANPASSUNGSFAKTOR scores _ Hs0)
    as [[w1 [E1 [Hs1 HF1]]] | [s [Hin [Hout E1]]]].
  - unfold tight_gap in E1. rewrite E1. cbn [bind].
    destruct (for_each_mul_cases large_gap Full.ANPASSUNGSFAKTOR scores _ Hs1)
      as [[w2 [E2 [Hs2 HF2]]] | [s [Hin [Hout E2]]]].
    + exfalso. apply Exists_exists in Hex. destruct Hex as [s [Hin Hout]].
      rewrite Forall_forall in HF1, HF2.
      specialize (HF1 s Hin). specialize (HF2 s Hin).
      unfold tight_gap in HF1. unfold large_gap, Qgtb, Qltb in HF2.
      destruct (Qle_bool (Full.gap s) Full.SCHWELLENWERT_GAP);
        [ apply Hout, HF1; reflexivity | apply Hout, HF2; reflexivity ].
    + exists s. split; [ exact Hin | ]. split; [ exact Hout | ].
      unfold large_gap in E2. rewrite E2. reflexivity.
  - exists s. split; [ exact Hin | ]. split; [ exact Hout | ].
    unfold tight_gap in E1. rewrite E1. reflexivity.
Qed.

(** X18. When a score names a dimension other than D1 to D8,
    [calculate_dynamic_weights] returns no weights: rule 1 or rule 2
    raises the [KeyError] of such a score. *)
Theorem dynamic_weights_unknown_dimension
        (scores : list DimensionScore) (context_score : Q)
        (archetyp : Full.Archetyp) (is_kmu : bool) :
  Exists (fun s => ~ In (dimension_id s) Full.dims) scores ->
  exists s,
    In s scores /\ ~ In (dimension_id s) Full.dims
    /\ Full.calculate_dynamic_weights scores context_score archetyp is_kmu
       = Raise (KeyError (dimension_id s)).
Proof. exact (unknown_dimension_raises scores context_score archetyp is_kmu). Qed.

Lemma dynamic_weights_unknown_dimension_witness :
  Exists (fun s => ~ In (dimension_id s) Full.dims) stray_score
  /\ exists s,
      In s stray_score /\ ~ In (dimension_id s) Full.dims
      /\ Full.calculate_dynamic_weights stray_score 0.5 Full.CHAOTIC_DOER false
         = Raise (KeyError (dimension_id s)).
Proof.
  assert (H : Exists (fun s => ~ In (dimension_id s) Full.dims) stray_score).
  { apply Exists_cons_hd. intro A. simpl in A.
    repeat (destruct A as [A | A]; [ discriminate A | ]). exact A. }
  split; [ exact H | ].
  exact (dynamic_weights_unknown_dimension stray_score 0.5 Full.CHAOTIC_DOER
                                           false H).
Defined.


(* ================================================================== *)
(** * Further properties: when the top-level weighting returns *)

Lemma dynamic_weights_known (scores : list DimensionScore) (context_score : Q)
      (archetyp : Full.Archetyp) (is_kmu : bool) :
  Forall (fun s => In (dimension_id s) Full.dims) scores ->
  exists w,
    Full.calculate_dynamic_weights scores context_score archetyp is_kmu = Ok w
    /\ dict_keys w = Full.dims
    /\ Qsum (dict_values w) == 1.
Proof.
  intro Hids. unfold Full.calculate_dynamic_weights.
  destruct (base_weights_shape is_kmu) as [Hs0 _].
  destruct (rules_1_2_val scores _ Hs0 Hids) as [w1 [w2 [E1 [E2 [Hs2 _]]]]].
  destruct (rule_3_val scores w2 Hs2) as [w3 [E3 [Hs3 _]]].
  destruct (rule_4_val context_score w3 Hs3) as [w4 [E4 [Hs4 _]]].
  destruct (rule_5_val scores w4 Hs4 Hids) as [w5 [E5 [Hs5 _]]].
  destruct (rule_6_val archetyp w5 Hs5) as [Hs6 _].
  rewrite E1. cbn [bind]. rewrite E2. cbn [bind]. rewrite E3. cbn [bind].
  rewrite E4. cbn [bind]. rewrite E5. cbn [bind]. cbv zeta.
  set (w6 := Full._apply_rule_6_archetyp w5 archetyp) in *.
  destruct (minimum_security_facts w6) as [Hk [Hlo _]].
  set (w7 := Full._apply_minimum_security w6) in *.
  unfold shaped in Hs6. rewrite Hs6 in Hk.
  destruct dims_facts as [_ [_ [_ [_ [_ Hnd]]]]].
  assert (Hne : w7 <> []).
  { intro A. rewrite A in Hk. discriminate Hk. }
  assert (Hlen : List.length (dict_values w7) = 8%nat).
  { unfold dict_values. rewrite length_map, <- (length_map fst).
    fold (dict_keys w7). rewrite Hk. reflexivity. }
  assert (Hsum : ~ Qsum (dict_values w7) == 0).
  { pose proof (Qsum_lower 0.01 _ Hlo) as H. rewrite Hlen in H.
    change (inject_Z (Z.of_nat 8)) with 8 in H. intro A. lra. }
  assert (Hnd7 : NoDup (dict_keys w7)) by (rewrite Hk; exact Hnd).
  destruct (normalize_total w7 Hne Hnd7 Hsum) as [out [Eo [Hko Hso]]].
  exists out. split; [ exact Eo | ]. split; [ rewrite Hko; exact Hk | exact Hso ].
Qed.

(** X19. [calculate_dynamic_weights] returns weights exactly when every score
    names one of the dimensions D1 to D8, however many scores there are;
    the weights it returns are those of the eight dimensions and sum to
    exactly 1. *)
Theorem dynamic_weights_defined_iff
        (scores : list DimensionScore) (context_score : Q)
        (archetyp : Full.Archetyp) (is_kmu : bool) :
  ((exists w,
       Full.calculate_dynamic_weights scores context_score archetyp is_kmu
       = Ok w)
   <-> Forall (fun s => In (dimension_id s) Full.dims) scores)
  /\ forall w,
      Full.calculate_dynamic_weights scores context_score archetyp is_kmu = Ok w ->
      dict_keys w = Full.dims /\ Qsum (dict_values w) == 1.
Proof.
  assert (Hdec : forall s : DimensionScore,
             {In (dimension_id s) Full.dims} + {~ In (dimension_id s) Full.dims}).
  { intro s. apply (in_dec string_dec). }
  destruct (Forall_Exists_dec _ Hdec scores) as [HF | HE].
  - destruct (dynamic_weights_known scores context_score archetyp is_kmu HF)
      as [w [E [Hk Hs]]].
    split.
    + split; [ intros _; exact HF | intros _; exists w; exact E ].
    + intros w' E'. rewrite E in E'. injection E' as <-. split; assumption.
  - destruct (unknown_dimension_raises scores context_score archetyp is_kmu HE)
      as [s [_ [_ E]]].
    split.
    + split.
      * intros [w E']. rewrite E in E'. discriminate E'.
      * intro HF. exfalso. apply Exists_exists in HE.
        destruct HE as [x [Hx Hout]]. rewrite Forall_forall in HF.
        exact (Hout (HF x Hx)).
    + intros w' E'. rewrite E in E'. discriminate E'.
Qed.

Lemma dynamic_weights_defined_iff_witness :
  exists w,
    Full.calculate_dynamic_weights crowded_scores 0.5 Full.CHAOTIC_DOER false
    = Ok w
    /\ dict_keys w = Full.dims /\ Qsum (dict_values w) == 1.
Proof.
  destruct (Full.calculate_dynamic_weights crowded_scores 0.5
                                           Full.CHAOTIC_DOER false)
    as [ w | e ] eqn:E.
  - exists w. split; [ reflexivity | ].
    exact (proj2 (dynamic_weights_defined_iff crowded_scores 0.5
                    Full.CHAOTIC_DOER false) w E).
  - exfalso. vm_compute in E. discriminate E.
Defined.

(* ================================================================== *)
(** * Further properties: the calculation behind the API routes *)

Lemma dynamic_weights_eight (scores : list DimensionScore) (context_score : Q)
      (archetyp : Full.Archetyp) (is_kmu : bool) :
  eight_scores scores ->
  exists w,
    Full.calculate_dynamic_weights scores context_score archetyp is_kmu = Ok w
    /\ weights_ok w
    /\ Qsum (dict_values w) == 1.
Proof.
  intro H8.
  destruct (adjusted_weights scores context_score archetyp is_kmu H8)
    as [w7 [E [Hs7 Hb]]].
  destruct H8 as [Hlen Hids].
  destruct dims_facts as [_ [_ [_ [_ [_ Hnd]]]]].
  assert (Hvals : dict_values w7 = map (fun k => val k w7) Full.dims).
  { rewrite values_as_vals; [ rewrite Hs7; reflexivity | ].
    rewrite Hs7. exact Hnd. }
  assert (Hlen7 : List.length w7 = 8%nat).
  { rewrite <- (length_map fst). fold (dict_keys w7). rewrite Hs7. reflexivity. }
  assert (Hlo : Forall (fun v => 0.05 <= v) (dict_values w7)).
  { rewrite Hvals. apply Forall_map. apply Forall_forall.
    intros d Hd. apply (Hb d Hd). }
  assert (Hhi : Qsum (dict_values w7) <= 4).
  { rewrite Hvals. unfold Full.dims. cbn [map Qsum fold_right].
    pose proof (occ_total scores Hids) as Htot. rewrite Hlen in Htot.
    apply (f_equal Z.of_nat) in Htot. rewrite !Nat2Z.inj_add in Htot.
    apply (f_equal inject_Z) in Htot. rewrite !inject_Z_plus in Htot.
    change (inject_Z (Z.of_nat 8)) with 8 in Htot.
    assert (In1 : forall d, In d Full.dims ->
                  val d w7 <= 0.351 * (1 + 0.4125 * inject_Z (Z.of_nat (occ d scores))))
      by (intros d Hd; apply (Hb d Hd)).
    pose proof (In1 "D1"%string) as U1. pose proof (In1 "D2"%string) as U2.
    pose proof (In1 "D3"%string) as U3. pose proof (In1 "D4"%string) as U4.
    pose proof (In1 "D5"%string) as U5. pose proof (In1 "D6"%string) as U6.
    pose proof (In1 "D7"%string) as U7. pose proof (In1 "D8"%string) as U8.
    specialize (U1 ltac:(simpl; tauto)). specialize (U2 ltac:(simpl; tauto)).
    specialize (U3 ltac:(simpl; tauto)). specialize (U4 ltac:(simpl; tauto)).
    specialize (U5 ltac:(simpl; tauto)). specialize (U6 ltac:(simpl; tauto)).
    specialize (U7 ltac:(simpl; tauto)). specialize (U8 ltac:(simpl; tauto)).
    clear In1 Hb.
    set (n1 := inject_Z (Z.of_nat (occ "D1" scores))) in *.
    set (n2 := inject_Z (Z.of_nat (occ "D2" scores))) in *.
    set (n3 := inject_Z (Z.of_nat (occ "D3" scores))) in *.
    set (n4 := inject_Z (Z.of_nat (occ "D4" scores))) in *.
    set (n5 := inject_Z (Z.of_nat (occ "D5" scores))) in *.
    set (n6 := inject_Z (Z.of_nat (occ "D6" scores))) in *.
    set (n7 := inject_Z (Z.of_nat (occ "D7" scores))) in *.
    set (n8 := inject_Z (Z.of_nat (occ "D8" scores))) in *.
    assert (Htot' : n1 + n2 + n3 + n4 + n5 + n6 + n7 + n8 == 8)
      by (rewrite Htot; reflexivity).
    lra. }
  assert (Hnd7 : NoDup (dict_keys w7)) by (rewrite Hs7; exact Hnd).
  destruct (normalize_ok w7 Hlen7 Hnd7 Hlo Hhi) as [out [Eo [Hk [Hsum Hmin]]]].
  exists out. split; [ rewrite E; exact Eo | ].
  split; [ | exact Hsum ].
  split; [ rewrite Hk; exact Hs7 | ]. split; [ | exact Hmin ].
  apply Qabs_Qle_condition. split; lra.
Qed.

Lemma average_ok (values : list Q) :
  values <> [] ->
  Assessments.average values =
  Ok (Qsum values / inject_Z (Z.of_nat (List.length values))).
Proof. destruct values; [ contradiction | reflexivity ]. Qed.

Lemma attach_weight_id (w : dict Q) (s : DimensionScore) :
  dimension_id (Assessments.attach_weight w s) = dimension_id s.
Proof.
  unfold Assessments.attach_weight. destruct (dict_get _ _); reflexivity.
Qed.

Lemma map_nonempty {A B : Type} (f : A -> B) (l : list A) :
  l <> [] -> map f l <> [].
Proof. destruct l; [ contradiction | discriminate ]. Qed.

(** The whole calculation on known dimensions with at least one score. *)
Lemma complete_metrics_known
      (scores : list DimensionScore) (cfs : list ContextFactor)
      (archetype : string) (is_kmu : bool) :
  scores <> [] ->
  Forall (fun s => In (dimension_id s) Full.dims) scores ->
  exists r w,
    Assessments.calculate_complete_aihe_metrics scores cfs archetype is_kmu
    = Ok r
    /\ Full.calculate_dynamic_weights
         scores (Full.calculate_context_score cfs)
         (Assessments.archetyp_of archetype) is_kmu = Ok w
    /\ Assessments.dynamic_weights r = w
    /\ Assessments.dimension_analysis r =
       map Assessments.analyse (map (Assessments.attach_weight w) scores)
    /\ in_unit (Assessments.core_eqi r) /\ in_unit (Assessments.core_rgi r)
    /\ in_unit (Assessments.core_si r) /\ in_unit (Assessments.core_sbs r)
    /\ in_unit (Assessments.core_context_score r).
Proof.
  intros Hne Hids.
  destruct (dynamic_weights_known
              scores (Full.calculate_context_score cfs)
              (Assessments.archetyp_of archetype) is_kmu Hids)
    as [w [E _]].
  unfold Assessments.calculate_complete_aihe_metrics. cbv zeta.
  rewrite E. cbn [bind].
  set (scores' := map (Assessments.attach_weight w) scores).
  assert (Hne' : scores' <> []) by (apply map_nonempty; exact Hne).
  rewrite (average_ok (map ist_value scores') (map_nonempty _ _ Hne')).
  cbn [bind].
  rewrite (average_ok (map soll_value scores') (map_nonempty _ _ Hne')).
  cbn [bind].
  eexists. exists w. split; [ reflexivity | ].
  split; [ reflexivity | ]. split; [ reflexivity | ].
  split; [ reflexivity | ].
  cbn [Assessments.core_eqi Assessments.core_rgi Assessments.core_si
       Assessments.core_sbs Assessments.core_context_score].
  destruct (full_metrics_unit
              scores' cfs (Full.calculate_eqi scores')
              (Full.calculate_si scores') (Full.calculate_rgi scores'))
    as [A [B [C [D F]]]].
  unfold in_unit in *.
  repeat split; apply round_unit; assumption.
Qed.

(** X20. For eight scores of the dimensions D1 to D8
    [calculate_complete_aihe_metrics] returns a result, whatever the
    context factors, the archetype string and [is_kmu] are: the weights
    are those of the eight dimensions, sum to 1 and are at least 0.01
    each, the five core metrics lie in [0, 1], and the analysis has one
    entry for each score, in the order of the scores, that carries the
    weight the result reports for its dimension. *)
Theorem complete_metrics_on_eight_scores
        (scores : list DimensionScore) (cfs : list ContextFactor)
        (archetype : string) (is_kmu : bool) :
  eight_scores scores ->
  exists r,
    Assessments.calculate_complete_aihe_metrics scores cfs archetype is_kmu
    = Ok r
    /\ weights_ok (Assessments.dynamic_weights r)
    /\ Qsum (dict_values (Assessments.dynamic_weights r)) == 1
    /\ in_unit (Assessments.core_eqi r) /\ in_unit (Assessments.core_rgi r)
    /\ in_unit (Assessments.core_si r) /\ in_unit (Assessments.core_sbs r)
    /\ in_unit (Assessments.core_context_score r)
    /\ map Assessments.an_dimension_id (Assessments.dimension_analysis r)
       = map dimension_id scores
    /\ Forall (fun a =>
                 dict_get (Assessments.an_dimension_id a)
                          (Assessments.dynamic_weights r)
                 = Some (Assessments.an_dynamic_weight a))
              (Assessments.dimension_analysis r).
Proof.
  intros H8. pose proof H8 as [Hlen Hids].
  assert (Hne : scores <> []).
  { intro A. rewrite A in Hlen. discriminate Hlen. }
  destruct (complete_metrics_known scores cfs archetype is_kmu Hne Hids)
    as [r [w [E [Ew [Hw [Han [A [B [C [D F]]]]]]]]]].
  destruct (dynamic_weights_eight
              scores (Full.calculate_context_score cfs)
              (Assessments.archetyp_of archetype) is_kmu H8)
    as [w' [Ew' [Hok Hsum]]].
  rewrite Ew in Ew'. injection Ew' as <-.
  exists r. split; [ exact E | ]. rewrite Hw, Han.
  split; [ exact Hok | ]. split; [ exact Hsum | ].
  split; [ exact A | ]. split; [ exact B | ]. split; [ exact C | ].
  split; [ exact D | ]. split; [ exact F | ]. split.
  - rewrite !map_map. apply map_ext. intro s.
    exact (attach_weight_id w s).
  - apply Forall_map. apply Forall_map. apply Forall_forall. intros s Hs.
    rewrite Forall_forall in Hids. specialize (Hids s Hs).
    destruct Hok as [Hk _]. rewrite <- Hk in Hids.
    destruct (proj1 (dict_get_In _ _) Hids) as [v Hv].
    unfold Assessments.attach_weight. rewrite Hv.
    cbn. exact Hv.
Qed.

Lemma complete_metrics_on_eight_scores_witness :
  eight_scores tension_scores
  /\ exists r,
      Assessments.calculate_complete_aihe_metrics
        tension_scores [] "CHAOTIC_DOER" true = Ok r
      /\ weights_ok (Assessments.dynamic_weights r).
Proof.
  assert (H : eight_scores tension_scores).
  { split; [ reflexivity | ].
    repeat (apply Forall_cons; [ simpl; auto 10 | ]). apply Forall_nil. }
  split; [ exact H | ].
  destruct (complete_metrics_on_eight_scores tension_scores []
              "CHAOTIC_DOER" true H) as [r [E [Hok _]]].
  exists r. split; [ exact E | exact Hok ].
Defined.

(** X21. The three outcomes of [calculate_complete_aihe_metrics]: without any
    dimension score the averages of the metadata divide by zero; a score
    of an unknown dimension gives the [KeyError] of the weighting; in
    every other case there is a result. *)
Theorem complete_metrics_outcomes
        (scores : list DimensionScore) (cfs : list ContextFactor)
        (archetype : string) (is_kmu : bool) :
  (scores = [] ->
   Assessments.calculate_complete_aihe_metrics scores cfs archetype is_kmu
   = Raise ZeroDivisionError)
  /\ (Exists (fun s => ~ In (dimension_id s) Full.dims) scores ->
      exists s,
        In s scores /\ ~ In (dimension_id s) Full.dims
        /\ Assessments.calculate_complete_aihe_metrics
             scores cfs archetype is_kmu
           = Raise (KeyError (dimension_id s)))
  /\ (scores <> [] ->
      Forall (fun s => In (dimension_id s) Full.dims) scores ->
      exists r,
        Assessments.calculate_complete_aihe_metrics scores cfs archetype is_kmu
        = Ok r).
Proof.
  split; [ | split ].
  - intros ->.
    destruct (dynamic_weights_known
                [] (Full.calculate_context_score cfs)
                (Assessments.archetyp_of archetype) is_kmu (Forall_nil _))
      as [w [E _]].
    unfold Assessments.calculate_complete_aihe_metrics. cbv zeta.
    rewrite E. reflexivity.
  - intro HE.
    destruct (unknown_dimension_raises
                scores (Full.calculate_context_score cfs)
                (Assessments.archetyp_of archetype) is_kmu HE)
      as [s [Hin [Hout E]]].
    exists s. split; [ exact Hin | ]. split; [ exact Hout | ].
    unfold Assessments.calculate_complete_aihe_metrics. cbv zeta.
    rewrite E. reflexivity.
  - intros Hne Hids.
    destruct (complete_metrics_known scores cfs archetype is_kmu Hne Hids)
      as [r [w [E _]]].
    exists r. exact E.
Qed.

Lemma complete_metrics_outcomes_witness :
  Assessments.calculate_complete_aihe_metrics [] [] "CHAOTIC_DOER" false
  = Raise ZeroDivisionError
  /\ exists s,
      In s stray_score
      /\ Assessments.calculate_complete_aihe_metrics
           stray_score [] "CHAOTIC_DOER" false
         = Raise (KeyError (dimension_id s)).
Proof.
  split.
  - exact (proj1 (complete_metrics_outcomes [] [] "CHAOTIC_DOER" false)
                 eq_refl).
  - assert (H : Exists (fun s => ~ In (dimension_id s) Full.dims) stray_score).
    { apply Exists_cons_hd. intro A. simpl in A.
      repeat (destruct A as [A | A]; [ discriminate A | ]). exact A. }
    destruct (proj1 (proj2 (complete_metrics_outcomes
                              stray_score [] "CHAOTIC_DOER" false)) H)
      as [s [Hin [_ E]]].
    exists s. split; [ exact Hin | exact E ].
Defined.

Lemma urgent_tests (s : DimensionScore) :
  (Qltb (ist_value s) 2.0 && Qgtb (Full.gap s) 1.5 = true ->
   Qltb (ist_value s) 2.5 && Qgtb (Full.gap s) 1.0 = true)
  /\ (Qltb (ist_value s) 2.5 && Qgtb (Full.gap s) 1.0 = true ->
      0.8 < Qabs (ist_value s - soll_value s)).
Proof.
  unfold Full.gap. split; intro H; apply andb_prop in H; destruct H as [A B];
    apply Qltb_lt in A; apply Qgtb_gt in B.
  - apply andb_true_intro. split; [ apply Qltb_lt | apply Qgtb_gt ]; lra.
  - lra.
Qed.

(** X22. In every result of [calculate_complete_aihe_metrics] the lists fit
    together: a dimension listed as critical is also listed as high
    priority, and every dimension listed as high priority has a
    recommendation. *)
Theorem urgent_dimensions_recommended
        (scores : list DimensionScore) (cfs : list ContextFactor)
        (archetype : string) (is_kmu : bool)
        (r : Assessments.CalculationResult) :
  Assessments.calculate_complete_aihe_metrics scores cfs archetype is_kmu
  = Ok r ->
  incl (Assessments.critical_dimensions r)
       (Assessments.high_priority_dimensions r)
  /\ forall d, In d (Assessments.high_priority_dimensions r) ->
               exists rec, In rec (Assessments.recommendations r)
                           /\ Full.rec_dimension_id rec = d.
Proof.
  unfold Assessments.calculate_complete_aihe_metrics. cbv zeta.
  destruct (Full.calculate_dynamic_weights _ _ _ _) as [ w | e ];
    [ | discriminate ].
  cbn [bind]. set (scores' := map (Assessments.attach_weight w) scores).
  destruct (Assessments.average (map ist_value scores')) as [ a1 | e ];
    [ | discriminate ].
  cbn [bind].
  destruct (Assessments.average (map soll_value scores')) as [ a2 | e ];
    [ | discriminate ].
  cbn [bind]. intro H. injection H as <-.
  cbn [Assessments.critical_dimensions Assessments.high_priority_dimensions
       Assessments.recommendations].
  split.
  - intros d Hd. apply in_map_iff in Hd. destruct Hd as [s [Hid Hs]].
    apply filter_In in Hs. destruct Hs as [Hs Ht].
    apply in_map_iff. exists s. split; [ exact Hid | ].
    apply filter_In. split; [ exact Hs | ].
    apply (proj1 (urgent_tests s)). exact Ht.
  - intros d Hd. apply in_map_iff in Hd. destruct Hd as [s [Hid Hs]].
    apply filter_In in Hs. destruct Hs as [Hs Ht].
    exists (recommendation_of s). split.
    + apply recommendation_membership. exists s.
      split; [ exact Hs | ]. split; [ | reflexivity ].
      apply (proj2 (urgent_tests s)). exact Ht.
    + exact Hid.
Qed.

Lemma urgent_dimensions_recommended_witness :
  exists r,
    Assessments.calculate_complete_aihe_metrics
      tension_scores [] "CHAOTIC_DOER" true = Ok r
    /\ incl (Assessments.critical_dimensions r)
            (Assessments.high_priority_dimensions r).
Proof.
  destruct (Assessments.calculate_complete_aihe_metrics
              tension_scores [] "CHAOTIC_DOER" true) as [ r | e ] eqn:E.
  - exists r. split; [ reflexivity | ].
    exact (proj1 (urgent_dimensions_recommended
                    tension_scores [] "CHAOTIC_DOER" true r E)).
  - exfalso. vm_compute in E. discriminate E.
Defined.


(* ================================================================== *)
(** * Further properties: from subdimension scores to the result *)

Lemma dict_keys_set_absent {V : Type} (k : string) (v : V) (d : dict V) :
  ~ In k (dict_keys d) -> dict_keys (dict_set k v d) = dict_keys d ++ [k].
Proof.
  induction d as [ | [k0 v0] d IH ]; intro H; [ reflexivity | ].
  cbn [dict_set dict_keys map fst] in *. fold (dict_keys d) in *.
  destruct (String.eqb k k0) eqn:E.
  - apply String.eqb_eq in E. subst k0. exfalso. apply H. left. reflexivity.
  - cbn [map fst app]. fold (dict_keys (dict_set k v d)). rewrite IH; [ reflexivity | ].
    intro A. apply H. right. exact A.
Qed.

Lemma dict_set_NoDup {V : Type} (k : string) (v : V) (d : dict V) :
  NoDup (dict_keys d) -> NoDup (dict_keys (dict_set k v d)).
Proof.
  intro H. destruct (in_dec string_dec k (dict_keys d)) as [Hin | Hout].
  - rewrite dict_keys_set_present; assumption.
  - rewrite dict_keys_set_absent by exact Hout.
    apply NoDup_app; [ exact H | repeat constructor; simpl; tauto | ].
    intros x Hx [Heq | []]. subst x. contradiction.
Qed.

Lemma groups_NoDup (l : list Crud.SubdimensionScoreCreate)
      (g : dict (list Crud.SubdimensionScoreCreate)) :
  NoDup (dict_keys g) ->
  NoDup (dict_keys (fold_left Assessments.group_step l g)).
Proof.
  revert g. induction l as [ | s l IH ]; intros g H; [ exact H | ].
  cbn [fold_left]. apply IH. unfold Assessments.group_step.
  destruct (dict_get _ g); apply dict_set_NoDup; exact H.
Qed.

(** The group a key ends up with: what it had, then its members in the
    order of the list. *)
Lemma groups_get (l : list Crud.SubdimensionScoreCreate)
      (g : dict (list Crud.SubdimensionScoreCreate)) (k : string) :
  dict_get k (fold_left Assessments.group_step l g) =
  match dict_get k g, members k l with
  | None, [] => None
  | None, m => Some m
  | Some x, m => Some (x ++ m)
  end.
Proof.
  revert g. induction l as [ | s l IH ]; intro g.
  - cbn [fold_left members filter]. destruct (dict_get k g) as [ x | ];
      [ rewrite app_nil_r | ]; reflexivity.
  - cbn [fold_left]. rewrite IH. unfold Assessments.group_step.
    set (p := Assessments.dim_prefix (Crud.subdimension_id s)).
    assert (Hm : members k (s :: l) =
                 if String.eqb p k then s :: members k l else members k l)
      by reflexivity.
    rewrite Hm. clear Hm.
    destruct (String.eqb p k) eqn:E.
    + apply String.eqb_eq in E. subst k.
      destruct (dict_get p g) as [ x | ]; rewrite dict_get_set, String.eqb_refl.
      * rewrite <- app_assoc. reflexivity.
      * reflexivity.
    + assert (E' : String.eqb k p = false) by (rewrite String.eqb_sym; exact E).
      destruct (dict_get p g) as [ x | ]; rewrite dict_get_set, E'; reflexivity.
Qed.

Lemma members_ids_length (d : string) (v : list Crud.SubdimensionScoreCreate) :
  List.length (members d v) =
  List.length (filter (fun i => String.eqb (Assessments.dim_prefix i) d)
                      (map Crud.subdimension_id v)).
Proof.
  unfold members. induction v as [ | s v IH ]; [ reflexivity | ].
  cbn [map filter].
  destruct (String.eqb (Assessments.dim_prefix (Crud.subdimension_id s)) d);
    cbn [List.length]; rewrite IH; reflexivity.
Qed.

(** In a list the validator accepts, every dimension has two members. *)
Lemma validated_members (v : list Crud.SubdimensionScoreCreate) (d : string) :
  Permutation Crud.expected_subdimensions (map Crud.subdimension_id v) ->
  In d Full.dims -> List.length (members d v) = 2%nat.
Proof.
  intros HP Hd. rewrite members_ids_length.
  rewrite <- (filter_length_perm _ _ _ HP).
  simpl in Hd.
  repeat (destruct Hd as [ <- | Hd ]; [ reflexivity | ]). contradiction.
Qed.

Lemma validated_prefixes (v : list Crud.SubdimensionScoreCreate) (s : Crud.SubdimensionScoreCreate) :
  Permutation Crud.expected_subdimensions (map Crud.subdimension_id v) ->
  In s v -> In (Assessments.dim_prefix (Crud.subdimension_id s)) Full.dims.
Proof.
  intros HP Hs.
  assert (Hin : In (Crud.subdimension_id s) Crud.expected_subdimensions).
  { apply (Permutation_in _ (Permutation_sym HP)). apply in_map. exact Hs. }
  simpl in Hin.
  repeat (destruct Hin as [ <- | Hin ]; [ simpl; auto 10 | ]). contradiction.
Qed.

(** The groups of a validated list: the eight dimensions, each once. *)
Lemma validated_groups (v : list Crud.SubdimensionScoreCreate) :
  Permutation Crud.expected_subdimensions (map Crud.subdimension_id v) ->
  Permutation (dict_keys (Assessments.dimension_groups v)) Full.dims
  /\ forall k g, In (k, g) (Assessments.dimension_groups v) ->
                 In k Full.dims /\ g = members k v.
Proof.
  intro HP. unfold Assessments.dimension_groups.
  assert (Hnd : NoDup (dict_keys (fold_left Assessments.group_step v []))).
  { apply groups_NoDup. constructor. }
  assert (Hget : forall k,
             dict_get k (fold_left Assessments.group_step v []) =
             match members k v with [] => None | m => Some m end).
  { intro k. rewrite groups_get. reflexivity. }
  assert (Hkey : forall k,
             In k (dict_keys (fold_left Assessments.group_step v []))
             <-> In k Full.dims).
  { intro k. rewrite dict_get_In, Hget. split.
    - intros [m Hm]. destruct (members k v) as [ | s m' ] eqn:E;
        [ discriminate | ].
      assert (Hs : In s (members k v)) by (rewrite E; left; reflexivity).
      unfold members in Hs. apply filter_In in Hs. destruct Hs as [Hs Hp].
      apply String.eqb_eq in Hp. subst k. apply (validated_prefixes v s HP Hs).
    - intro Hd. pose proof (validated_members v k HP Hd) as Hlen.
      destruct (members k v) as [ | s m' ]; [ discriminate Hlen | ].
      eexists. reflexivity. }
  split.
  - apply NoDup_Permutation; [ exact Hnd | | exact Hkey ].
    destruct dims_facts as [_ [_ [_ [_ [_ H]]]]]. exact H.
  - intros k g Hin. assert (Hk : In k Full.dims).
    { apply Hkey. unfold dict_keys. apply in_map_iff.
      exists (k, g). split; [ reflexivity | exact Hin ]. }
    split; [ exact Hk | ].
    pose proof (In_dict_get _ _ _ Hnd Hin) as Hg. rewrite Hget in Hg.
    destruct (members k v); [ discriminate | ]. injection Hg as <-. reflexivity.
Qed.

Lemma average_group_id (group : string * list Crud.SubdimensionScoreCreate) :
  dimension_id (Assessments.average_group group) = fst group.
Proof. destruct group. reflexivity. Qed.

Lemma validated_dimension_scores (v : list Crud.SubdimensionScoreCreate) :
  Permutation Crud.expected_subdimensions (map Crud.subdimension_id v) ->
  Permutation (map dimension_id (Assessments.to_dimension_scores v)) Full.dims
  /\ eight_scores (Assessments.to_dimension_scores v).
Proof.
  intro HP. destruct (validated_groups v HP) as [Hperm Hgroups].
  assert (Hids : map dimension_id (Assessments.to_dimension_scores v)
                 = dict_keys (Assessments.dimension_groups v)).
  { unfold Assessments.to_dimension_scores, dict_keys. rewrite map_map.
    apply map_ext. intro g. apply average_group_id. }
  split; [ rewrite Hids; exact Hperm | ].
  split.
  - rewrite <- (length_map dimension_id), Hids, (Permutation_length Hperm).
    reflexivity.
  - apply Forall_forall. intros s Hs.
    apply (Permutation_in _ Hperm). rewrite <- Hids. apply in_map. exact Hs.
Qed.

Lemma attach_weight_values (w : dict Q) (s : DimensionScore) :
  ist_value (Assessments.attach_weight w s) = ist_value s
  /\ soll_value (Assessments.attach_weight w s) = soll_value s.
Proof.
  unfold Assessments.attach_weight. destruct (dict_get _ _); split; reflexivity.
Qed.

(** X23. A completion the schema validator accepts always gets its metrics:
    [calculate_aihe_metrics] returns a result with one analysis entry for
    each of the eight dimensions, the current and the target value of an
    entry being the means of the two subdimension scores of its
    dimension; the weights sum to 1, none below 0.01, and the five core
    metrics lie in [0, 1]. *)
Theorem validated_completion_metrics
        (c : Crud.AssessmentCompletion) (archetype : string) (is_kmu : bool) :
  Crud.validate_all_subdimensions (Crud.subdimension_scores c)
  = Ok (Crud.subdimension_scores c) ->
  exists r,
    Assessments.calculate_aihe_metrics c archetype is_kmu = Ok r
    /\ Permutation (map Assessments.an_dimension_id
                        (Assessments.dimension_analysis r)) Full.dims
    /\ Forall (fun a =>
                 exists s1 s2,
                   members (Assessments.an_dimension_id a)
                           (Crud.subdimension_scores c) = [s1; s2]
                   /\ Assessments.an_ist_value a
                      == (Crud.sub_ist_value s1 + Crud.sub_ist_value s2) / 2
                   /\ Assessments.an_soll_value a
                      == (Crud.sub_soll_value s1 + Crud.sub_soll_value s2) / 2)
              (Assessments.dimension_analysis r)
    /\ weights_ok (Assessments.dynamic_weights r)
    /\ Qsum (dict_values (Assessments.dynamic_weights r)) == 1
    /\ in_unit (Assessments.core_eqi r) /\ in_unit (Assessments.core_rgi r)
    /\ in_unit (Assessments.core_si r) /\ in_unit (Assessments.core_sbs r)
    /\ in_unit (Assessments.core_context_score r).
Proof.
  intro Hv. destruct (validated_ids _ _ Hv) as [_ HP].
  set (v := Crud.subdimension_scores c) in *.
  destruct (validated_dimension_scores v HP) as [Hperm H8].
  destruct (validated_groups v HP) as [_ Hgroups].
  unfold Assessments.calculate_aihe_metrics. cbv zeta. fold v.
  set (scores := Assessments.to_dimension_scores v) in *.
  pose proof H8 as [Hlen Hids].
  assert (Hne : scores <> []).
  { intro A. rewrite A in Hlen. discriminate Hlen. }
  destruct (complete_metrics_known scores (Crud.context_factors c)
                                   archetype is_kmu Hne Hids)
    as [r [w [E [Ew [Hw [Han [A [B [C [D F]]]]]]]]]].
  destruct (dynamic_weights_eight
              scores (Full.calculate_context_score (Crud.context_factors c))
              (Assessments.archetyp_of archetype) is_kmu H8)
    as [w' [Ew' [Hok Hsum]]].
  rewrite Ew in Ew'. injection Ew' as <-.
  exists r. split; [ exact E | ]. rewrite Hw, Han.
  split; [ | split; [ | split; [ exact Hok | ]; split; [ exact Hsum | ];
                        split; [ exact A | ]; split; [ exact B | ];
                        split; [ exact C | ]; split; [ exact D | exact F ] ] ].
  - rewrite !map_map.
    rewrite (map_ext _ dimension_id); [ exact Hperm | ].
    intro s. exact (attach_weight_id w s).
  - apply Forall_map. apply Forall_map. apply Forall_forall. intros s Hs.
    subst scores. unfold Assessments.to_dimension_scores in Hs.
    apply in_map_iff in Hs. destruct Hs as [[k g] [Hs Hin]].
    destruct (Hgroups k g Hin) as [Hk Hg].
    pose proof (validated_members v k HP Hk) as Hlen2.
    rewrite <- Hg in Hlen2.
    destruct g as [ | s1 [ | s2 [ | s3 g ] ] ]; try discriminate Hlen2.
    exists s1, s2.
    destruct (attach_weight_values w s) as [Hi Ho].
    change (Assessments.an_dimension_id
              (Assessments.analyse (Assessments.attach_weight w s)))
      with (dimension_id (Assessments.attach_weight w s)).
    change (Assessments.an_ist_value
              (Assessments.analyse (Assessments.attach_weight w s)))
      with (ist_value (Assessments.attach_weight w s)).
    change (Assessments.an_soll_value
              (Assessments.analyse (Assessments.attach_weight w s)))
      with (soll_value (Assessments.attach_weight w s)).
    rewrite attach_weight_id, Hi, Ho. subst s.
    cbn [Assessments.average_group dimension_id ist_value soll_value
         List.length map Qsum fold_right].
    change (inject_Z (Z.of_nat 2)) with 2.
    split; [ symmetry; exact Hg | ]. split; field.
Qed.

Lemma validated_completion_metrics_witness :
  Crud.validate_all_subdimensions (Crud.subdimension_scores sixteen_scores)
  = Ok (Crud.subdimension_scores sixteen_scores)
  /\ exists r,
      Assessments.calculate_aihe_metrics sixteen_scores "CHAOTIC_DOER" false
      = Ok r
      /\ Permutation (map Assessments.an_dimension_id
                          (Assessments.dimension_analysis r)) Full.dims.
Proof.
  assert (H : Crud.validate_all_subdimensions
                (Crud.subdimension_scores sixteen_scores)
              = Ok (Crud.subdimension_scores sixteen_scores)) by reflexivity.
  split; [ exact H | ].
  destruct (validated_completion_metrics sixteen_scores "CHAOTIC_DOER" false H)
    as [r [E [Hp _]]].
  exists r. split; [ exact E | exact Hp ].
Defined.


(* ================================================================== *)
(** * Further properties: the organisations table *)

Lemma In_firstn {A : Type} (n : nat) (l : list A) (x : A) :
  In x (firstn n l) -> In x l.
Proof.
  revert l. induction n as [ | n IH ]; intros [ | y l ] H; try contradiction.
  cbn [firstn In] in *. destruct H as [H | H]; [ left; exact H | ].
  right. apply IH. exact H.
Qed.

Lemma In_skipn {A : Type} (n : nat) (l : list A) (x : A) :
  In x (skipn n l) -> In x l.
Proof.
  revert l. induction n as [ | n IH ]; intros [ | y l ] H; try exact H.
  right. apply IH. exact H.
Qed.

Lemma update_row_ids (id : nat) (db : Organisations.Table) :
  map Organisations.organisation_id
      (Organisations.update_row id Organisations.deactivate db)
  = map Organisations.organisation_id db.
Proof.
  induction db as [ | x db IH ]; [ reflexivity | ].
  cbn [Organisations.update_row].
  destruct (Nat.eqb (Organisations.organisation_id x) id);
    cbn [map]; [ reflexivity | rewrite IH; reflexivity ].
Qed.

(** The rows after the update: the deactivated row, and every row of
    another id as it was. *)
Lemma update_row_In (id : nat) (db : Organisations.Table)
      (obj o : Organisations.Organisation) :
  NoDup (map Organisations.organisation_id db) ->
  find (fun o => Nat.eqb (Organisations.organisation_id o) id) db = Some obj ->
  In o (Organisations.update_row id Organisations.deactivate db)
  <-> (o = Organisations.deactivate obj
       \/ (In o db /\ Organisations.organisation_id o <> id)).
Proof.
  induction db as [ | x db IH ]; intros Hnd Hf; [ discriminate Hf | ].
  cbn [find Organisations.update_row] in *.
  inversion Hnd as [ | ? ? Hx Hnd' ]; subst.
  destruct (Nat.eqb (Organisations.organisation_id x) id) eqn:E.
  - injection Hf as <-. apply Nat.eqb_eq in E. cbn [In]. split.
    + intros [H | H]; [ left; symmetry; exact H | ].
      right. split; [ right; exact H | ].
      intro A. apply Hx. rewrite E, <- A. apply in_map. exact H.
    + intros [H | [[H | H] Hne]].
      * left. symmetry. exact H.
      * subst o. contradiction.
      * right. exact H.
  - apply Nat.eqb_neq in E. cbn [In]. rewrite (IH Hnd' Hf). split.
    + intros [H | [H | [H Hne]]].
      * subst o. right. split; [ left; reflexivity | exact E ].
      * left. exact H.
      * right. split; [ right; exact H | exact Hne ].
    + intros [H | [[H | H] Hne]].
      * right. left. exact H.
      * left. exact H.
      * right. right. split; assumption.
Qed.

Lemma update_row_find_name (id : nat) (n : string) (db : Organisations.Table) :
  Organisations.get_by_name db n <> None ->
  Organisations.get_by_name
    (Organisations.update_row id Organisations.deactivate db) n <> None.
Proof.
  unfold Organisations.get_by_name.
  induction db as [ | x db IH ]; [ intro H; exact H | ].
  cbn [find Organisations.update_row].
  destruct (Nat.eqb (Organisations.organisation_id x) id).
  - cbn [find Organisations.deactivate Organisations.name].
    destruct (String.eqb (Organisations.name x) n); [ discriminate | ].
    intro H. exact H.
  - cbn [find]. destruct (String.eqb (Organisations.name x) n);
      [ discriminate | exact IH ].
Qed.

(** X24. [remove] is a soft delete.  On a table whose ids are distinct, the
    call for a known id returns the organisation with [active] off and
    keeps every row: ids and order are the same and the rows of other
    ids are untouched.  Afterwards no listing of active organisations
    ([get_multi] with [active_only], [get_by_industry],
    [get_by_archetype]) returns that id, while [get_by_name] still finds
    the organisation.  An unknown id gives no result. *)
Theorem remove_is_soft_delete (db : Organisations.Table) (id : nat) :
  NoDup (map Organisations.organisation_id db) ->
  match Organisations.remove db id with
  | None => ~ In id (map Organisations.organisation_id db)
  | Some (obj, db') =>
      Organisations.organisation_id obj = id
      /\ Organisations.active obj = false
      /\ map Organisations.organisation_id db'
         = map Organisations.organisation_id db
      /\ In obj db'
      /\ (forall o, Organisations.organisation_id o <> id ->
                    (In o db' <-> In o db))
      /\ (forall skip limit o,
             In o (Organisations.get_multi db' skip limit true) ->
             Organisations.organisation_id o <> id)
      /\ (forall i o, In o (Organisations.get_by_industry db' i) ->
                      Organisations.organisation_id o <> id)
      /\ (forall a o, In o (Organisations.get_by_archetype db' a) ->
                      Organisations.organisation_id o <> id)
      /\ Organisations.get_by_name db' (Organisations.name obj) <> None
  end.
Proof.
  intro Hnd. unfold Organisations.remove.
  destruct (find (fun o => Nat.eqb (Organisations.organisation_id o) id) db)
    as [ obj | ] eqn:Hf.
  - set (db' := Organisations.update_row id Organisations.deactivate db).
    pose proof (find_some _ _ Hf) as [Hin Hid]. apply Nat.eqb_eq in Hid.
    assert (HIn : forall o, In o db' <->
                            (o = Organisations.deactivate obj
                             \/ (In o db /\ Organisations.organisation_id o <> id))).
    { intro o. apply update_row_In; assumption. }
    assert (Hact : forall o, In o db' -> Organisations.active o = true ->
                             Organisations.organisation_id o <> id).
    { intros o Ho Ha. apply HIn in Ho. destruct Ho as [-> | [_ Hne]];
        [ discriminate Ha | exact Hne ]. }
    split; [ exact Hid | ]. split; [ reflexivity | ].
    split; [ apply update_row_ids | ].
    split; [ apply HIn; left; reflexivity | ].
    split; [ | split; [ | split; [ | split ] ] ].
    + intros o Hne. rewrite HIn. split.
      * intros [-> | [H _]]; [ exfalso; apply Hne; exact Hid | exact H ].
      * intro H. right. split; assumption.
    + intros skip limit o Ho. unfold Organisations.get_multi in Ho.
      apply In_firstn in Ho. apply In_skipn in Ho.
      apply filter_In in Ho. destruct Ho as [Ho Ha]. exact (Hact o Ho Ha).
    + intros i o Ho. unfold Organisations.get_by_industry in Ho.
      apply filter_In in Ho. destruct Ho as [Ho Ha].
      apply andb_prop in Ha. exact (Hact o Ho (proj2 Ha)).
    + intros a o Ho. unfold Organisations.get_by_archetype in Ho.
      apply filter_In in Ho. destruct Ho as [Ho Ha].
      apply andb_prop in Ha. exact (Hact o Ho (proj2 Ha)).
    + change (Organisations.name (Organisations.deactivate obj))
        with (Organisations.name obj).
      apply update_row_find_name. unfold Organisations.get_by_name.
      destruct (find (fun o => String.eqb (Organisations.name o)
                                          (Organisations.name obj)) db) eqn:E;
        [ discriminate | ].
      exfalso. pose proof (find_none _ _ E obj Hin) as A. cbv beta in A.
      rewrite String.eqb_refl in A. discriminate A.
  - intro Hin. apply in_map_iff in Hin. destruct Hin as [o [Ho Hin]].
    pose proof (find_none _ _ Hf o Hin) as A. cbv beta in A.
    rewrite Ho, Nat.eqb_refl in A. discriminate A.
Qed.

Lemma remove_is_soft_delete_witness :
  NoDup (map Organisations.organisation_id two_organisations)
  /\ match Organisations.remove two_organisations 2 with
     | None => False
     | Some (obj, db') =>
         Organisations.active obj = false
         /\ map Organisations.organisation_id db'
            = map Organisations.organisation_id two_organisations
     end.
Proof.
  assert (H : NoDup (map Organisations.organisation_id two_organisations)).
  { repeat constructor; simpl; intuition discriminate. }
  split; [ exact H | ].
  pose proof (remove_is_soft_delete two_organisations 2 H) as R.
  destruct (Organisations.remove two_organisations 2) as [ [obj db'] | ] eqn:E.
  - destruct R as [_ [Hact [Hids _]]]. split; [ exact Hact | exact Hids ].
  - vm_compute in E. discriminate E.
Defined.


(* ================================================================== *)
(** * Further properties: the two engines side by side *)

Lemma clamp01_id (x : Q) : 0 <= x <= 1 -> Full.clamp01 x == x.
Proof.
  intros [H0 H1]. unfold Full.clamp01.
  destruct (Q.min_spec 1 x) as [[E' E] | [E' E]];
    destruct (Q.max_spec 0 (Qmin 1 x)) as [[F' F] | [F' F]]; lra.
Qed.

Lemma backend_shape_eight (l : list DimensionScore) :
  List.length l = 8%nat -> Backend.bad_shape l = false.
Proof.
  intro H. unfold Backend.bad_shape. destruct l; [ discriminate H | ].
  rewrite H. reflexivity.
Qed.

Lemma round3_near (x : Q) : x - 0.0005 <= round x 3 <= x + 0.0005.
Proof.
  unfold round. change (scale 3) with 1000%positive.
  destruct (round_half_even_Z_near (x * inject_Z (Zpos 1000))) as [A B].
  set (r := round_half_even_Z (x * inject_Z (Zpos 1000))) in *.
  rewrite (Qmake_as_div r 1000).
  change (inject_Z (Zpos 1000)) with 1000 in *.
  unfold Qdiv. change (/ 1000) with (1 # 1000). split; lra.
Qed.

(** In the decimals the program is written in, the backend value is the
    top-level value rounded to three places. *)
Lemma backend_rounds_full (l : list DimensionScore) :
  List.length l = 8%nat ->
  Backend.calculate_eqi l = round (Full.calculate_eqi l) 3
  /\ (0 <= Qsum (map (fun s => ist_value s * dynamic_weight s) l) <= 4 ->
      Backend.calculate_rgi l = round (Full.calculate_rgi l) 3).
Proof.
  intro Hlen. pose proof (backend_shape_eight l Hlen) as Hs.
  unfold Backend.calculate_eqi, Backend.calculate_rgi. rewrite Hs.
  unfold Full.calculate_eqi, Full.calculate_rgi. cbv zeta. split.
  - apply round_comp. unfold Full.clamp01.
    change (map (fun s => Qabs (ist_value s - soll_value s)) l)
      with (map Full.gap l).
    assert (HG : 0 <= Qsum (map Full.gap l)).
    { apply Qsum_nonneg. apply Forall_map. apply Forall_forall.
      intros s _. apply Qabs_nonneg. }
    set (G := Qsum (map Full.gap l)) in *.
    assert (E : G / (8 * 3) == G / 24) by (field; discriminate).
    assert (Hg : 0 <= G / 24).
    { unfold Qdiv. change (/ 24) with (1 # 24). lra. }
    destruct (Q.min_spec 1 (G / (8 * 3))) as [[A' A] | [A' A]];
      destruct (Q.min_spec 1 (1 - G / 24)) as [[B' B] | [B' B]];
      destruct (Q.max_spec 0 (Qmin 1 (1 - G / 24))) as [[C' C] | [C' C]];
      lra.
  - intros [H0 H4]. apply round_comp. symmetry. apply clamp01_id.
    unfold Qdiv. change (/ 4) with (1 # 4). split; lra.
Qed.

(** X25. On eight dimension scores the two engines agree on the EQI to
    within one unit of the third decimal: the backend rounds to three
    places what the top-level engine returns unrounded.  The same holds
    for the RGI as long as the weighted sum of the current values lies
    between 0 and 4; above 4 the top-level engine clamps and the backend
    does not.  (The last digit of the backend value itself can go either
    way when the unrounded value ends in a 5 at the fourth place.) *)
Theorem engines_agree_on_eqi_rgi (l : list DimensionScore) :
  List.length l = 8%nat ->
  Qabs (Backend.calculate_eqi l - Full.calculate_eqi l) <= 0.001
  /\ (0 <= Qsum (map (fun s => ist_value s * dynamic_weight s) l) <= 4 ->
      Qabs (Backend.calculate_rgi l - Full.calculate_rgi l) <= 0.001).
Proof.
  intro Hlen. destruct (backend_rounds_full l Hlen) as [He Hr]. split.
  - rewrite He. destruct (round3_near (Full.calculate_eqi l)) as [A B].
    apply Qabs_Qle_condition. split; lra.
  - intro H. rewrite (Hr H).
    destruct (round3_near (Full.calculate_rgi l)) as [A B].
    apply Qabs_Qle_condition. split; lra.
Qed.

Lemma engines_agree_on_eqi_rgi_witness :
  List.length tension_scores = 8%nat
  /\ Qabs (Backend.calculate_eqi tension_scores
           - Full.calculate_eqi tension_scores) <= 0.001.
Proof.
  assert (H : List.length tension_scores = 8%nat) by reflexivity.
  split; [ exact H | ].
  exact (proj1 (engines_agree_on_eqi_rgi tension_scores H)).
Defined.

Lemma combine_values (cfs : list ContextFactor) (ws : list Q) :
  map (fun fw => inject_Z (factor_value (fst fw)) * snd fw) (combine cfs ws)
  = map (fun vw => inject_Z (fst vw) * snd vw)
        (combine (map factor_value cfs) ws).
Proof.
  revert ws. induction cfs as [ | f cfs IH ]; intros [ | w ws ];
    try reflexivity.
  cbn [map combine fst snd]. rewrite IH. reflexivity.
Qed.

(** X26. The top-level context score reads the factors by position, never by
    name: two lists with the same values in the same order get the same
    score.  With a number of factors other than ten the score is 0.5;
    with ten factors of values 0 to 3 it is the weighted sum of the
    values divided by 3, and the clamp to [0, 1] never acts. *)
Theorem full_context_score_positional (cfs : list ContextFactor) :
  (forall cfs', map factor_value cfs = map factor_value cfs' ->
                Full.calculate_context_score cfs
                = Full.calculate_context_score cfs')
  /\ (List.length cfs <> 10%nat -> Full.calculate_context_score cfs = 0.5)
  /\ (List.length cfs = 10%nat -> Forall valid_factor cfs ->
      Full.calculate_context_score cfs == weighted_factor_sum cfs / 3).
Proof.
  split; [ | split ].
  - intros cfs' H. unfold Full.calculate_context_score. cbv zeta.
    assert (Hlen : List.length cfs = List.length cfs').
    { rewrite <- (length_map factor_value cfs), H. apply length_map. }
    rewrite Hlen, !combine_values, H. reflexivity.
  - intro H. unfold Full.calculate_context_score.
    apply Nat.eqb_neq in H. rewrite H. reflexivity.
  - intros Hlen Hv. unfold Full.calculate_context_score. rewrite Hlen.
    cbn [Nat.eqb negb]. cbv zeta. fold (weighted_factor_sum cfs).
    apply clamp01_id. unfold weighted_factor_sum.
    do 10 (destruct cfs as [ | ? cfs ]; [ discriminate Hlen | ]).
    destruct cfs; [ | discriminate Hlen ].
    repeat match goal with
           | H : Forall _ (_ :: _) |- _ => inversion H; subst; clear H
           end.
    unfold valid_factor in *.
    cbn [Full.context_weights combine map fst snd Qsum fold_right].
    repeat match goal with
           | H : (0 <= factor_value ?f <= 3)%Z |- _ =>
               let A := fresh "A" in
               let B := fresh "B" in
               destruct H as [A B];
               apply inject_Z_le in A; apply inject_Z_le in B;
               change (inject_Z 0) with 0 in A;
               change (inject_Z 3) with 3 in B;
               generalize dependent (inject_Z (factor_value f)); intros
           end.
    unfold Qdiv. change (/ 3) with (1 # 3). split; lra.
Qed.

Lemma full_context_score_positional_witness :
  List.length (@nil ContextFactor) <> 10%nat
  /\ Full.calculate_context_score [] = 0.5.
Proof.
  assert (H : List.length (@nil ContextFactor) <> 10%nat) by discriminate.
  split; [ exact H | ].
  exact (proj1 (proj2 (full_context_score_positional [])) H).
Defined.
